(** * Outdated-version alerts and the project base URL hook

    A shallow embedding of
    [packages/amplication-server/src/core/outdatedVersionAlert/outdatedVersionAlert.service.ts]
    (class [OutdatedVersionAlertService]) and of the client hook
    [useProjectBaseUrl].

    The service is asynchronous TypeScript over a relational store.  Every
    [await] in it is sequential, so a method is embedded as a computation in a
    state-and-exception monad [M]: the state is the alert table together with
    the effects that left the service (rows inserted, Kafka messages
    dispatched, lines logged); an exception leaves the state as it was at the
    point of the throw, since nothing in the service opens a transaction.

    The injected collaborators (resource, project and plugin-installation
    services, the Kafka producer, the configuration service) are not part of
    the file; they are record-typed section variables with the signatures the
    service uses.

    What is modelled of failure is what the service itself shows: the two
    explicit throws, the [null] answer of the resource lookup, and the
    rejection of the promise of [emitMessage], which the service catches.
    The store and the lookups answer every call; a broken connection to the
    database is outside the model. *)

From stdpp Require Import gmap strings list fin_maps.

Set Warnings "-register-all".
Open Scope string_scope.

(** ** Enumerations *)

Module EnumOutdatedVersionAlertType.
(** Modelled from the spec: the enumeration is declared outside the sources
    at hand; the spec lists these two types. *)
Inductive t : Type := TemplateVersion | PluginVersion.
#[global] Instance alertType_eq_dec : EqDecision t.
Proof. solve_decision. Defined.
End EnumOutdatedVersionAlertType.

Module EnumOutdatedVersionAlertStatus.
(** Modelled from the spec: the enumeration is declared outside the sources
    at hand; the spec lists these three states. *)
Inductive t : Type := New | Canceled | Resolved.
#[global] Instance alertStatus_eq_dec : EqDecision t.
Proof. solve_decision. Defined.
End EnumOutdatedVersionAlertStatus.

Module EnumResourceType.
(** Modelled from the spec: the declaration of [EnumResourceType] is not in the
    sources at hand.  The service names [ServiceTemplate] only; the resources
    that reference a template are services; every other kind is kept under
    its name. *)
Inductive t : Type :=
  | ServiceTemplate
  | Service
  | Other (name : string).
#[global] Instance resourceType_eq_dec : EqDecision t.
Proof. solve_decision. Defined.
End EnumResourceType.

(** ** Entities *)

(** Identifiers of alerts are generated by the store.  Only their freshness
    matters, so the n-th row ever inserted gets identifier [n]. *)
Definition AlertId : Type := N.

Module OutdatedVersionAlert.
(** Modelled from the spec: the fields of the entity as the data model of the
    spec lists them, without the two timestamps, which the store manages and
    the service never reads. *)
Record t : Type := mk {
  id : AlertId;
  resourceId : string;
  blockId : option string;
  type : EnumOutdatedVersionAlertType.t;
  status : EnumOutdatedVersionAlertStatus.t;
  outdatedVersion : string;
  latestVersion : string;
}.
#[global] Instance alert_eq_dec : EqDecision t.
Proof. solve_decision. Defined.

(** [{ ...alert, status }] *)
Definition with_status (s : EnumOutdatedVersionAlertStatus.t) (a : t) : t :=
  mk (id a) (resourceId a) (blockId a) (type a) s
     (outdatedVersion a) (latestVersion a).
End OutdatedVersionAlert.

(** Of the entities of the collaborators, the fields the service reads. *)
Module Resource.
Record t : Type := mk {
  id : string;
  name : string;
  resourceType : EnumResourceType.t;
  projectId : string;
  deletedAt : option Z;
  archived : bool;
}.
End Resource.

Module Workspace.
Record t : Type := mk { id : string }.
End Workspace.

Module Project.
Record t : Type := mk { id : string; name : string; workspaceId : string }.
End Project.

Module PluginInstallation.
Record t : Type := mk {
  id : string;
  resourceId : string;
  pluginId : string;
  version : string;
  displayName : string;
}.
End PluginInstallation.

Module ServiceTemplateVersion.
Record t : Type := mk { serviceTemplateId : string; version : string }.
End ServiceTemplateVersion.

(** The [value] of a [TechDebt.KafkaEvent]; its [key] is the empty object. *)
Module TechDebt.
Record t : Type := mk {
  resourceId : string;
  resourceName : string;
  workspaceId : string;
  projectId : string;
  createdAt : Z;
  techDebtId : AlertId;
  envBaseUrl : option string;
  externalId : string;
  resourceType : EnumResourceType.t;
  projectName : string;
  alertType : EnumOutdatedVersionAlertType.t;
  alertInitiator : string;
}.
End TechDebt.

(** ** Arguments of the store operations *)

Module WhereUniqueInput.
Record t : Type := mk { id : string }.
End WhereUniqueInput.

Module ConnectInput.
(** [{ connect: { id } }]; [connect] is optional on the block relation. *)
Record t : Type := mk { connect : option WhereUniqueInput.t }.
End ConnectInput.

Module ResourceConnectInput.
Record t : Type := mk { connect : WhereUniqueInput.t }.
End ResourceConnectInput.

Module OutdatedVersionAlertCreateInput.
Record t : Type := mk {
  resource : ResourceConnectInput.t;
  block : option ConnectInput.t;
  type : EnumOutdatedVersionAlertType.t;
  outdatedVersion : string;
  latestVersion : string;
  status : option EnumOutdatedVersionAlertStatus.t;
}.
(** [{ ...data, status }] *)
Definition with_status (s : EnumOutdatedVersionAlertStatus.t) (d : t) : t :=
  mk (resource d) (block d) (type d) (outdatedVersion d) (latestVersion d)
     (Some s).
End OutdatedVersionAlertCreateInput.

Module CreateOutdatedVersionAlertArgs.
Record t : Type := mk { data : OutdatedVersionAlertCreateInput.t }.
End CreateOutdatedVersionAlertArgs.

(** The filter objects the service writes for [updateMany].  A field that is
    [undefined] ([None]) puts no condition on the row. *)
Module UpdateManyWhere.
Record t : Type := mk {
  resourceId : option string;
  blockId : option string;
  type : option EnumOutdatedVersionAlertType.t;
  status : option EnumOutdatedVersionAlertStatus.t;
}.
End UpdateManyWhere.

Module UpdateOutdatedVersionAlertArgs.
(** Modelled from the spec: [UpdateOutdatedVersionAlertArgs] is declared
    outside the sources at hand.  The spec describes [update] as a direct
    pass-through update of one alert record that "could move a Resolved alert
    back to New": the record is chosen by its identifier and the data carry an
    optional status. *)
Record t : Type := mk {
  where_id : AlertId;
  data_status : option EnumOutdatedVersionAlertStatus.t;
}.
End UpdateOutdatedVersionAlertArgs.

Module User.
Record t : Type := mk { id : string }.
End User.

(** ** The world the service runs in *)

(** What leaves the service, in the order it happens. *)
Inductive Effect : Type :=
  | StoreCreate (alert : OutdatedVersionAlert.t)
  | KafkaEmit (topic : string) (value : TechDebt.t).

Record LogEntry : Type := mkLog { log_message : string; log_error : string }.

Record World : Type := mkWorld {
  alerts : list OutdatedVersionAlert.t;
  nextId : AlertId;
  history : list Effect;
  logged : list LogEntry;
}.

Inductive Exception : Type :=
  | AmplicationError (message : string)
  | TypeError (message : string)
  | RecordNotFound (message : string).

Inductive Outcome (A : Type) : Type :=
  | Returned (a : A)
  | Thrown (e : Exception).
Arguments Returned {A} a.
Arguments Thrown {A} e.

(** An [async] method. *)
Definition M (A : Type) : Type := World -> Outcome A * World.

Definition ret {A} (a : A) : M A := fun w => (Returned a, w).

Definition throw {A} (e : Exception) : M A := fun w => (Thrown e, w).

Definition bind {A B} (m : M A) (k : A -> M B) : M B :=
  fun w =>
    match m w with
    | (Returned a, w') => k a w'
    | (Thrown e, w') => (Thrown e, w')
    end.

Notation "x <- m ;; k" := (bind m (fun x => k))
  (at level 100, m at next level, right associativity).
Notation "m ;;; k" := (bind m (fun _ => k))
  (at level 100, right associativity).

(** [for (const x of xs) { await body(x) }] *)
Fixpoint forOf {A} (xs : list A) (body : A -> M unit) : M unit :=
  match xs with
  | [] => ret tt
  | x :: rest => body x ;;; forOf rest body
  end.

(** A settled promise. *)
Inductive Promise (A : Type) : Type :=
  | Fulfilled (a : A)
  | Rejected (error : string).
Arguments Fulfilled {A} a.
Arguments Rejected {A} error.

(** ** The alert table ([prisma.outdatedVersionAlert]) *)

Definition field_matches {A} `{EqDecision A} (cond : option A) (v : A) : bool :=
  match cond with
  | None => true
  | Some c => bool_decide (v = c)
  end.

Definition where_matches (w : UpdateManyWhere.t) (a : OutdatedVersionAlert.t)
  : bool :=
  field_matches (UpdateManyWhere.resourceId w) (OutdatedVersionAlert.resourceId a)
  && match UpdateManyWhere.blockId w with
     | None => true
     | Some b => bool_decide (OutdatedVersionAlert.blockId a = Some b)
     end
  && field_matches (UpdateManyWhere.type w) (OutdatedVersionAlert.type a)
  && field_matches (UpdateManyWhere.status w) (OutdatedVersionAlert.status a).

Definition set_status_where (w : UpdateManyWhere.t)
    (s : EnumOutdatedVersionAlertStatus.t) (a : OutdatedVersionAlert.t)
  : OutdatedVersionAlert.t :=
  if where_matches w a then OutdatedVersionAlert.with_status s a else a.

(** [updateMany({ where, data: { status } })]; the result is the count. *)
Definition prisma_updateMany (w : UpdateManyWhere.t)
    (s : EnumOutdatedVersionAlertStatus.t) : M nat :=
  fun wd =>
    (Returned (length (filter (fun a => where_matches w a = true) (alerts wd))),
     mkWorld (set_status_where w s <$> alerts wd) (nextId wd) (history wd)
             (logged wd)).

Definition new_row (i : AlertId) (d : OutdatedVersionAlertCreateInput.t)
  : OutdatedVersionAlert.t :=
  OutdatedVersionAlert.mk i
    (WhereUniqueInput.id
       (ResourceConnectInput.connect (OutdatedVersionAlertCreateInput.resource d)))
    (WhereUniqueInput.id <$>
       (OutdatedVersionAlertCreateInput.block d ≫= ConnectInput.connect))
    (OutdatedVersionAlertCreateInput.type d)
    (default EnumOutdatedVersionAlertStatus.New
       (OutdatedVersionAlertCreateInput.status d))
    (OutdatedVersionAlertCreateInput.outdatedVersion d)
    (OutdatedVersionAlertCreateInput.latestVersion d).

(** [create({ data })] inserts one row under a fresh identifier. *)
Definition prisma_create (d : OutdatedVersionAlertCreateInput.t)
  : M OutdatedVersionAlert.t :=
  fun wd =>
    let row := new_row (nextId wd) d in
    (Returned row,
     mkWorld (alerts wd ++ [row]) (N.succ (nextId wd))
             (history wd ++ [StoreCreate row]) (logged wd)).

(** [update({ where: { id }, data })] changes the one row with that
    identifier and rejects when there is none. *)
Definition apply_update (args : UpdateOutdatedVersionAlertArgs.t)
    (a : OutdatedVersionAlert.t) : OutdatedVersionAlert.t :=
  if bool_decide (OutdatedVersionAlert.id a
                  = UpdateOutdatedVersionAlertArgs.where_id args)
  then match UpdateOutdatedVersionAlertArgs.data_status args with
       | Some s => OutdatedVersionAlert.with_status s a
       | None => a
       end
  else a.

Definition prisma_update (args : UpdateOutdatedVersionAlertArgs.t)
  : M OutdatedVersionAlert.t :=
  fun wd =>
    match
      list_find (fun a => OutdatedVersionAlert.id a
                          = UpdateOutdatedVersionAlertArgs.where_id args)
                (alerts wd)
    with
    | None => (Thrown (RecordNotFound "Record to update not found."), wd)
    | Some (_, a) =>
        (Returned (apply_update args a),
         mkWorld (apply_update args <$> alerts wd) (nextId wd) (history wd)
                 (logged wd))
    end.

(** ** The service: the methods that touch the alert table only *)

(** Lines 41-66. *)
Definition create (args : CreateOutdatedVersionAlertArgs.t)
  : M OutdatedVersionAlert.t :=
  let data := CreateOutdatedVersionAlertArgs.data args in
  prisma_updateMany
    (UpdateManyWhere.mk
       (Some (WhereUniqueInput.id
                (ResourceConnectInput.connect
                   (OutdatedVersionAlertCreateInput.resource data))))
       (WhereUniqueInput.id <$>
          (OutdatedVersionAlertCreateInput.block data ≫= ConnectInput.connect))
       (Some (OutdatedVersionAlertCreateInput.type data))
       (Some EnumOutdatedVersionAlertStatus.New))
    EnumOutdatedVersionAlertStatus.Canceled ;;;
  outdatedVersionAlert <-
    prisma_create
      (OutdatedVersionAlertCreateInput.with_status
         EnumOutdatedVersionAlertStatus.New data) ;;
  ret outdatedVersionAlert.

(** Lines 68-83. *)
Definition resolvesServiceTemplateUpdated (resourceId : string) : M unit :=
  prisma_updateMany
    (UpdateManyWhere.mk (Some resourceId) None
       (Some EnumOutdatedVersionAlertType.TemplateVersion)
       (Some EnumOutdatedVersionAlertStatus.New))
    EnumOutdatedVersionAlertStatus.Resolved ;;;
  ret tt.

(** Lines 288-295. *)
Definition update (args : UpdateOutdatedVersionAlertArgs.t) (user : User.t)
  : M OutdatedVersionAlert.t :=
  prisma_update args.

(** ** The injected collaborators

    Their sources are not part of the file; each is taken with the signature
    the service uses.  [resource] may answer [null]: the service tests its
    result at line 123.  The other answers are dereferenced by the service
    without a test and are taken as present. *)

Module ResourceService.
Record t : Type := mk {
  (** [resource({ where: { id } })] *)
  resource : string -> option Resource.t;
  getResourceWorkspace : string -> Workspace.t;
  (** [resources({ where: { serviceTemplateId, project: { id } } })] *)
  resources : string -> string -> list Resource.t;
  getServiceTemplateSettings :
    string -> option User.t -> ServiceTemplateVersion.t;
}.
End ResourceService.

Module ProjectService.
Record t : Type := mk {
  (** [findFirst({ where: { id } })] *)
  findFirst : string -> Project.t;
}.
End ProjectService.

Module PluginInstallationService.
Record t : Type := mk {
  (** [findPluginInstallationByPluginId(pluginId,
        { resource: { project: { id } } })] *)
  findPluginInstallationByPluginId :
    string -> string -> list PluginInstallation.t;
}.
End PluginInstallationService.

Module KafkaProducerService.
(** [emitMessage(topic, event)] answers a promise that the broker fulfils
    or rejects.  Which of the two may depend on everything that left the
    service before, so the producer is given the history. *)
Record t : Type := mk {
  emitMessage : list Effect -> string -> TechDebt.t -> Promise unit;
}.
End KafkaProducerService.

Module ConfigService.
Record t : Type := mk { get : string -> option string }.
End ConfigService.

(** ** Primitive effects *)

Definition logger_error (message error : string) : M unit :=
  fun w =>
    (Returned tt,
     mkWorld (alerts w) (nextId w) (history w)
             (logged w ++ [mkLog message error])).

(** The call is dispatched at once; the promise settles on its own. *)
Definition kafka_emitMessage (kafka : KafkaProducerService.t)
    (topic : string) (value : TechDebt.t) : M (Promise unit) :=
  fun w =>
    (Returned (KafkaProducerService.emitMessage kafka (history w) topic value),
     mkWorld (alerts w) (nextId w) (history w ++ [KafkaEmit topic value])
             (logged w)).

(** [promise.catch(handler)], not awaited. *)
Definition promise_catch {A} (p : Promise A) (handler : string -> M unit)
  : M unit :=
  match p with
  | Fulfilled _ => ret tt
  | Rejected error => handler error
  end.

(** The world after a message was dispatched and its promise settled: the
    dispatch is in the history, and a rejection left one line in the log. *)
Definition dispatched_world (kafka : KafkaProducerService.t)
    (topic : string) (value : TechDebt.t) (message : string) (w : World)
  : World :=
  mkWorld (alerts w) (nextId w) (history w ++ [KafkaEmit topic value])
    (logged w
     ++ match KafkaProducerService.emitMessage kafka (history w) topic value with
        | Rejected error => [mkLog message error]
        | Fulfilled _ => []
        end).

Section Service.

Variable resourceService : ResourceService.t.
Variable projectService : ProjectService.t.
Variable pluginInstallationService : PluginInstallationService.t.
Variable kafkaProducerService : KafkaProducerService.t.
Variable configService : ConfigService.t.

(** [encryptString] of [util/encryptionUtil]. *)
Variable encryptString : string -> string.
(** [Date.now()], read when so many effects have left the service. *)
Variable clock : nat -> Z.
(** [KAFKA_TOPICS.TECH_DEBT_CREATED_TOPIC] and [Env.CLIENT_HOST]. *)
Variable TECH_DEBT_CREATED_TOPIC : string.
Variable CLIENT_HOST : string.

Definition Date_now : M Z :=
  fun w => (Returned (clock (length (history w))), w).

(** Lines 161-172: the argument of [create] for a service. *)
Definition templateVersion_args (latestVersion : string) (service : Resource.t)
  : CreateOutdatedVersionAlertArgs.t :=
  let currentTemplateVersion :=
    ResourceService.getServiceTemplateSettings resourceService
      (Resource.id service) None in
  CreateOutdatedVersionAlertArgs.mk
    (OutdatedVersionAlertCreateInput.mk
       (ResourceConnectInput.mk (WhereUniqueInput.mk (Resource.id service)))
       None
       EnumOutdatedVersionAlertType.TemplateVersion
       (ServiceTemplateVersion.version currentTemplateVersion)
       latestVersion
       None).

(** Lines 179-192: the value of the event for a service. *)
Definition templateVersion_event (template : Resource.t)
    (workspace : Workspace.t) (project : Project.t) (userId : string)
    (service : Resource.t) (alert : OutdatedVersionAlert.t) (now : Z)
  : TechDebt.t :=
  TechDebt.mk
    (Resource.id service)
    (Resource.name service)
    (Workspace.id workspace)
    (Resource.projectId template)
    now
    (OutdatedVersionAlert.id alert)
    (ConfigService.get configService CLIENT_HOST)
    (encryptString userId)
    (Resource.resourceType service)
    (Project.name project)
    (OutdatedVersionAlert.type alert)
    (Resource.name template).

(** Lines 155-199: one turn of the loop over the services. *)
Definition templateVersionAlert (template : Resource.t)
    (workspace : Workspace.t) (project : Project.t)
    (latestVersion userId : string) (service : Resource.t) : M unit :=
  alert <- create (templateVersion_args latestVersion service) ;;
  now <- Date_now ;;
  promise <-
    kafka_emitMessage kafkaProducerService TECH_DEBT_CREATED_TOPIC
      (templateVersion_event template workspace project userId service
         alert now) ;;
  promise_catch promise
    (fun error =>
       logger_error
         ("Failed to queue tech debt for service " ++ Resource.id service)
         error).

(** Lines 111-202. *)
Definition triggerAlertsForTemplateVersion (templateResourceId : string)
    (outdatedVersion : option string) (latestVersion userId : string)
  : M unit :=
  match ResourceService.resource resourceService templateResourceId with
  | None =>
      throw (AmplicationError
               ("Cannot trigger alerts. Template with id "
                ++ templateResourceId ++ " not found"))
  | Some template =>
      if bool_decide (Resource.resourceType template
                      ≠ EnumResourceType.ServiceTemplate)
      then
        throw (AmplicationError
                 ("Cannot trigger alerts. Resource with id "
                  ++ templateResourceId ++ " is not a template"))
      else
        let workspace :=
          ResourceService.getResourceWorkspace resourceService
            templateResourceId in
        let project :=
          ProjectService.findFirst projectService
            (Resource.projectId template) in
        let services :=
          ResourceService.resources resourceService templateResourceId
            (Resource.projectId template) in
        match outdatedVersion with
        | Some _ =>
            forOf services
              (templateVersionAlert template workspace project
                 latestVersion userId)
        | None => ret tt
        end
  end.

(** Lines 237-253: the argument of [create] for an installation. *)
Definition pluginVersion_args (newVersion : string)
    (pluginInstallation : PluginInstallation.t)
  : CreateOutdatedVersionAlertArgs.t :=
  CreateOutdatedVersionAlertArgs.mk
    (OutdatedVersionAlertCreateInput.mk
       (ResourceConnectInput.mk
          (WhereUniqueInput.mk
             (PluginInstallation.resourceId pluginInstallation)))
       (Some (ConnectInput.mk
                (Some (WhereUniqueInput.mk
                         (PluginInstallation.id pluginInstallation)))))
       EnumOutdatedVersionAlertType.PluginVersion
       (PluginInstallation.version pluginInstallation)
       newVersion
       None).

(** Lines 264-277: the value of the event for an installation. *)
Definition pluginVersion_event (projectId : string) (project : Project.t)
    (userId : string) (pluginInstallation : PluginInstallation.t)
    (resource : Resource.t) (alert : OutdatedVersionAlert.t) (now : Z)
  : TechDebt.t :=
  TechDebt.mk
    (PluginInstallation.resourceId pluginInstallation)
    (Resource.name resource)
    (Project.workspaceId project)
    projectId
    now
    (OutdatedVersionAlert.id alert)
    (ConfigService.get configService CLIENT_HOST)
    (encryptString userId)
    (Resource.resourceType resource)
    (Project.name project)
    (OutdatedVersionAlert.type alert)
    (PluginInstallation.displayName pluginInstallation).

(** Lines 237-284: one turn of the loop over the installations.  The event
    is built before it is sent: [resource.name] on a [null] resource throws
    while the argument of [emitMessage] is evaluated. *)
Definition pluginVersionAlert (projectId : string) (project : Project.t)
    (newVersion userId : string) (pluginInstallation : PluginInstallation.t)
  : M unit :=
  alert <- create (pluginVersion_args newVersion pluginInstallation) ;;
  match
    ResourceService.resource resourceService
      (OutdatedVersionAlert.resourceId alert)
  with
  | None => throw (TypeError "Cannot read properties of null (reading 'name')")
  | Some resource =>
      now <- Date_now ;;
      promise <-
        kafka_emitMessage kafkaProducerService TECH_DEBT_CREATED_TOPIC
          (pluginVersion_event projectId project userId pluginInstallation
             resource alert now) ;;
      promise_catch promise
        (fun error =>
           logger_error
             ("Failed to queue tech debt for plugin "
              ++ PluginInstallation.id pluginInstallation)
             error)
  end.

(** Lines 212-286. *)
Definition triggerAlertsForNewPluginVersion
    (projectId pluginId newVersion userId : string) : M unit :=
  let pluginInstallations :=
    PluginInstallationService.findPluginInstallationByPluginId
      pluginInstallationService pluginId projectId in
  let project := ProjectService.findFirst projectService projectId in
  forOf pluginInstallations
    (pluginVersionAlert projectId project newVersion userId).

End Service.

(** ** [findMany]: filter objects supplied by the caller *)

(** The caller's [where] is an object of the query language; the service
    rebuilds it with spreads.  Objects are finite maps from keys to values,
    so that [{ ...o, k: v }] is an insertion. *)
Inductive JsValue : Type :=
  | JsNull
  | JsBool (b : bool)
  | JsNumber (z : Z)
  | JsString (s : string)
  | JsObject (fields : gmap string JsValue).

Module FindManyOutdatedVersionAlertArgs.
Record t : Type := mk {
  where_ : option (gmap string JsValue);
  orderBy : option JsValue;
  skip : option nat;
  take : option nat;
}.
End FindManyOutdatedVersionAlertArgs.

(** [...v] inside an object literal: the own fields of an object, nothing
    for [undefined], [null] and the other values a filter is typed to hold. *)
Definition spread (v : option JsValue) : gmap string JsValue :=
  match v with
  | Some (JsObject fields) => fields
  | _ => ∅
  end.

(** [{ not: true }] *)
Definition not_true : JsValue := JsObject {[ "not" := JsBool true ]}.

Definition is_not_true (v : JsValue) : bool :=
  match v with
  | JsObject fields =>
      match map_to_list fields with
      | [(k, JsBool true)] => bool_decide (k = "not")
      | _ => false
      end
  | _ => false
  end.

(** Lines 94-101: the [where] handed to the store. *)
Definition findMany_where (where_ : option (gmap string JsValue))
  : gmap string JsValue :=
  let args_where := default ∅ where_ in
  <[ "resource" :=
       JsObject
         (<[ "archived" := not_true ]>
            (<[ "deletedAt" := JsNull ]>
               (spread (args_where !! "resource")))) ]>
    args_where.

Section FindMany.

(** The resource table, read through the relation of an alert. *)
Variable resourceTable : string -> option Resource.t.

(** The rest of the query language: conditions under keys the service does
    not write itself, and the ordering of rows. *)
Variable alertCondition : string -> JsValue -> OutdatedVersionAlert.t -> bool.
Variable resourceCondition : string -> JsValue -> Resource.t -> bool.
(** [sortRows] puts the rows in the order asked for: it answers a
    permutation of the rows it is given. *)
Variable sortRows :
  option JsValue -> list OutdatedVersionAlert.t -> list OutdatedVersionAlert.t.

(** One entry of a filter on the related resource: [deletedAt: null] is
    [IS NULL], [archived: { not: true }] is [<> true]. *)
Definition resource_entry_holds (r : Resource.t) (entry : string * JsValue)
  : bool :=
  let '(k, v) := entry in
  if bool_decide (k = "deletedAt") then
    match v with
    | JsNull => bool_decide (Resource.deletedAt r = None)
    | _ => resourceCondition k v r
    end
  else if bool_decide (k = "archived") then
    if is_not_true v then negb (Resource.archived r)
    else resourceCondition k v r
  else resourceCondition k v r.

(** One entry of a filter on alerts; all entries of an object must hold. *)
Definition alert_entry_holds (a : OutdatedVersionAlert.t)
    (entry : string * JsValue) : bool :=
  let '(k, v) := entry in
  if bool_decide (k = "resource") then
    match v, resourceTable (OutdatedVersionAlert.resourceId a) with
    | JsObject fields, Some r =>
        forallb (resource_entry_holds r) (map_to_list fields)
    | JsObject _, None => false
    | _, _ => alertCondition k v a
    end
  else alertCondition k v a.

Definition where_holds (where_ : gmap string JsValue)
    (a : OutdatedVersionAlert.t) : bool :=
  forallb (alert_entry_holds a) (map_to_list where_).

Definition paginate {A} (skip take_ : option nat) (rows : list A) : list A :=
  let skipped := drop (default 0 skip) rows in
  match take_ with
  | Some n => take n skipped
  | None => skipped
  end.

(** [prisma.outdatedVersionAlert.findMany({ where, orderBy, skip, take })] *)
Definition prisma_findMany (where_ : gmap string JsValue)
    (orderBy : option JsValue) (skip take_ : option nat)
  : M (list OutdatedVersionAlert.t) :=
  fun w =>
    (Returned
       (paginate skip take_
          (sortRows orderBy
             (filter (fun a => where_holds where_ a = true) (alerts w)))),
     w).

(** Lines 89-103. *)
Definition findMany (args : FindManyOutdatedVersionAlertArgs.t)
  : M (list OutdatedVersionAlert.t) :=
  prisma_findMany
    (findMany_where (FindManyOutdatedVersionAlertArgs.where_ args))
    (FindManyOutdatedVersionAlertArgs.orderBy args)
    (FindManyOutdatedVersionAlertArgs.skip args)
    (FindManyOutdatedVersionAlertArgs.take args).

(** Lines 85-87: the caller's arguments go to the store as they are. *)
Definition count (args : FindManyOutdatedVersionAlertArgs.t) : M nat :=
  fun w =>
    (Returned
       (length
          (paginate (FindManyOutdatedVersionAlertArgs.skip args)
             (FindManyOutdatedVersionAlertArgs.take args)
             (filter
                (fun a =>
                   where_holds
                     (default ∅ (FindManyOutdatedVersionAlertArgs.where_ args))
                     a = true)
                (alerts w)))),
     w).

End FindMany.

(** Lines 105-109: [findUnique({ where: { id } })]. *)
Definition findOne (id : AlertId) : M (option OutdatedVersionAlert.t) :=
  fun w =>
    (Returned
       (snd <$> list_find (fun a => OutdatedVersionAlert.id a = id) (alerts w)),
     w).

(** ** The client hook [useProjectBaseUrl] *)

Module RouteMatch.
(** What [useRouteMatch] answers on a match: the pattern that matched and
    the two named parameters. *)
Record t : Type := mk {
  path : string;
  params_workspace : string;
  params_project : string;
}.
End RouteMatch.

Module Props.
Record t : Type := mk { overrideIsPlatformConsole : option bool }.
End Props.

Module ProjectBaseUrl.
Record t : Type := mk { baseUrl : string; isPlatformConsole : bool }.
End ProjectBaseUrl.

(** [hay.includes(needle)] *)
Fixpoint includes (hay needle : string) : bool :=
  String.prefix needle hay
  || match hay with
     | EmptyString => false
     | String _ rest => includes rest needle
     end.

Definition platform_pattern : string :=
  "/:workspace([A-Za-z0-9-]{20,})/platform/:project([A-Za-z0-9-]{20,})/".
Definition plain_pattern : string :=
  "/:workspace([A-Za-z0-9-]{20,})/:project([A-Za-z0-9-]{20,})/".

Section Hook.

(** [useRouteMatch] of react-router: the first of the patterns that the
    current location matches, or [null]. *)
Variable useRouteMatch : list string -> option RouteMatch.t.

Definition useProjectBaseUrl (props : option Props.t) : ProjectBaseUrl.t :=
  let overrideIsPlatformConsole := props ≫= Props.overrideIsPlatformConsole in
  let match_ := useRouteMatch [platform_pattern; plain_pattern] in
  match match_ with
  | None => ProjectBaseUrl.mk "" false
  | Some m =>
      let isPlatformConsole :=
        match overrideIsPlatformConsole with
        | None => includes (RouteMatch.path m) "/platform/"
        | Some b => b
        end in
      let platformPath := if isPlatformConsole then "/platform" else "" in
      let baseUrl :=
        "/" ++ RouteMatch.params_workspace m ++ platformPath ++ "/"
        ++ RouteMatch.params_project m in
      ProjectBaseUrl.mk baseUrl isPlatformConsole
  end.

End Hook.

(** * Notions used by the properties *)

(** ** Scopes and the one-open-alert invariant *)

Definition Scope : Type :=
  string * option string * EnumOutdatedVersionAlertType.t.

Definition scope_of (a : OutdatedVersionAlert.t) : Scope :=
  (OutdatedVersionAlert.resourceId a, OutdatedVersionAlert.blockId a,
   OutdatedVersionAlert.type a).

(** The scope a [create] call is about; an absent block is [null] on the
    inserted row. *)
Definition args_scope (args : CreateOutdatedVersionAlertArgs.t) : Scope :=
  let data := CreateOutdatedVersionAlertArgs.data args in
  (WhereUniqueInput.id
     (ResourceConnectInput.connect (OutdatedVersionAlertCreateInput.resource data)),
   WhereUniqueInput.id <$>
     (OutdatedVersionAlertCreateInput.block data ≫= ConnectInput.connect),
   OutdatedVersionAlertCreateInput.type data).

Definition is_New_in (sc : Scope) (a : OutdatedVersionAlert.t) : Prop :=
  scope_of a = sc
  /\ OutdatedVersionAlert.status a = EnumOutdatedVersionAlertStatus.New.

#[global] Instance is_New_in_dec sc a : Decision (is_New_in sc a).
Proof. unfold is_New_in. apply _. Defined.

Definition new_in_scope (sc : Scope) (rows : list OutdatedVersionAlert.t)
  : list OutdatedVersionAlert.t :=
  filter (is_New_in sc) rows.

Definition at_most_one_New (rows : list OutdatedVersionAlert.t) : Prop :=
  forall sc, length (new_in_scope sc rows) <= 1.

(** The filter and the row of a [create] call. *)
Definition create_where (args : CreateOutdatedVersionAlertArgs.t)
  : UpdateManyWhere.t :=
  let data := CreateOutdatedVersionAlertArgs.data args in
  UpdateManyWhere.mk
    (Some (WhereUniqueInput.id
             (ResourceConnectInput.connect
                (OutdatedVersionAlertCreateInput.resource data))))
    (WhereUniqueInput.id <$>
       (OutdatedVersionAlertCreateInput.block data ≫= ConnectInput.connect))
    (Some (OutdatedVersionAlertCreateInput.type data))
    (Some EnumOutdatedVersionAlertStatus.New).

Definition create_row (args : CreateOutdatedVersionAlertArgs.t) (w : World)
  : OutdatedVersionAlert.t :=
  new_row (nextId w)
    (OutdatedVersionAlertCreateInput.with_status
       EnumOutdatedVersionAlertStatus.New
       (CreateOutdatedVersionAlertArgs.data args)).

Definition create_world (args : CreateOutdatedVersionAlertArgs.t) (w : World)
  : World :=
  mkWorld
    ((set_status_where (create_where args)
        EnumOutdatedVersionAlertStatus.Canceled <$> alerts w)
     ++ [create_row args w])
    (N.succ (nextId w))
    (history w ++ [StoreCreate (create_row args w)])
    (logged w).

(** An operation keeps the invariant when the table it leaves behind, also
    on a throw, has at most one open alert per scope whenever the table it
    started from had. *)
Definition preserves_invariant {A} (op : M A) : Prop :=
  forall w, at_most_one_New (alerts w) -> at_most_one_New (alerts (op w).2).

(** ** Notions about the effects of a fan-out *)

Definition created (h : list Effect) : list OutdatedVersionAlert.t :=
  omap (fun e => match e with StoreCreate a => Some a | _ => None end) h.

Definition emitted (h : list Effect) : list TechDebt.t :=
  omap (fun e => match e with KafkaEmit _ v => Some v | _ => None end) h.

(** The effects of a fan-out come in turns: a row is inserted, then the
    message that carries its identifier and type is dispatched.  The last
    turn may stop after the insertion. *)
Inductive in_turns : list Effect -> Prop :=
  | in_turns_nil : in_turns []
  | in_turns_stopped a : in_turns [StoreCreate a]
  | in_turns_cons a topic v rest :
      TechDebt.techDebtId v = OutdatedVersionAlert.id a ->
      TechDebt.alertType v = OutdatedVersionAlert.type a ->
      TechDebt.resourceId v = OutdatedVersionAlert.resourceId a ->
      in_turns rest ->
      in_turns (StoreCreate a :: KafkaEmit topic v :: rest).

(** The lines the logger receives for the rejected dispatches among the
    effects [added] to [prefix]; [message] is the text at the call site. *)
Fixpoint expected_log (kafka : KafkaProducerService.t)
    (message : OutdatedVersionAlert.t -> string)
    (prefix added : list Effect) : list LogEntry :=
  match added with
  | StoreCreate a :: KafkaEmit topic v :: rest =>
      match
        KafkaProducerService.emitMessage kafka (prefix ++ [StoreCreate a])
          topic v
      with
      | Rejected error => [mkLog (message a) error]
      | Fulfilled _ => []
      end
      ++ expected_log kafka message
           (prefix ++ [StoreCreate a; KafkaEmit topic v]) rest
  | _ => []
  end.

Definition service_message (a : OutdatedVersionAlert.t) : string :=
  "Failed to queue tech debt for service " ++ OutdatedVersionAlert.resourceId a.

Definition plugin_message (a : OutdatedVersionAlert.t) : string :=
  "Failed to queue tech debt for plugin "
  ++ default "" (OutdatedVersionAlert.blockId a).

(** A producer whose promises are all fulfilled. *)
Definition quietKafka : KafkaProducerService.t :=
  KafkaProducerService.mk (fun _ _ _ => Fulfilled tt).

(** Two worlds with the same table and the same history; their logs may
    differ. *)
Definition agree_up_to_log (w1 w2 : World) : Prop :=
  alerts w1 = alerts w2 /\ nextId w1 = nextId w2 /\ history w1 = history w2.

(** The second world, moreover, has the log [logged0]: the run it belongs to
    logged nothing. *)
Definition agree_quiet (logged0 : list LogEntry) (w1 w2 : World) : Prop :=
  agree_up_to_log w1 w2 /\ logged w2 = logged0.

(** What one turn of the plugin fan-out owes to an installation: the alert
    and the event of that turn. *)
Definition plugin_turn_spec (resourceService : ResourceService.t)
    (newVersion : string) (pluginInstallation : PluginInstallation.t)
    (turn : OutdatedVersionAlert.t * TechDebt.t) : Prop :=
  let '(alert, event) := turn in
  OutdatedVersionAlert.type alert = EnumOutdatedVersionAlertType.PluginVersion
  /\ OutdatedVersionAlert.status alert = EnumOutdatedVersionAlertStatus.New
  /\ OutdatedVersionAlert.blockId alert
     = Some (PluginInstallation.id pluginInstallation)
  /\ OutdatedVersionAlert.resourceId alert
     = PluginInstallation.resourceId pluginInstallation
  /\ OutdatedVersionAlert.outdatedVersion alert
     = PluginInstallation.version pluginInstallation
  /\ OutdatedVersionAlert.latestVersion alert = newVersion
  /\ TechDebt.techDebtId event = OutdatedVersionAlert.id alert
  /\ TechDebt.alertType event = EnumOutdatedVersionAlertType.PluginVersion
  /\ TechDebt.resourceId event
     = PluginInstallation.resourceId pluginInstallation
  /\ TechDebt.alertInitiator event
     = PluginInstallation.displayName pluginInstallation
  /\ exists resource,
       ResourceService.resource resourceService
         (PluginInstallation.resourceId pluginInstallation) = Some resource
       /\ TechDebt.resourceName event = Resource.name resource
       /\ TechDebt.resourceType event = Resource.resourceType resource.

Definition turn_effects (topic : string)
    (turn : OutdatedVersionAlert.t * TechDebt.t) : list Effect :=
  [StoreCreate turn.1; KafkaEmit topic turn.2].

(** The effects [added] by a fan-out are one alert and one event for each
    installation, in the order of the installations. *)
Definition one_alert_and_event_per_installation
    (resourceService : ResourceService.t) (newVersion topic : string)
    (pluginInstallations : list PluginInstallation.t) (added : list Effect)
  : Prop :=
  exists turns,
    added = flat_map (turn_effects topic) turns
    /\ Forall2 (plugin_turn_spec resourceService newVersion)
         pluginInstallations turns.

(** ** A small running example *)

Definition emptyWorld : World := mkWorld [] 0%N [] [].

Definition ex_user : User.t := User.mk "user-1".

(** A template alert on the service [svc-1]. *)
Definition ex_args (latestVersion : string) : CreateOutdatedVersionAlertArgs.t :=
  CreateOutdatedVersionAlertArgs.mk
    (OutdatedVersionAlertCreateInput.mk
       (ResourceConnectInput.mk (WhereUniqueInput.mk "svc-1"))
       None EnumOutdatedVersionAlertType.TemplateVersion "1.0.0" latestVersion
       None).

(** The table after two detections for [svc-1]: the first alert was
    superseded by the second. *)
Definition ex_twice : World :=
  (create (ex_args "1.2.0") (create (ex_args "1.1.0") emptyWorld).2).2.

(** Reopening the superseded alert. *)
Definition ex_reopen : UpdateOutdatedVersionAlertArgs.t :=
  UpdateOutdatedVersionAlertArgs.mk 0%N (Some EnumOutdatedVersionAlertStatus.New).

(** A table with one alert of each kind around the service [svc-1]. *)
Definition ex_mixed : World :=
  mkWorld
    [ OutdatedVersionAlert.mk 0%N "svc-1" None
        EnumOutdatedVersionAlertType.TemplateVersion
        EnumOutdatedVersionAlertStatus.New "1.0.0" "1.1.0";
      OutdatedVersionAlert.mk 1%N "svc-1" (Some "block-1")
        EnumOutdatedVersionAlertType.PluginVersion
        EnumOutdatedVersionAlertStatus.New "0.1.0" "0.2.0";
      OutdatedVersionAlert.mk 2%N "svc-2" None
        EnumOutdatedVersionAlertType.TemplateVersion
        EnumOutdatedVersionAlertStatus.New "1.0.0" "1.1.0";
      OutdatedVersionAlert.mk 3%N "svc-1" None
        EnumOutdatedVersionAlertType.TemplateVersion
        EnumOutdatedVersionAlertStatus.Canceled "0.9.0" "1.0.0" ]
    4%N [] [].

(** A project with a template, two services built from it, and one plugin
    installed on each service. *)
Definition ex_template : Resource.t :=
  Resource.mk "tpl-1" "Template" EnumResourceType.ServiceTemplate "proj-1"
    None false.
Definition ex_serviceA : Resource.t :=
  Resource.mk "svc-a" "Service A" EnumResourceType.Service "proj-1" None false.
Definition ex_serviceB : Resource.t :=
  Resource.mk "svc-b" "Service B" EnumResourceType.Service "proj-1" None false.

Definition ex_resourceService : ResourceService.t :=
  ResourceService.mk
    (fun id =>
       if bool_decide (id = "tpl-1") then Some ex_template
       else if bool_decide (id = "svc-a") then Some ex_serviceA
       else if bool_decide (id = "svc-b") then Some ex_serviceB
       else None)
    (fun _ => Workspace.mk "ws-1")
    (fun serviceTemplateId projectId =>
       if bool_decide (serviceTemplateId = "tpl-1" /\ projectId = "proj-1")
       then [ex_serviceA; ex_serviceB] else [])
    (fun _ _ => ServiceTemplateVersion.mk "tpl-1" "1.0.0").

(** The same project seen through a lookup that does not resolve the
    service [svc-a]. *)
Definition ex_resourceService_unresolved : ResourceService.t :=
  ResourceService.mk
    (fun id => if bool_decide (id = "svc-b") then Some ex_serviceB else None)
    (ResourceService.getResourceWorkspace ex_resourceService)
    (ResourceService.resources ex_resourceService)
    (ResourceService.getServiceTemplateSettings ex_resourceService).

Definition ex_projectService : ProjectService.t :=
  ProjectService.mk (fun id => Project.mk id "Project" "ws-1").

Definition ex_installationA : PluginInstallation.t :=
  PluginInstallation.mk "block-a" "svc-a" "plugin-aws-s3" "0.1.0" "AWS S3".
Definition ex_installationB : PluginInstallation.t :=
  PluginInstallation.mk "block-b" "svc-b" "plugin-aws-s3" "0.1.1" "AWS S3".

Definition ex_pluginInstallationService : PluginInstallationService.t :=
  PluginInstallationService.mk
    (fun pluginId projectId =>
       if bool_decide (pluginId = "plugin-aws-s3" /\ projectId = "proj-1")
       then [ex_installationA; ex_installationB] else []).

(** A broker that rejects the first message it is given and takes the
    later ones. *)
Definition ex_kafka : KafkaProducerService.t :=
  KafkaProducerService.mk
    (fun h _ _ =>
       match emitted h with
       | [] => Rejected "broker not available"
       | _ => Fulfilled tt
       end).

Definition ex_configService : ConfigService.t :=
  ConfigService.mk
    (fun key =>
       if bool_decide (key = "CLIENT_HOST") then Some "https://app.example"
       else None).

Definition ex_encryptString (s : string) : string := "enc:" ++ s.

Definition ex_clock (n : nat) : Z := (1700000000000 + Z.of_nat n)%Z.

(** Three resources, one of them deleted and one archived, each with an
    open alert; and a caller who asks for the alerts of deleted, archived
    resources. *)
Definition ex_resourceTable (id : string) : option Resource.t :=
  if bool_decide (id = "svc-live") then
    Some (Resource.mk "svc-live" "Live" EnumResourceType.Service "proj-1"
            None false)
  else if bool_decide (id = "svc-deleted") then
    Some (Resource.mk "svc-deleted" "Deleted" EnumResourceType.Service "proj-1"
            (Some 1700000000000%Z) false)
  else if bool_decide (id = "svc-archived") then
    Some (Resource.mk "svc-archived" "Archived" EnumResourceType.Service
            "proj-1" None true)
  else None.

Definition ex_alert (i : AlertId) (resourceId : string)
  : OutdatedVersionAlert.t :=
  OutdatedVersionAlert.mk i resourceId None
    EnumOutdatedVersionAlertType.TemplateVersion
    EnumOutdatedVersionAlertStatus.New "1.0.0" "1.1.0".

Definition ex_three_alerts : World :=
  mkWorld
    [ex_alert 0%N "svc-deleted"; ex_alert 1%N "svc-live";
     ex_alert 2%N "svc-archived"]
    3%N [] [].

Definition ex_overriding_args : FindManyOutdatedVersionAlertArgs.t :=
  FindManyOutdatedVersionAlertArgs.mk
    (Some {[ "resource" :=
               JsObject {[ "deletedAt" := JsObject {[ "not" := JsNull ]};
                           "archived" := JsBool true ]} ]})
    None None None.

(** A query language in which the conditions the service does not write
    always hold, and rows come in the order of the table. *)
Definition ex_alertCondition (k : string) (v : JsValue)
    (a : OutdatedVersionAlert.t) : bool := true.
Definition ex_resourceCondition (k : string) (v : JsValue) (r : Resource.t)
  : bool := true.
Definition ex_sortRows (o : option JsValue)
    (rows : list OutdatedVersionAlert.t) : list OutdatedVersionAlert.t := rows.

(** Routes of the client. *)
Definition ex_noMatch (patterns : list string) : option RouteMatch.t := None.

Definition ex_plainMatch (patterns : list string) : option RouteMatch.t :=
  Some (RouteMatch.mk plain_pattern "clv3gq0t50000356n1a2b3c4d"
          "clv3gq0t50001356n5e6f7g8h").

Definition ex_platformMatch (patterns : list string) : option RouteMatch.t :=
  Some (RouteMatch.mk platform_pattern "clv3gq0t50000356n1a2b3c4d"
          "clv3gq0t50001356n5e6f7g8h").

(** * Further notions: the life cycle of rows and the store's identifiers *)

(** Two versions of a row that differ in status at most. *)
Definition same_but_status (x y : OutdatedVersionAlert.t) : Prop :=
  OutdatedVersionAlert.id y = OutdatedVersionAlert.id x
  /\ OutdatedVersionAlert.resourceId y = OutdatedVersionAlert.resourceId x
  /\ OutdatedVersionAlert.blockId y = OutdatedVersionAlert.blockId x
  /\ OutdatedVersionAlert.type y = OutdatedVersionAlert.type x
  /\ OutdatedVersionAlert.outdatedVersion y
     = OutdatedVersionAlert.outdatedVersion x
  /\ OutdatedVersionAlert.latestVersion y = OutdatedVersionAlert.latestVersion x.

(** A step of the life cycle: the row keeps its status, or it was New and is
    now Canceled or Resolved. *)
Definition lifecycle_step (x y : OutdatedVersionAlert.t) : Prop :=
  same_but_status x y
  /\ (OutdatedVersionAlert.status y = OutdatedVersionAlert.status x
      \/ (OutdatedVersionAlert.status x = EnumOutdatedVersionAlertStatus.New
          /\ (OutdatedVersionAlert.status y
              = EnumOutdatedVersionAlertStatus.Canceled
              \/ OutdatedVersionAlert.status y
                 = EnumOutdatedVersionAlertStatus.Resolved))).

(** The table [rows'] continues the table [rows]: the rows of [rows] are all
    there, in place, each related to its former version by [step], and new
    rows come after them. *)
Definition table_continues
    (step : OutdatedVersionAlert.t -> OutdatedVersionAlert.t -> Prop)
    (rows rows' : list OutdatedVersionAlert.t) : Prop :=
  exists kept added, rows' = (kept ++ added)%list /\ Forall2 step rows kept.

(** What the store guarantees of its identifiers: no two rows share one, and
    all are below the next one to be given out. *)
Definition store_ok (w : World) : Prop :=
  NoDup (OutdatedVersionAlert.id <$> alerts w)
  /\ Forall (fun a => (OutdatedVersionAlert.id a < nextId w)%N) (alerts w).

(** The identifier of the block a [create] call names, if any. *)
Definition args_block (args : CreateOutdatedVersionAlertArgs.t)
  : option string :=
  WhereUniqueInput.id
  <$> (OutdatedVersionAlertCreateInput.block
         (CreateOutdatedVersionAlertArgs.data args)
       ≫= ConnectInput.connect).

Definition args_resource (args : CreateOutdatedVersionAlertArgs.t) : string :=
  WhereUniqueInput.id
    (ResourceConnectInput.connect
       (OutdatedVersionAlertCreateInput.resource
          (CreateOutdatedVersionAlertArgs.data args))).

(** A plugin alert on the block [block-1] of [svc-1], and a template alert
    on [svc-1] with no block. *)
Definition ex_block_args : CreateOutdatedVersionAlertArgs.t :=
  CreateOutdatedVersionAlertArgs.mk
    (OutdatedVersionAlertCreateInput.mk
       (ResourceConnectInput.mk (WhereUniqueInput.mk "svc-1"))
       (Some (ConnectInput.mk (Some (WhereUniqueInput.mk "block-1"))))
       EnumOutdatedVersionAlertType.PluginVersion "0.2.0" "0.3.0" None).

(** What one turn of the template fan-out owes to a service: the alert and
    the event of that turn, field by field (the time stamp apart). *)
Definition template_turn_spec (resourceService : ResourceService.t)
    (configService : ConfigService.t) (encryptString : string -> string)
    (CLIENT_HOST : string) (template : Resource.t) (workspace : Workspace.t)
    (project : Project.t) (latestVersion userId : string)
    (service : Resource.t) (turn : OutdatedVersionAlert.t * TechDebt.t)
  : Prop :=
  let '(alert, event) := turn in
  (OutdatedVersionAlert.resourceId alert = Resource.id service
   /\ OutdatedVersionAlert.blockId alert = None
   /\ OutdatedVersionAlert.type alert
      = EnumOutdatedVersionAlertType.TemplateVersion
   /\ OutdatedVersionAlert.status alert = EnumOutdatedVersionAlertStatus.New
   /\ OutdatedVersionAlert.outdatedVersion alert
      = ServiceTemplateVersion.version
          (ResourceService.getServiceTemplateSettings resourceService
             (Resource.id service) None)
   /\ OutdatedVersionAlert.latestVersion alert = latestVersion)
  /\ (TechDebt.resourceId event = Resource.id service
      /\ TechDebt.resourceName event = Resource.name service
      /\ TechDebt.workspaceId event = Workspace.id workspace
      /\ TechDebt.projectId event = Resource.projectId template
      /\ TechDebt.techDebtId event = OutdatedVersionAlert.id alert
      /\ TechDebt.envBaseUrl event = ConfigService.get configService CLIENT_HOST
      /\ TechDebt.externalId event = encryptString userId
      /\ TechDebt.resourceType event = Resource.resourceType service
      /\ TechDebt.projectName event = Project.name project
      /\ TechDebt.alertType event = EnumOutdatedVersionAlertType.TemplateVersion
      /\ TechDebt.alertInitiator event = Resource.name template).

(** The same project seen through a lookup that resolves [svc-a] and not
    [svc-b]. *)
Definition ex_resourceService_second_unresolved : ResourceService.t :=
  ResourceService.mk
    (fun id => if bool_decide (id = "svc-a") then Some ex_serviceA else None)
    (ResourceService.getResourceWorkspace ex_resourceService)
    (ResourceService.resources ex_resourceService)
    (ResourceService.getServiceTemplateSettings ex_resourceService).

(** What every effect of the plugin fan-out satisfies, whether the fan-out
    runs to its end or not. *)
Definition plugin_effect_spec (configService : ConfigService.t)
    (encryptString : string -> string) (CLIENT_HOST TOPIC : string)
    (projectId : string) (project : Project.t) (newVersion userId : string)
    (e : Effect) : Prop :=
  match e with
  | StoreCreate a =>
      OutdatedVersionAlert.type a = EnumOutdatedVersionAlertType.PluginVersion
      /\ OutdatedVersionAlert.status a = EnumOutdatedVersionAlertStatus.New
      /\ OutdatedVersionAlert.latestVersion a = newVersion
      /\ is_Some (OutdatedVersionAlert.blockId a)
  | KafkaEmit topic v =>
      topic = TOPIC
      /\ TechDebt.projectId v = projectId
      /\ TechDebt.workspaceId v = Project.workspaceId project
      /\ TechDebt.projectName v = Project.name project
      /\ TechDebt.externalId v = encryptString userId
      /\ TechDebt.envBaseUrl v = ConfigService.get configService CLIENT_HOST
      /\ TechDebt.alertType v = EnumOutdatedVersionAlertType.PluginVersion
  end.

(** A query language that knows the key [status] on alerts. *)
Definition ex_statusCondition (k : string) (v : JsValue)
    (a : OutdatedVersionAlert.t) : bool :=
  if bool_decide (k = "status") then
    match v with
    | JsString s =>
        if bool_decide (s = "New") then
          bool_decide (OutdatedVersionAlert.status a
                       = EnumOutdatedVersionAlertStatus.New)
        else if bool_decide (s = "Canceled") then
          bool_decide (OutdatedVersionAlert.status a
                       = EnumOutdatedVersionAlertStatus.Canceled)
        else
          bool_decide (OutdatedVersionAlert.status a
                       = EnumOutdatedVersionAlertStatus.Resolved)
    | _ => false
    end
  else true.

Definition ex_status_args : FindManyOutdatedVersionAlertArgs.t :=
  FindManyOutdatedVersionAlertArgs.mk
    (Some {[ "status" := JsString "New" ]}) None None None.

(** The three alerts, and before them a cancelled alert of the live
    resource. *)
Definition ex_three_alerts_one_canceled : World :=
  mkWorld
    (OutdatedVersionAlert.with_status EnumOutdatedVersionAlertStatus.Canceled
       (ex_alert 0%N "svc-live")
     :: [ex_alert 1%N "svc-deleted"; ex_alert 2%N "svc-archived";
         ex_alert 3%N "svc-live"])
    4%N [] [].

(** * The team form ([Teams/TeamForm.tsx], lines 23-63)

    The values of the form are objects of GraphQL data: finite maps from a
    key to a value that is there ([null] included). *)

Definition NON_INPUT_GRAPHQL_PROPERTIES : list string :=
  ["id"; "createdAt"; "updatedAt"; "__typename"; "members"].

Definition INITIAL_VALUES : gmap string JsValue :=
  {[ "name" := JsString ""; "description" := JsString "" ]}.

(** [omit(object, paths)] of lodash, for paths that are plain keys: the
    object without these keys, and the empty object for [undefined]. *)
Definition omit (object : option (gmap string JsValue)) (paths : list string)
  : gmap string JsValue :=
  foldr delete (default ∅ object) paths.

(** Lines 54-63: [{ ...INITIAL_VALUES, ...sanitizedDefaultValues }]; the
    entries spread last win, which is the left-biased union with the
    sanitized values on the left. *)
Definition TeamForm_initialValues (defaultValues : option (gmap string JsValue))
  : gmap string JsValue :=
  let sanitizedDefaultValues := omit defaultValues NON_INPUT_GRAPHQL_PROPERTIES in
  sanitizedDefaultValues ∪ INITIAL_VALUES.

(** A team as the server sends it. *)
Definition ex_team : gmap string JsValue :=
  {[ "id" := JsString "team-1"; "__typename" := JsString "Team";
     "createdAt" := JsString "2024-05-01T10:00:00.000Z";
     "name" := JsString "Platform"; "color" := JsString "#20A4F3";
     "members" := JsNull ]}.

(** * Properties *)

(** ** The hook: the two patterns *)

Example includes_platform_pattern :
  includes platform_pattern "/platform/" = true
  /\ includes plain_pattern "/platform/" = false.
Proof. split; reflexivity. Qed.

(** ** [create] and the one-open-alert invariant *)

Lemma create_run args w :
  create args w = (Returned (create_row args w), create_world args w).
Proof. reflexivity. Qed.

Lemma create_row_scope args w : scope_of (create_row args w) = args_scope args.
Proof. reflexivity. Qed.

Lemma create_row_status args w :
  OutdatedVersionAlert.status (create_row args w)
  = EnumOutdatedVersionAlertStatus.New.
Proof. reflexivity. Qed.

Lemma scope_of_with_status s a :
  scope_of (OutdatedVersionAlert.with_status s a) = scope_of a.
Proof. reflexivity. Qed.

Lemma scope_of_set_status_where wh s a :
  scope_of (set_status_where wh s a) = scope_of a.
Proof. unfold set_status_where. by destruct (where_matches wh a). Qed.

(** Every open alert of the scope of [args] is caught by the filter. *)
Lemma create_where_matches args a :
  is_New_in (args_scope args) a -> where_matches (create_where args) a = true.
Proof.
  intros [Hsc Hst]. unfold scope_of, args_scope in Hsc.
  injection Hsc as Hr Hb Ht.
  unfold where_matches, create_where, field_matches; simpl.
  rewrite Hr, Ht, Hst, !bool_decide_eq_true_2 by done. simpl.
  destruct (_ <$> _) as [b|] eqn:E; [|done].
  by rewrite bool_decide_eq_true_2.
Qed.

(** An [updateMany] to a status other than [New] opens nothing. *)
Lemma new_in_scope_set_status_le wh s sc rows :
  s <> EnumOutdatedVersionAlertStatus.New ->
  length (new_in_scope sc (set_status_where wh s <$> rows))
  <= length (new_in_scope sc rows).
Proof.
  intros Hs. unfold new_in_scope.
  induction rows as [|a rows IH]; [done|].
  rewrite fmap_cons, !filter_cons.
  destruct (decide (is_New_in sc (set_status_where wh s a))) as [[H1 H2]|Hn].
  - rewrite scope_of_set_status_where in H1.
    unfold set_status_where in H2.
    destruct (where_matches wh a); [done|].
    rewrite decide_True by done. simpl. lia.
  - destruct (decide (is_New_in sc a)); simpl; lia.
Qed.

Lemma new_in_scope_create_canceled args rows :
  new_in_scope (args_scope args)
    (set_status_where (create_where args)
       EnumOutdatedVersionAlertStatus.Canceled <$> rows) = [].
Proof.
  unfold new_in_scope.
  induction rows as [|a rows IH]; [done|].
  rewrite fmap_cons, filter_cons, IH.
  rewrite decide_False; [done|].
  intros [H1 H2]. rewrite scope_of_set_status_where in H1.
  unfold set_status_where in H2.
  destruct (where_matches (create_where args) a) eqn:E; [done|].
  by rewrite create_where_matches in E.
Qed.

Lemma new_in_scope_app sc l1 l2 :
  new_in_scope sc (l1 ++ l2) = (new_in_scope sc l1 ++ new_in_scope sc l2)%list.
Proof. apply filter_app. Qed.

Lemma create_new_in_scope args w :
  new_in_scope (args_scope args) (alerts (create_world args w))
  = [create_row args w].
Proof.
  simpl. rewrite new_in_scope_app, new_in_scope_create_canceled. simpl.
  unfold new_in_scope. rewrite filter_cons, decide_True; [done|].
  split; [apply create_row_scope | apply create_row_status].
Qed.

Lemma create_preserves_invariant args w :
  at_most_one_New (alerts w) -> at_most_one_New (alerts (create_world args w)).
Proof.
  intros Hinv sc.
  destruct (decide (sc = args_scope args)) as [->|Hne].
  - by rewrite create_new_in_scope.
  - simpl. rewrite new_in_scope_app, length_app.
    assert (new_in_scope sc [create_row args w] = []) as ->.
    { unfold new_in_scope. rewrite filter_cons, decide_False; [done|].
      intros [H _]. by rewrite create_row_scope in H. }
    simpl.
    pose proof (new_in_scope_set_status_le (create_where args)
                  EnumOutdatedVersionAlertStatus.Canceled sc (alerts w)
                  ltac:(done)).
    specialize (Hinv sc). lia.
Qed.

Lemma updateMany_preserves_invariant wh s rows :
  s <> EnumOutdatedVersionAlertStatus.New ->
  at_most_one_New rows -> at_most_one_New (set_status_where wh s <$> rows).
Proof.
  intros Hs Hinv sc.
  pose proof (new_in_scope_set_status_le wh s sc rows Hs).
  specialize (Hinv sc). lia.
Qed.

Lemma resolves_run resourceId w :
  resolvesServiceTemplateUpdated resourceId w
  = (Returned tt,
     mkWorld
       (set_status_where
          (UpdateManyWhere.mk (Some resourceId) None
             (Some EnumOutdatedVersionAlertType.TemplateVersion)
             (Some EnumOutdatedVersionAlertStatus.New))
          EnumOutdatedVersionAlertStatus.Resolved <$> alerts w)
       (nextId w) (history w) (logged w)).
Proof. reflexivity. Qed.

Lemma create_preserves args : preserves_invariant (create args).
Proof. intros w Hinv. rewrite create_run. by apply create_preserves_invariant. Qed.

Lemma resolves_preserves resourceId :
  preserves_invariant (resolvesServiceTemplateUpdated resourceId).
Proof.
  intros w Hinv. rewrite resolves_run. simpl.
  by apply updateMany_preserves_invariant.
Qed.

(** A loop keeps what each of its turns keeps, also when a turn throws. *)
Lemma forOf_preserves {A} (P : World -> Prop) (body : A -> M unit) xs :
  (forall x w, P w -> P (body x w).2) ->
  forall w, P w -> P (forOf xs body w).2.
Proof.
  intros Hbody. induction xs as [|x xs IH]; intros w Hw; [done|].
  simpl. unfold bind. specialize (Hbody x w Hw).
  destruct (body x w) as [[[]|e] w1]; simpl in *; [by apply IH | done].
Qed.

Lemma dispatch_run kafka topic v message w :
  (promise <- kafka_emitMessage kafka topic v ;;
   promise_catch promise (fun error => logger_error message error)) w
  = (Returned tt, dispatched_world kafka topic v message w).
Proof.
  unfold bind, kafka_emitMessage, dispatched_world. simpl.
  destruct (KafkaProducerService.emitMessage kafka (history w) topic v);
    simpl; [|done].
  unfold ret. by rewrite app_nil_r.
Qed.

Section ServiceProperties.

Variable resourceService : ResourceService.t.
Variable projectService : ProjectService.t.
Variable pluginInstallationService : PluginInstallationService.t.
Variable kafka : KafkaProducerService.t.
Variable configService : ConfigService.t.
Variable encryptString : string -> string.
Variable clock : nat -> Z.
Variable TOPIC : string.
Variable CLIENT_HOST : string.

Local Abbreviation template_turn :=
  (templateVersionAlert resourceService kafka configService encryptString
     clock TOPIC CLIENT_HOST).
Local Abbreviation plugin_turn :=
  (pluginVersionAlert resourceService kafka configService encryptString
     clock TOPIC CLIENT_HOST).

Lemma templateVersionAlert_run template workspace project latestVersion userId
    service w :
  let args := templateVersion_args resourceService latestVersion service in
  template_turn template workspace project latestVersion userId service w
  = (Returned tt,
     dispatched_world kafka TOPIC
       (templateVersion_event configService encryptString CLIENT_HOST
          template workspace project userId service (create_row args w)
          (clock (length (history (create_world args w)))))
       ("Failed to queue tech debt for service " ++ Resource.id service)
       (create_world args w)).
Proof.
  intros args. unfold templateVersionAlert.
  unfold bind at 1. fold args. rewrite create_run.
  unfold bind at 1, Date_now. apply dispatch_run.
Qed.

Lemma pluginVersionAlert_run projectId project newVersion userId pi w :
  let args := pluginVersion_args newVersion pi in
  plugin_turn projectId project newVersion userId pi w
  = match
      ResourceService.resource resourceService
        (PluginInstallation.resourceId pi)
    with
    | None =>
        (Thrown (TypeError "Cannot read properties of null (reading 'name')"),
         create_world args w)
    | Some resource =>
        (Returned tt,
         dispatched_world kafka TOPIC
           (pluginVersion_event configService encryptString CLIENT_HOST
              projectId project userId pi resource (create_row args w)
              (clock (length (history (create_world args w)))))
           ("Failed to queue tech debt for plugin " ++ PluginInstallation.id pi)
           (create_world args w))
    end.
Proof.
  intros args. unfold pluginVersionAlert.
  unfold bind at 1. fold args. rewrite create_run.
  change (OutdatedVersionAlert.resourceId (create_row args w))
    with (PluginInstallation.resourceId pi).
  destruct (ResourceService.resource resourceService
              (PluginInstallation.resourceId pi)); [|done].
  unfold bind at 1, Date_now. apply dispatch_run.
Qed.

Lemma template_turn_preserves template workspace project latestVersion userId
    service :
  preserves_invariant
    (template_turn template workspace project latestVersion userId service).
Proof.
  intros w Hinv. rewrite templateVersionAlert_run. simpl.
  by apply (create_preserves_invariant _ w).
Qed.

Lemma plugin_turn_preserves projectId project newVersion userId pi :
  preserves_invariant (plugin_turn projectId project newVersion userId pi).
Proof.
  intros w Hinv. rewrite pluginVersionAlert_run.
  destruct (ResourceService.resource _ _); simpl;
    by apply (create_preserves_invariant _ w).
Qed.

Lemma triggerAlertsForTemplateVersion_preserves templateResourceId
    outdatedVersion latestVersion userId :
  preserves_invariant
    (triggerAlertsForTemplateVersion resourceService projectService kafka
       configService encryptString clock TOPIC CLIENT_HOST
       templateResourceId outdatedVersion latestVersion userId).
Proof.
  intros w Hinv. unfold triggerAlertsForTemplateVersion.
  destruct (ResourceService.resource _ _) as [template|]; [|done].
  case_bool_decide; [done|].
  destruct outdatedVersion; [|done].
  apply (forOf_preserves (fun w => at_most_one_New (alerts w))); [|done].
  intros x w0. apply template_turn_preserves.
Qed.

Lemma triggerAlertsForNewPluginVersion_preserves projectId pluginId newVersion
    userId :
  preserves_invariant
    (triggerAlertsForNewPluginVersion resourceService projectService
       pluginInstallationService kafka configService encryptString clock
       TOPIC CLIENT_HOST projectId pluginId newVersion userId).
Proof.
  intros w Hinv. unfold triggerAlertsForNewPluginVersion.
  apply (forOf_preserves (fun w => at_most_one_New (alerts w))); [|done].
  intros x w0. apply plugin_turn_preserves.
Qed.

End ServiceProperties.

Lemma at_most_one_New_nil : at_most_one_New [].
Proof. intros sc. simpl. lia. Qed.

Example ex_twice_alerts :
  alerts ex_twice
  = [ OutdatedVersionAlert.mk 0%N "svc-1" None
        EnumOutdatedVersionAlertType.TemplateVersion
        EnumOutdatedVersionAlertStatus.Canceled "1.0.0" "1.1.0";
      OutdatedVersionAlert.mk 1%N "svc-1" None
        EnumOutdatedVersionAlertType.TemplateVersion
        EnumOutdatedVersionAlertStatus.New "1.0.0" "1.2.0" ].
Proof. reflexivity. Qed.

(** C1, as stated, fails on [update]: the claim lets every operation keep
    the invariant, and the pass-through [update] reopens a superseded alert
    next to the open one of the same scope. *)
Lemma update_breaks_invariant :
  at_most_one_New (alerts ex_twice)
  /\ (update ex_reopen ex_user ex_twice).1
     = Returned (OutdatedVersionAlert.mk 0%N "svc-1" None
                   EnumOutdatedVersionAlertType.TemplateVersion
                   EnumOutdatedVersionAlertStatus.New "1.0.0" "1.1.0")
  /\ ~ at_most_one_New (alerts (update ex_reopen ex_user ex_twice).2)
  /\ ~ preserves_invariant (update ex_reopen ex_user).
Proof.
  assert (at_most_one_New (alerts ex_twice)) as Hinv.
  { unfold ex_twice. apply create_preserves, create_preserves.
    apply at_most_one_New_nil. }
  assert (~ at_most_one_New (alerts (update ex_reopen ex_user ex_twice).2))
    as Hbroken.
  { intros H.
    specialize (H ("svc-1", None, EnumOutdatedVersionAlertType.TemplateVersion)).
    vm_compute in H. lia. }
  split; [done|]. split; [reflexivity|]. split; [done|].
  intros H. apply Hbroken, H, Hinv.
Qed.

Lemma where_matches_resolves resourceId a :
  where_matches
    (UpdateManyWhere.mk (Some resourceId) None
       (Some EnumOutdatedVersionAlertType.TemplateVersion)
       (Some EnumOutdatedVersionAlertStatus.New)) a = true
  <-> OutdatedVersionAlert.resourceId a = resourceId
      /\ OutdatedVersionAlert.type a = EnumOutdatedVersionAlertType.TemplateVersion
      /\ OutdatedVersionAlert.status a = EnumOutdatedVersionAlertStatus.New.
Proof.
  unfold where_matches, field_matches; simpl.
  rewrite !andb_true_iff, !bool_decide_eq_true. tauto.
Qed.

(** C1 (amended).  For every call to [create], after it returns: every alert
    that had the scope (resourceId, blockId, type) of the arguments and
    status New is Canceled; the alert that was inserted and returned is the
    only one with status New in that scope; and the table has at most one New
    alert per scope if it had before.  The same invariant is kept by
    [resolvesServiceTemplateUpdated], by both fan-outs (also when they
    throw) and by the reading operations.  The pass-through [update] is
    left out: it does not keep it. *)
Theorem create_leaves_one_New_per_scope :
  (forall args w,
     exists alert w',
       create args w = (Returned alert, w')
       /\ (forall i x,
             alerts w !! i = Some x ->
             is_New_in (args_scope args) x ->
             alerts w' !! i
             = Some (OutdatedVersionAlert.with_status
                       EnumOutdatedVersionAlertStatus.Canceled x))
       /\ alerts w' !! length (alerts w) = Some alert
       /\ length (alerts w') = S (length (alerts w))
       /\ new_in_scope (args_scope args) (alerts w') = [alert]
       /\ (at_most_one_New (alerts w) -> at_most_one_New (alerts w')))
  /\ (forall args, preserves_invariant (create args))
  /\ (forall resourceId,
        preserves_invariant (resolvesServiceTemplateUpdated resourceId))
  /\ (forall resourceService projectService kafka configService encryptString
        clock TOPIC CLIENT_HOST templateResourceId outdatedVersion
        latestVersion userId,
        preserves_invariant
          (triggerAlertsForTemplateVersion resourceService projectService
             kafka configService encryptString clock TOPIC CLIENT_HOST
             templateResourceId outdatedVersion latestVersion userId))
  /\ (forall resourceService projectService pluginInstallationService kafka
        configService encryptString clock TOPIC CLIENT_HOST projectId
        pluginId newVersion userId,
        preserves_invariant
          (triggerAlertsForNewPluginVersion resourceService projectService
             pluginInstallationService kafka configService encryptString
             clock TOPIC CLIENT_HOST projectId pluginId newVersion userId))
  /\ (forall resourceTable alertCondition resourceCondition sortRows args,
        preserves_invariant
          (findMany resourceTable alertCondition resourceCondition sortRows
             args)
        /\ preserves_invariant
             (count resourceTable alertCondition resourceCondition args))
  /\ (forall id, preserves_invariant (findOne id)).
Proof.
  split; [|repeat split].
  - intros args w. exists (create_row args w), (create_world args w).
    split; [apply create_run|]. split; [|split; [|split; [|split]]].
    + intros i x Hi Hx. simpl.
      rewrite lookup_app_l by (rewrite length_fmap; by eapply lookup_lt_Some).
      rewrite list_lookup_fmap, Hi. simpl. unfold set_status_where.
      by rewrite create_where_matches.
    + simpl. rewrite lookup_app_r by (by rewrite length_fmap).
      by rewrite length_fmap, Nat.sub_diag.
    + simpl. rewrite length_app, length_fmap. simpl. lia.
    + apply create_new_in_scope.
    + apply create_preserves_invariant.
  - apply create_preserves.
  - apply resolves_preserves.
  - intros. apply triggerAlertsForTemplateVersion_preserves.
  - intros. apply triggerAlertsForNewPluginVersion_preserves.
  - by intros w Hinv.
  - by intros w Hinv.
  - by intros w Hinv.
Qed.

(** The theorem at the running example: the second detection for [svc-1]
    cancels the first alert and leaves its own as the only open one. *)
Lemma create_leaves_one_New_per_scope_witness :
  let w := (create (ex_args "1.1.0") emptyWorld).2 in
  exists alert w',
    create (ex_args "1.2.0") w = (Returned alert, w')
    /\ OutdatedVersionAlert.status <$> alerts w'
       = [EnumOutdatedVersionAlertStatus.Canceled;
          EnumOutdatedVersionAlertStatus.New]
    /\ new_in_scope (args_scope (ex_args "1.2.0")) (alerts w') = [alert]
    /\ at_most_one_New (alerts w').
Proof.
  intros w.
  destruct (proj1 create_leaves_one_New_per_scope (ex_args "1.2.0") w)
    as (alert & w' & Hrun & Hcancel & Hnew & Hlen & Hone & Hinv).
  exists alert, w'. split; [exact Hrun|].
  split; [by injection Hrun as _ <-|].
  split; [exact Hone|].
  apply Hinv. unfold w.
  apply (proj1 (proj2 create_leaves_one_New_per_scope)), at_most_one_New_nil.
Defined.

(** C6.  [resolvesServiceTemplateUpdated] (the spec's
    [resolveForTemplateUpdate]) always returns; it sets status Resolved, and
    nothing else, on exactly the alerts of the given resource that have type
    TemplateVersion and status New; every other alert is left as it was, and
    no row is added or removed. *)
Theorem resolvesServiceTemplateUpdated_frame resourceId w :
  exists w',
    resolvesServiceTemplateUpdated resourceId w = (Returned tt, w')
    /\ length (alerts w') = length (alerts w)
    /\ nextId w' = nextId w /\ history w' = history w /\ logged w' = logged w
    /\ forall i a,
         alerts w !! i = Some a ->
         exists a',
           alerts w' !! i = Some a'
           /\ (OutdatedVersionAlert.resourceId a = resourceId
               /\ OutdatedVersionAlert.type a
                  = EnumOutdatedVersionAlertType.TemplateVersion
               /\ OutdatedVersionAlert.status a
                  = EnumOutdatedVersionAlertStatus.New ->
               OutdatedVersionAlert.status a'
               = EnumOutdatedVersionAlertStatus.Resolved
               /\ OutdatedVersionAlert.id a' = OutdatedVersionAlert.id a
               /\ OutdatedVersionAlert.resourceId a'
                  = OutdatedVersionAlert.resourceId a
               /\ OutdatedVersionAlert.blockId a'
                  = OutdatedVersionAlert.blockId a
               /\ OutdatedVersionAlert.type a' = OutdatedVersionAlert.type a
               /\ OutdatedVersionAlert.outdatedVersion a'
                  = OutdatedVersionAlert.outdatedVersion a
               /\ OutdatedVersionAlert.latestVersion a'
                  = OutdatedVersionAlert.latestVersion a)
           /\ (~ (OutdatedVersionAlert.resourceId a = resourceId
                  /\ OutdatedVersionAlert.type a
                     = EnumOutdatedVersionAlertType.TemplateVersion
                  /\ OutdatedVersionAlert.status a
                     = EnumOutdatedVersionAlertStatus.New) ->
               a' = a).
Proof.
  eexists. split; [apply resolves_run|]. simpl.
  split; [apply length_fmap|]. do 3 (split; [done|]).
  intros i a Hi. eexists. rewrite list_lookup_fmap, Hi. simpl.
  split; [done|]. unfold set_status_where.
  destruct (where_matches _ a) eqn:E.
  - apply where_matches_resolves in E. split; [done|]. by intros [].
  - split; [|done]. intros H. apply where_matches_resolves in H. congruence.
Qed.

Example ex_mixed_resolved :
  (resolvesServiceTemplateUpdated "svc-1" ex_mixed).1 = Returned tt
  /\ OutdatedVersionAlert.status
     <$> alerts (resolvesServiceTemplateUpdated "svc-1" ex_mixed).2
     = [ EnumOutdatedVersionAlertStatus.Resolved;
         EnumOutdatedVersionAlertStatus.New;
         EnumOutdatedVersionAlertStatus.New;
         EnumOutdatedVersionAlertStatus.Canceled ].
Proof. split; reflexivity. Qed.

(** The theorem at the running example: the open template alert of [svc-1]
    is resolved, the plugin alert of the same service is not. *)
Lemma resolvesServiceTemplateUpdated_frame_witness :
  exists w' a0 a1,
    resolvesServiceTemplateUpdated "svc-1" ex_mixed = (Returned tt, w')
    /\ alerts w' !! 0 = Some a0
    /\ OutdatedVersionAlert.status a0 = EnumOutdatedVersionAlertStatus.Resolved
    /\ alerts w' !! 1 = Some a1
    /\ alerts ex_mixed !! 1 = Some a1.
Proof.
  destruct (resolvesServiceTemplateUpdated_frame "svc-1" ex_mixed)
    as (w' & Hrun & _ & _ & _ & _ & Hrows).
  destruct (Hrows 0 _ eq_refl) as (a0 & H0 & Hres & _).
  destruct (Hrows 1 _ eq_refl) as (a1 & H1 & _ & Hkeep).
  exists w', a0, a1. split; [exact Hrun|]. split; [exact H0|].
  split; [apply Hres; by repeat split|]. split; [exact H1|].
  rewrite Hkeep; [reflexivity|]. by intros (_ & ? & _).
Defined.

(** ** The fan-out over the services of a template *)

(** C3.  When the lookup of the template finds no resource, or finds a
    resource whose kind is not ServiceTemplate, the operation throws the
    domain error [AmplicationError] and leaves the world as it was: no alert
    is created, nothing is emitted. *)
Theorem triggerAlertsForTemplateVersion_rejects_non_template
    resourceService projectService kafka configService encryptString clock
    TOPIC CLIENT_HOST templateResourceId outdatedVersion latestVersion userId
    w :
  ResourceService.resource resourceService templateResourceId = None
  \/ (exists r,
        ResourceService.resource resourceService templateResourceId = Some r
        /\ Resource.resourceType r <> EnumResourceType.ServiceTemplate) ->
  exists message,
    triggerAlertsForTemplateVersion resourceService projectService kafka
      configService encryptString clock TOPIC CLIENT_HOST templateResourceId
      outdatedVersion latestVersion userId w
    = (Thrown (AmplicationError message), w)
    /\ (message
        = "Cannot trigger alerts. Template with id " ++ templateResourceId
          ++ " not found"
        \/ message
           = "Cannot trigger alerts. Resource with id " ++ templateResourceId
             ++ " is not a template").
Proof.
  unfold triggerAlertsForTemplateVersion.
  intros [-> | (r & -> & Hkind)].
  - eexists. split; [reflexivity|]. by left.
  - rewrite bool_decide_eq_true_2 by done.
    eexists. split; [reflexivity|]. by right.
Qed.

Lemma triggerAlertsForTemplateVersion_rejects_non_template_witness :
  (exists message,
     triggerAlertsForTemplateVersion ex_resourceService ex_projectService
       ex_kafka ex_configService ex_encryptString ex_clock "tech-debt"
       "CLIENT_HOST" "svc-a" (Some "1.0.0") "1.1.0" "user-1" ex_mixed
     = (Thrown (AmplicationError message), ex_mixed)
     /\ (message
         = "Cannot trigger alerts. Template with id " ++ "svc-a" ++ " not found"
         \/ message
            = "Cannot trigger alerts. Resource with id " ++ "svc-a"
              ++ " is not a template"))
  /\ (exists message,
        triggerAlertsForTemplateVersion ex_resourceService ex_projectService
          ex_kafka ex_configService ex_encryptString ex_clock "tech-debt"
          "CLIENT_HOST" "gone" (Some "1.0.0") "1.1.0" "user-1" ex_mixed
        = (Thrown (AmplicationError message), ex_mixed)
        /\ (message
            = "Cannot trigger alerts. Template with id " ++ "gone"
              ++ " not found"
            \/ message
               = "Cannot trigger alerts. Resource with id " ++ "gone"
                 ++ " is not a template")).
Proof.
  split.
  - apply triggerAlertsForTemplateVersion_rejects_non_template.
    right. exists ex_serviceA. split; [reflexivity | discriminate].
  - apply triggerAlertsForTemplateVersion_rejects_non_template.
    left. reflexivity.
Defined.

(** C4.  For a template that exists and is of kind ServiceTemplate, a call
    with [outdatedVersion = null] returns and leaves the world as it was:
    zero alerts are created and zero notifications are emitted. *)
Theorem triggerAlertsForTemplateVersion_null_outdatedVersion
    resourceService projectService kafka configService encryptString clock
    TOPIC CLIENT_HOST templateResourceId template latestVersion userId w :
  ResourceService.resource resourceService templateResourceId = Some template ->
  Resource.resourceType template = EnumResourceType.ServiceTemplate ->
  triggerAlertsForTemplateVersion resourceService projectService kafka
    configService encryptString clock TOPIC CLIENT_HOST templateResourceId
    None latestVersion userId w
  = (Returned tt, w).
Proof.
  intros Hfound Hkind. unfold triggerAlertsForTemplateVersion.
  rewrite Hfound, Hkind. by rewrite bool_decide_eq_false_2 by (by intros []).
Qed.

Lemma triggerAlertsForTemplateVersion_null_outdatedVersion_witness :
  triggerAlertsForTemplateVersion ex_resourceService ex_projectService
    ex_kafka ex_configService ex_encryptString ex_clock "tech-debt"
    "CLIENT_HOST" "tpl-1" None "1.1.0" "user-1" ex_mixed
  = (Returned tt, ex_mixed).
Proof.
  apply (triggerAlertsForTemplateVersion_null_outdatedVersion
           ex_resourceService ex_projectService ex_kafka ex_configService
           ex_encryptString ex_clock "tech-debt" "CLIENT_HOST" "tpl-1"
           ex_template); reflexivity.
Defined.

(** C2.  A template of kind ServiceTemplate, a non-null outdated version,
    and exactly the services A and B referencing the template in its
    project: the operation returns after exactly four effects, in this
    order: the alert of A is inserted, the event of A is dispatched, the
    alert of B is inserted, the event of B is dispatched.  Both alerts are
    created with status New and type TemplateVersion, each for its service,
    and each event carries the identifier of the alert of its own service as
    [techDebtId].  When A and B are two resources, both alerts are in the
    table as they were created. *)
Theorem triggerAlertsForTemplateVersion_two_services
    resourceService projectService kafka configService encryptString clock
    TOPIC CLIENT_HOST templateResourceId template A B outdatedVersion
    latestVersion userId w :
  ResourceService.resource resourceService templateResourceId = Some template ->
  Resource.resourceType template = EnumResourceType.ServiceTemplate ->
  ResourceService.resources resourceService templateResourceId
    (Resource.projectId template) = [A; B] ->
  exists alertA alertB eventA eventB w',
    triggerAlertsForTemplateVersion resourceService projectService kafka
      configService encryptString clock TOPIC CLIENT_HOST templateResourceId
      (Some outdatedVersion) latestVersion userId w
    = (Returned tt, w')
    /\ history w'
       = (history w
          ++ [StoreCreate alertA; KafkaEmit TOPIC eventA;
              StoreCreate alertB; KafkaEmit TOPIC eventB])%list
    /\ length (alerts w') = length (alerts w) + 2
    /\ (OutdatedVersionAlert.resourceId alertA = Resource.id A
        /\ OutdatedVersionAlert.blockId alertA = None
        /\ OutdatedVersionAlert.type alertA
           = EnumOutdatedVersionAlertType.TemplateVersion
        /\ OutdatedVersionAlert.status alertA
           = EnumOutdatedVersionAlertStatus.New
        /\ OutdatedVersionAlert.latestVersion alertA = latestVersion)
    /\ (OutdatedVersionAlert.resourceId alertB = Resource.id B
        /\ OutdatedVersionAlert.blockId alertB = None
        /\ OutdatedVersionAlert.type alertB
           = EnumOutdatedVersionAlertType.TemplateVersion
        /\ OutdatedVersionAlert.status alertB
           = EnumOutdatedVersionAlertStatus.New
        /\ OutdatedVersionAlert.latestVersion alertB = latestVersion)
    /\ OutdatedVersionAlert.id alertA <> OutdatedVersionAlert.id alertB
    /\ (TechDebt.resourceId eventA = Resource.id A
        /\ TechDebt.techDebtId eventA = OutdatedVersionAlert.id alertA
        /\ TechDebt.alertType eventA
           = EnumOutdatedVersionAlertType.TemplateVersion)
    /\ (TechDebt.resourceId eventB = Resource.id B
        /\ TechDebt.techDebtId eventB = OutdatedVersionAlert.id alertB
        /\ TechDebt.alertType eventB
           = EnumOutdatedVersionAlertType.TemplateVersion)
    /\ (Resource.id A <> Resource.id B ->
        alerts w' !! length (alerts w) = Some alertA
        /\ alerts w' !! S (length (alerts w)) = Some alertB).
Proof.
  intros Hfound Hkind Hservices. unfold triggerAlertsForTemplateVersion.
  rewrite Hfound, Hkind, Hservices.
  rewrite bool_decide_eq_false_2 by (by intros []).
  simpl forOf. unfold bind.
  rewrite templateVersionAlert_run. cbv zeta.
  rewrite templateVersionAlert_run. cbv zeta.
  do 5 eexists. split; [reflexivity|].
  split; [simpl; by rewrite <- !app_assoc|].
  split.
  { simpl. repeat first [rewrite length_app | rewrite length_fmap].
    simpl. lia. }
  do 2 (split; [by repeat split|]).
  split; [simpl; lia|].
  do 2 (split; [by repeat split|]).
  intros Hne. simpl.
  assert (where_matches
            (create_where (templateVersion_args resourceService latestVersion B))
            (create_row (templateVersion_args resourceService latestVersion A) w)
          = false) as Hkeep.
  { unfold where_matches, field_matches. simpl.
    by rewrite bool_decide_eq_false_2. }
  split.
  - rewrite lookup_app_l
      by (rewrite length_fmap, length_app, length_fmap; simpl; lia).
    rewrite list_lookup_fmap, lookup_app_r by (by rewrite length_fmap).
    rewrite length_fmap, Nat.sub_diag. simpl.
    unfold set_status_where. by rewrite Hkeep.
  - rewrite lookup_app_r
      by (rewrite length_fmap, length_app, length_fmap; simpl; lia).
    rewrite length_fmap, length_app, length_fmap. simpl.
    by replace (S (length (alerts w)) - (length (alerts w) + 1)) with 0 by lia.
Qed.

Example ex_two_services_run :
  let r :=
    triggerAlertsForTemplateVersion ex_resourceService ex_projectService
      ex_kafka ex_configService ex_encryptString ex_clock "tech-debt"
      "CLIENT_HOST" "tpl-1" (Some "1.0.0") "1.1.0" "user-1" emptyWorld in
  r.1 = Returned tt
  /\ OutdatedVersionAlert.resourceId <$> alerts r.2 = ["svc-a"; "svc-b"]
  /\ TechDebt.techDebtId <$> emitted (history r.2) = [0%N; 1%N]
  /\ log_message <$> logged r.2 = ["Failed to queue tech debt for service svc-a"].
Proof. repeat split. Qed.

Lemma triggerAlertsForTemplateVersion_two_services_witness :
  exists alertA alertB eventA eventB w',
    triggerAlertsForTemplateVersion ex_resourceService ex_projectService
      ex_kafka ex_configService ex_encryptString ex_clock "tech-debt"
      "CLIENT_HOST" "tpl-1" (Some "1.0.0") "1.1.0" "user-1" emptyWorld
    = (Returned tt, w')
    /\ history w'
       = [StoreCreate alertA; KafkaEmit "tech-debt" eventA;
          StoreCreate alertB; KafkaEmit "tech-debt" eventB]
    /\ TechDebt.techDebtId eventA = OutdatedVersionAlert.id alertA
    /\ TechDebt.techDebtId eventB = OutdatedVersionAlert.id alertB
    /\ alerts w' = [alertA; alertB].
Proof.
  destruct (triggerAlertsForTemplateVersion_two_services
              ex_resourceService ex_projectService ex_kafka ex_configService
              ex_encryptString ex_clock "tech-debt" "CLIENT_HOST" "tpl-1"
              ex_template ex_serviceA ex_serviceB "1.0.0" "1.1.0" "user-1"
              emptyWorld eq_refl eq_refl eq_refl)
    as (alertA & alertB & eventA & eventB & w' & Hrun & Hhist & Hlen & _ & _
        & _ & (_ & HidA & _) & (_ & HidB & _) & Hrows).
  exists alertA, alertB, eventA, eventB, w'.
  split; [exact Hrun|]. split; [exact Hhist|].
  split; [exact HidA|]. split; [exact HidB|].
  destruct (Hrows ltac:(discriminate)) as [HA HB]. simpl in HA, HB, Hlen.
  destruct (alerts w') as [|a [|b [|c rest]]]; simpl in *; try discriminate.
  congruence.
Defined.

(** ** The two fan-outs: order of the effects, rejections, completeness *)

(** In a history that comes in turns, every dispatch is right after the
    insertion of the row whose identifier and type it carries. *)
Lemma in_turns_lookup added :
  in_turns added ->
  forall i topic v,
    added !! i = Some (KafkaEmit topic v) ->
    exists j a,
      i = S j
      /\ added !! j = Some (StoreCreate a)
      /\ TechDebt.techDebtId v = OutdatedVersionAlert.id a
      /\ TechDebt.alertType v = OutdatedVersionAlert.type a
      /\ TechDebt.resourceId v = OutdatedVersionAlert.resourceId a.
Proof.
  induction 1 as [|a|a topic0 v0 rest Hid Hty Hres Hrest IH];
    intros i topic v Hi.
  - by rewrite lookup_nil in Hi.
  - destruct i as [|[|i]]; simpl in Hi; discriminate.
  - destruct i as [|[|i]]; simpl in Hi.
    + discriminate.
    + injection Hi as -> ->. by exists 0, a.
    + destruct (IH i topic v Hi) as (j & b & -> & Hj & ? & ? & ?).
      by exists (S (S j)), b.
Qed.

Lemma created_cons_create a h : created (StoreCreate a :: h) = a :: created h.
Proof. reflexivity. Qed.

Lemma created_cons_emit topic v h : created (KafkaEmit topic v :: h) = created h.
Proof. reflexivity. Qed.

Lemma emitted_cons_create a h : emitted (StoreCreate a :: h) = emitted h.
Proof. reflexivity. Qed.

Lemma emitted_cons_emit topic v h :
  emitted (KafkaEmit topic v :: h) = v :: emitted h.
Proof. reflexivity. Qed.

(** Two loops whose turns agree on related worlds agree as a whole. *)
Lemma forOf_agree {A} (R : World -> World -> Prop) (body1 body2 : A -> M unit)
    xs :
  (forall x w1 w2,
     R w1 w2 ->
     (body1 x w1).1 = (body2 x w2).1 /\ R (body1 x w1).2 (body2 x w2).2) ->
  forall w1 w2,
    R w1 w2 ->
    (forOf xs body1 w1).1 = (forOf xs body2 w2).1
    /\ R (forOf xs body1 w1).2 (forOf xs body2 w2).2.
Proof.
  intros Hbody. induction xs as [|x xs IH]; intros w1 w2 HR; [done|].
  simpl. unfold bind. destruct (Hbody x w1 w2 HR) as [Hout Hnext].
  destruct (body1 x w1) as [[[]|e1] w1'], (body2 x w2) as [[[]|e2] w2'];
    simpl in *; try discriminate; [by apply IH | done].
Qed.

Section FanOut.

Variable resourceService : ResourceService.t.
Variable projectService : ProjectService.t.
Variable pluginInstallationService : PluginInstallationService.t.
Variable kafka : KafkaProducerService.t.
Variable configService : ConfigService.t.
Variable encryptString : string -> string.
Variable clock : nat -> Z.
Variable TOPIC : string.
Variable CLIENT_HOST : string.

Local Abbreviation template_turn k :=
  (templateVersionAlert resourceService k configService encryptString
     clock TOPIC CLIENT_HOST).
Local Abbreviation plugin_turn k :=
  (pluginVersionAlert resourceService k configService encryptString
     clock TOPIC CLIENT_HOST).

Lemma create_world_agree logged0 args w1 w2 :
  agree_quiet logged0 w1 w2 ->
  create_row args w1 = create_row args w2
  /\ agree_quiet logged0 (create_world args w1) (create_world args w2).
Proof.
  intros [(Ha & Hn & Hh) Hl].
  assert (create_row args w1 = create_row args w2) as Hrow
    by (unfold create_row; by rewrite Hn).
  split; [done|]. unfold create_world, agree_quiet, agree_up_to_log. simpl.
  by rewrite Ha, Hn, Hh, Hrow.
Qed.

Lemma dispatched_world_agree logged0 topic v message w1 w2 :
  agree_quiet logged0 w1 w2 ->
  agree_quiet logged0 (dispatched_world kafka topic v message w1)
    (dispatched_world quietKafka topic v message w2).
Proof.
  intros [(Ha & Hn & Hh) Hl].
  unfold agree_quiet, agree_up_to_log, dispatched_world. simpl.
  by rewrite Ha, Hn, Hh, Hl, app_nil_r.
Qed.

Lemma template_turn_agree logged0 template workspace project latestVersion
    userId service w1 w2 :
  agree_quiet logged0 w1 w2 ->
  (template_turn kafka template workspace project latestVersion userId
     service w1).1
  = (template_turn quietKafka template workspace project latestVersion userId
       service w2).1
  /\ agree_quiet logged0
       (template_turn kafka template workspace project latestVersion userId
          service w1).2
       (template_turn quietKafka template workspace project latestVersion
          userId service w2).2.
Proof.
  intros Hagree. rewrite !templateVersionAlert_run. cbv zeta.
  destruct (create_world_agree logged0
              (templateVersion_args resourceService latestVersion service)
              w1 w2 Hagree) as (Hrow & Hc).
  rewrite Hrow.
  assert (history (create_world
            (templateVersion_args resourceService latestVersion service) w1)
          = history (create_world
              (templateVersion_args resourceService latestVersion service) w2))
    as -> by apply Hc.
  split; [done|]. by apply dispatched_world_agree.
Qed.

Lemma plugin_turn_agree logged0 projectId project newVersion userId pi w1 w2 :
  agree_quiet logged0 w1 w2 ->
  (plugin_turn kafka projectId project newVersion userId pi w1).1
  = (plugin_turn quietKafka projectId project newVersion userId pi w2).1
  /\ agree_quiet logged0
       (plugin_turn kafka projectId project newVersion userId pi w1).2
       (plugin_turn quietKafka projectId project newVersion userId pi w2).2.
Proof.
  intros Hagree. rewrite !pluginVersionAlert_run. cbv zeta.
  destruct (create_world_agree logged0 (pluginVersion_args newVersion pi)
              w1 w2 Hagree) as (Hrow & Hc).
  destruct (ResourceService.resource resourceService
              (PluginInstallation.resourceId pi)); [|done].
  rewrite Hrow.
  assert (history (create_world (pluginVersion_args newVersion pi) w1)
          = history (create_world (pluginVersion_args newVersion pi) w2))
    as -> by apply Hc.
  split; [done|]. by apply dispatched_world_agree.
Qed.

Lemma template_loop_effects template workspace project latestVersion userId
    services :
  forall w,
    exists w' added,
      forOf services
        (template_turn kafka template workspace project latestVersion userId) w
      = (Returned tt, w')
      /\ history w' = (history w ++ added)%list
      /\ in_turns added
      /\ logged w'
         = (logged w ++ expected_log kafka service_message (history w) added)%list
      /\ OutdatedVersionAlert.resourceId <$> created added
         = Resource.id <$> services
      /\ TechDebt.resourceId <$> emitted added = Resource.id <$> services.
Proof.
  induction services as [|service rest IH]; intros w.
  - exists w, []. simpl. rewrite !app_nil_r.
    repeat split; constructor.
  - simpl forOf. unfold bind. rewrite templateVersionAlert_run. cbv zeta.
    match goal with |- context [forOf rest _ ?w1] =>
      destruct (IH w1) as (w' & added & Hrun & Hhist & Hturns & Hlog & Hc & He)
    end.
    rewrite Hrun. eexists w', (_ :: _ :: added).
    split; [reflexivity|]. split; [|split; [|split; [|split]]].
    + rewrite Hhist. simpl. by rewrite <- !app_assoc.
    + by apply in_turns_cons.
    + rewrite Hlog. simpl. by rewrite <- !app_assoc.
    + by rewrite created_cons_create, created_cons_emit, !fmap_cons, Hc.
    + by rewrite emitted_cons_create, emitted_cons_emit, !fmap_cons, He.
Qed.

Lemma plugin_loop_effects projectId project newVersion userId pis :
  forall w,
    exists added,
      history
        (forOf pis (plugin_turn kafka projectId project newVersion userId) w).2
      = (history w ++ added)%list
      /\ in_turns added
      /\ logged
           (forOf pis (plugin_turn kafka projectId project newVersion userId)
              w).2
         = (logged w ++ expected_log kafka plugin_message (history w) added)%list.
Proof.
  induction pis as [|pi rest IH]; intros w.
  - exists []. simpl. rewrite !app_nil_r. split; [done|]. split; [constructor|done].
  - simpl forOf. unfold bind. rewrite pluginVersionAlert_run. cbv zeta.
    destruct (ResourceService.resource resourceService
                (PluginInstallation.resourceId pi)).
    + match goal with |- context [forOf rest _ ?w1] =>
        destruct (IH w1) as (added & Hhist & Hturns & Hlog)
      end.
      eexists (_ :: _ :: added).
      split; [|split].
      * rewrite Hhist. simpl. by rewrite <- !app_assoc.
      * by apply in_turns_cons.
      * rewrite Hlog. simpl. by rewrite <- !app_assoc.
    + eexists [_]. simpl.
      split; [reflexivity|]. split; [constructor|]. simpl. by rewrite app_nil_r.
Qed.

Lemma plugin_loop_complete projectId project newVersion userId pis :
  Forall
    (fun pi =>
       is_Some (ResourceService.resource resourceService
                  (PluginInstallation.resourceId pi))) pis ->
  forall w,
    exists w' turns,
      forOf pis (plugin_turn kafka projectId project newVersion userId) w
      = (Returned tt, w')
      /\ history w' = (history w ++ flat_map (turn_effects TOPIC) turns)%list
      /\ Forall2 (plugin_turn_spec resourceService newVersion) pis turns.
Proof.
  induction 1 as [|pi rest [resource Hres] _ IH]; intros w.
  - exists w, []. simpl. rewrite app_nil_r. by repeat split.
  - simpl forOf. unfold bind. rewrite pluginVersionAlert_run. cbv zeta.
    rewrite Hres.
    match goal with |- context [forOf rest _ ?w1] =>
      destruct (IH w1) as (w' & turns & Hrun & Hhist & Hspec)
    end.
    rewrite Hrun. eexists w', ((_, _) :: turns).
    split; [reflexivity|]. split.
    + rewrite Hhist. simpl. by rewrite <- !app_assoc.
    + constructor; [|done]. repeat split. by exists resource.
Qed.

Lemma triggerAlertsForTemplateVersion_effects templateResourceId
    outdatedVersion latestVersion userId w :
  exists added,
    history
      (triggerAlertsForTemplateVersion resourceService projectService kafka
         configService encryptString clock TOPIC CLIENT_HOST
         templateResourceId outdatedVersion latestVersion userId w).2
    = (history w ++ added)%list
    /\ in_turns added
    /\ logged
         (triggerAlertsForTemplateVersion resourceService projectService kafka
            configService encryptString clock TOPIC CLIENT_HOST
            templateResourceId outdatedVersion latestVersion userId w).2
       = (logged w ++ expected_log kafka service_message (history w) added)%list
    /\ forall template,
         ResourceService.resource resourceService templateResourceId
         = Some template ->
         Resource.resourceType template = EnumResourceType.ServiceTemplate ->
         outdatedVersion <> None ->
         (triggerAlertsForTemplateVersion resourceService projectService kafka
            configService encryptString clock TOPIC CLIENT_HOST
            templateResourceId outdatedVersion latestVersion userId w).1
         = Returned tt
         /\ OutdatedVersionAlert.resourceId <$> created added
            = Resource.id
              <$> ResourceService.resources resourceService templateResourceId
                    (Resource.projectId template)
         /\ TechDebt.resourceId <$> emitted added
            = Resource.id
              <$> ResourceService.resources resourceService templateResourceId
                    (Resource.projectId template).
Proof.
  unfold triggerAlertsForTemplateVersion.
  destruct (ResourceService.resource _ _) as [template|].
  2:{ exists []. simpl. rewrite !app_nil_r.
      split; [done|]. split; [constructor|]. split; [done|]. by intros t [=]. }
  case_bool_decide as Hkind.
  { exists []. simpl. rewrite !app_nil_r.
    split; [done|]. split; [constructor|]. split; [done|].
    intros t [= <-] ?. by destruct Hkind. }
  destruct outdatedVersion.
  2:{ exists []. simpl. rewrite !app_nil_r.
      split; [done|]. split; [constructor|]. split; [done|].
      by intros t _ _ []. }
  match goal with |- context [forOf ?xs (?f ?t ?ws ?p ?lv ?u) w] =>
    destruct (template_loop_effects t ws p lv u xs w)
      as (w' & added & Hrun & Hhist & Hturns & Hlog & Hc & He)
  end.
  rewrite Hrun. exists added. do 3 (split; [done|]).
  by intros t [= <-] _ _.
Qed.

Lemma triggerAlertsForNewPluginVersion_effects projectId pluginId newVersion
    userId w :
  exists added,
    history
      (triggerAlertsForNewPluginVersion resourceService projectService
         pluginInstallationService kafka configService encryptString clock
         TOPIC CLIENT_HOST projectId pluginId newVersion userId w).2
    = (history w ++ added)%list
    /\ in_turns added
    /\ logged
         (triggerAlertsForNewPluginVersion resourceService projectService
            pluginInstallationService kafka configService encryptString clock
            TOPIC CLIENT_HOST projectId pluginId newVersion userId w).2
       = (logged w ++ expected_log kafka plugin_message (history w) added)%list
    /\ (Forall
          (fun pi =>
             is_Some (ResourceService.resource resourceService
                        (PluginInstallation.resourceId pi)))
          (PluginInstallationService.findPluginInstallationByPluginId
             pluginInstallationService pluginId projectId) ->
        (triggerAlertsForNewPluginVersion resourceService projectService
           pluginInstallationService kafka configService encryptString clock
           TOPIC CLIENT_HOST projectId pluginId newVersion userId w).1
        = Returned tt
        /\ one_alert_and_event_per_installation resourceService newVersion
             TOPIC
             (PluginInstallationService.findPluginInstallationByPluginId
                pluginInstallationService pluginId projectId)
             added).
Proof.
  unfold triggerAlertsForNewPluginVersion.
  match goal with |- context [forOf ?xs (?f ?pid ?p ?nv ?u) w] =>
    destruct (plugin_loop_effects pid p nv u xs w)
      as (added & Hhist & Hturns & Hlog);
    pose proof (plugin_loop_complete pid p nv u xs) as Hcomplete
  end.
  exists added. do 3 (split; [done|]).
  intros Hres. destruct (Hcomplete Hres w) as (w' & turns & Hrun & Hh & Hspec).
  rewrite Hrun in Hhist |- *. simpl in Hhist.
  split; [done|]. exists turns. split; [|done].
  rewrite Hh in Hhist. by apply app_inv_head in Hhist.
Qed.

Lemma triggerAlertsForTemplateVersion_agree templateResourceId outdatedVersion
    latestVersion userId w :
  (triggerAlertsForTemplateVersion resourceService projectService kafka
     configService encryptString clock TOPIC CLIENT_HOST templateResourceId
     outdatedVersion latestVersion userId w).1
  = (triggerAlertsForTemplateVersion resourceService projectService quietKafka
       configService encryptString clock TOPIC CLIENT_HOST templateResourceId
       outdatedVersion latestVersion userId w).1
  /\ agree_quiet (logged w)
       (triggerAlertsForTemplateVersion resourceService projectService kafka
          configService encryptString clock TOPIC CLIENT_HOST
          templateResourceId outdatedVersion latestVersion userId w).2
       (triggerAlertsForTemplateVersion resourceService projectService
          quietKafka configService encryptString clock TOPIC CLIENT_HOST
          templateResourceId outdatedVersion latestVersion userId w).2.
Proof.
  assert (agree_quiet (logged w) w w) as Hrefl by done.
  unfold triggerAlertsForTemplateVersion.
  destruct (ResourceService.resource _ _) as [template|]; [|done].
  case_bool_decide; [done|].
  destruct outdatedVersion; [|done].
  apply forOf_agree; [|done].
  intros x w1 w2. apply template_turn_agree.
Qed.

Lemma triggerAlertsForNewPluginVersion_agree projectId pluginId newVersion
    userId w :
  (triggerAlertsForNewPluginVersion resourceService projectService
     pluginInstallationService kafka configService encryptString clock TOPIC
     CLIENT_HOST projectId pluginId newVersion userId w).1
  = (triggerAlertsForNewPluginVersion resourceService projectService
       pluginInstallationService quietKafka configService encryptString clock
       TOPIC CLIENT_HOST projectId pluginId newVersion userId w).1
  /\ agree_quiet (logged w)
       (triggerAlertsForNewPluginVersion resourceService projectService
          pluginInstallationService kafka configService encryptString clock
          TOPIC CLIENT_HOST projectId pluginId newVersion userId w).2
       (triggerAlertsForNewPluginVersion resourceService projectService
          pluginInstallationService quietKafka configService encryptString
          clock TOPIC CLIENT_HOST projectId pluginId newVersion userId w).2.
Proof.
  unfold triggerAlertsForNewPluginVersion.
  apply forOf_agree; [|done].
  intros x w1 w2. apply plugin_turn_agree.
Qed.

End FanOut.

(** C8.  In both fan-outs, whatever the outcome, every dispatch of an event
    comes right after the insertion of an alert, hence strictly after it,
    and the event carries the identifier, the type and the resource of
    that alert, which was already created. *)
Theorem alert_is_created_before_its_event_is_dispatched
    resourceService projectService pluginInstallationService kafka
    configService encryptString clock TOPIC CLIENT_HOST :
  (forall templateResourceId outdatedVersion latestVersion userId w,
     exists added,
       history
         (triggerAlertsForTemplateVersion resourceService projectService kafka
            configService encryptString clock TOPIC CLIENT_HOST
            templateResourceId outdatedVersion latestVersion userId w).2
       = (history w ++ added)%list
       /\ forall i topic v,
            added !! i = Some (KafkaEmit topic v) ->
            exists j a,
              i = S j
              /\ added !! j = Some (StoreCreate a)
              /\ TechDebt.techDebtId v = OutdatedVersionAlert.id a
              /\ TechDebt.alertType v = OutdatedVersionAlert.type a
              /\ TechDebt.resourceId v = OutdatedVersionAlert.resourceId a)
  /\ (forall projectId pluginId newVersion userId w,
        exists added,
          history
            (triggerAlertsForNewPluginVersion resourceService projectService
               pluginInstallationService kafka configService encryptString
               clock TOPIC CLIENT_HOST projectId pluginId newVersion userId
               w).2
          = (history w ++ added)%list
          /\ forall i topic v,
               added !! i = Some (KafkaEmit topic v) ->
               exists j a,
                 i = S j
                 /\ added !! j = Some (StoreCreate a)
                 /\ TechDebt.techDebtId v = OutdatedVersionAlert.id a
                 /\ TechDebt.alertType v = OutdatedVersionAlert.type a
                 /\ TechDebt.resourceId v = OutdatedVersionAlert.resourceId a).
Proof.
  split.
  - intros templateResourceId outdatedVersion latestVersion userId w.
    destruct (triggerAlertsForTemplateVersion_effects resourceService
                projectService kafka configService encryptString clock TOPIC
                CLIENT_HOST templateResourceId outdatedVersion latestVersion
                userId w) as (added & Hhist & Hturns & _).
    exists added. split; [done|]. by apply in_turns_lookup.
  - intros projectId pluginId newVersion userId w.
    destruct (triggerAlertsForNewPluginVersion_effects resourceService
                projectService pluginInstallationService kafka configService
                encryptString clock TOPIC CLIENT_HOST projectId pluginId
                newVersion userId w) as (added & Hhist & Hturns & _).
    exists added. split; [done|]. by apply in_turns_lookup.
Qed.

(** The theorem at the running example: the second effect of the template
    fan-out is the dispatch for [svc-a], and the first is the insertion of
    the alert it names. *)
Lemma alert_is_created_before_its_event_is_dispatched_witness :
  let r :=
    triggerAlertsForTemplateVersion ex_resourceService ex_projectService
      ex_kafka ex_configService ex_encryptString ex_clock "tech-debt"
      "CLIENT_HOST" "tpl-1" (Some "1.0.0") "1.1.0" "user-1" emptyWorld in
  exists v a,
    history r.2 !! 1 = Some (KafkaEmit "tech-debt" v)
    /\ history r.2 !! 0 = Some (StoreCreate a)
    /\ TechDebt.techDebtId v = OutdatedVersionAlert.id a
    /\ TechDebt.alertType v = OutdatedVersionAlert.type a.
Proof.
  intros r.
  destruct (proj1 (alert_is_created_before_its_event_is_dispatched
                     ex_resourceService ex_projectService
                     ex_pluginInstallationService ex_kafka ex_configService
                     ex_encryptString ex_clock "tech-debt" "CLIENT_HOST")
              "tpl-1" (Some "1.0.0") "1.1.0" "user-1" emptyWorld)
    as (added & Hhist & Horder).
  change (history emptyWorld ++ added)%list with added in Hhist.
  fold r in Hhist. rewrite Hhist.
  assert (exists v, added !! 1 = Some (KafkaEmit "tech-debt" v)) as [v Hv].
  { rewrite <- Hhist. eexists. reflexivity. }
  destruct (Horder 1 "tech-debt" v Hv) as (j & a & Hj & Ha & Hid & Hty & _).
  injection Hj as <-. by exists v, a.
Defined.

(** In both fan-outs a rejected emission is caught where the message was
    dispatched and never reaches the caller: the outcome, the table and
    the history of a run are those of the same run with a producer that
    rejects nothing, so every later service or installation gets the alert
    and the dispatch it would have got; the only difference is the log,
    which has one line for each rejected dispatch, with the identifier of the
    service or installation and the error.  After the checks on the template
    the template fan-out returns, with one alert and one dispatch for each
    service, whatever the producer answers; so does the plugin fan-out
    when the owning resources resolve. *)
Theorem rejected_emission_is_logged_and_does_not_stop_the_fan_out
    resourceService projectService pluginInstallationService kafka
    configService encryptString clock TOPIC CLIENT_HOST :
  (forall templateResourceId outdatedVersion latestVersion userId w,
     let run k :=
       triggerAlertsForTemplateVersion resourceService projectService k
         configService encryptString clock TOPIC CLIENT_HOST
         templateResourceId outdatedVersion latestVersion userId w in
     (run kafka).1 = (run quietKafka).1
     /\ agree_up_to_log (run kafka).2 (run quietKafka).2
     /\ logged (run quietKafka).2 = logged w
     /\ exists added,
          history (run kafka).2 = (history w ++ added)%list
          /\ logged (run kafka).2
             = (logged w
                ++ expected_log kafka service_message (history w) added)%list
          /\ forall template,
               ResourceService.resource resourceService templateResourceId
               = Some template ->
               Resource.resourceType template
               = EnumResourceType.ServiceTemplate ->
               outdatedVersion <> None ->
               (run kafka).1 = Returned tt
               /\ OutdatedVersionAlert.resourceId <$> created added
                  = Resource.id
                    <$> ResourceService.resources resourceService
                          templateResourceId (Resource.projectId template)
               /\ TechDebt.resourceId <$> emitted added
                  = Resource.id
                    <$> ResourceService.resources resourceService
                          templateResourceId (Resource.projectId template))
  /\ (forall projectId pluginId newVersion userId w,
        let run k :=
          triggerAlertsForNewPluginVersion resourceService projectService
            pluginInstallationService k configService encryptString clock
            TOPIC CLIENT_HOST projectId pluginId newVersion userId w in
        (run kafka).1 = (run quietKafka).1
        /\ agree_up_to_log (run kafka).2 (run quietKafka).2
        /\ logged (run quietKafka).2 = logged w
        /\ exists added,
             history (run kafka).2 = (history w ++ added)%list
             /\ logged (run kafka).2
                = (logged w
                   ++ expected_log kafka plugin_message (history w) added)%list
             /\ (Forall
                   (fun pi =>
                      is_Some (ResourceService.resource resourceService
                                 (PluginInstallation.resourceId pi)))
                   (PluginInstallationService.findPluginInstallationByPluginId
                      pluginInstallationService pluginId projectId) ->
                 (run kafka).1 = Returned tt
                 /\ one_alert_and_event_per_installation resourceService
                      newVersion TOPIC
                      (PluginInstallationService.findPluginInstallationByPluginId
                         pluginInstallationService pluginId projectId)
                      added)).
Proof.
  split.
  - intros templateResourceId outdatedVersion latestVersion userId w run.
    destruct (triggerAlertsForTemplateVersion_agree resourceService
                projectService kafka configService encryptString clock TOPIC
                CLIENT_HOST templateResourceId outdatedVersion latestVersion
                userId w) as (Hout & Hagree & Hquiet).
    destruct (triggerAlertsForTemplateVersion_effects resourceService
                projectService kafka configService encryptString clock TOPIC
                CLIENT_HOST templateResourceId outdatedVersion latestVersion
                userId w) as (added & Hhist & _ & Hlog & Hall).
    do 3 (split; [done|]). by exists added.
  - intros projectId pluginId newVersion userId w run.
    destruct (triggerAlertsForNewPluginVersion_agree resourceService
                projectService pluginInstallationService kafka configService
                encryptString clock TOPIC CLIENT_HOST projectId pluginId
                newVersion userId w) as (Hout & Hagree & Hquiet).
    destruct (triggerAlertsForNewPluginVersion_effects resourceService
                projectService pluginInstallationService kafka configService
                encryptString clock TOPIC CLIENT_HOST projectId pluginId
                newVersion userId w) as (added & Hhist & _ & Hlog & Hall).
    do 3 (split; [done|]). by exists added.
Qed.

Example ex_plugin_run :
  let r :=
    triggerAlertsForNewPluginVersion ex_resourceService ex_projectService
      ex_pluginInstallationService ex_kafka ex_configService ex_encryptString
      ex_clock "tech-debt" "CLIENT_HOST" "proj-1" "plugin-aws-s3" "0.2.0"
      "user-1" emptyWorld in
  r.1 = Returned tt
  /\ OutdatedVersionAlert.blockId <$> alerts r.2
     = [Some "block-a"; Some "block-b"]
  /\ TechDebt.resourceName <$> emitted (history r.2)
     = ["Service A"; "Service B"]
  /\ logged r.2
     = [mkLog "Failed to queue tech debt for plugin block-a"
          "broker not available"].
Proof. repeat split. Qed.

(** The theorem at the running example: the broker rejects the message for
    [svc-a]; the fan-out returns all the same, [svc-b] gets its alert and
    its dispatch, and the rejection is in the log. *)
Lemma rejected_emission_is_logged_and_does_not_stop_the_fan_out_witness :
  let r :=
    triggerAlertsForTemplateVersion ex_resourceService ex_projectService
      ex_kafka ex_configService ex_encryptString ex_clock "tech-debt"
      "CLIENT_HOST" "tpl-1" (Some "1.0.0") "1.1.0" "user-1" emptyWorld in
  r.1 = Returned tt
  /\ OutdatedVersionAlert.resourceId <$> created (history r.2)
     = ["svc-a"; "svc-b"]
  /\ TechDebt.resourceId <$> emitted (history r.2) = ["svc-a"; "svc-b"]
  /\ logged r.2
     = [mkLog "Failed to queue tech debt for service svc-a"
          "broker not available"].
Proof.
  intros r.
  destruct (proj1 (rejected_emission_is_logged_and_does_not_stop_the_fan_out
                     ex_resourceService ex_projectService
                     ex_pluginInstallationService ex_kafka ex_configService
                     ex_encryptString ex_clock "tech-debt" "CLIENT_HOST")
              "tpl-1" (Some "1.0.0") "1.1.0" "user-1" emptyWorld)
    as (_ & _ & _ & added & Hhist & Hlog & Hall).
  destruct (Hall ex_template eq_refl eq_refl ltac:(discriminate))
    as (Hret & Hc & He).
  change (history emptyWorld ++ added)%list with added in Hhist.
  fold r in Hhist, Hret. rewrite Hhist.
  split; [exact Hret|]. split; [exact Hc|]. split; [exact He|].
  reflexivity.
Defined.

(** C5: the plugin fan-out departs from the claim at this input.  The
    emission for the installation on [svc-a] rejects; the rejection is
    caught and logged, as the claim says.  The owning resource of the next
    installation does not resolve: its alert is inserted, [resource.name]
    at line 266 is read on [null] without the test the same lookup gets at
    line 123, and the fan-out stops with a [TypeError].  The remaining
    installation has its alert and never gets its notification attempt, and
    an error reaches the caller.  The defect is the one of C7. *)
Lemma rejected_emission_then_unresolved_resource_stops_the_fan_out :
  let r :=
    triggerAlertsForNewPluginVersion ex_resourceService_second_unresolved
      ex_projectService ex_pluginInstallationService ex_kafka ex_configService
      ex_encryptString ex_clock "tech-debt" "CLIENT_HOST" "proj-1"
      "plugin-aws-s3" "0.2.0" "user-1" emptyWorld in
  PluginInstallationService.findPluginInstallationByPluginId
    ex_pluginInstallationService "plugin-aws-s3" "proj-1"
  = [ex_installationA; ex_installationB]
  /\ (exists a v,
        history r.2 !! 0 = Some (StoreCreate a)
        /\ history r.2 !! 1 = Some (KafkaEmit "tech-debt" v)
        /\ OutdatedVersionAlert.blockId a = Some "block-a"
        /\ KafkaProducerService.emitMessage ex_kafka [StoreCreate a]
             "tech-debt" v
           = Rejected "broker not available")
  /\ logged r.2
     = [mkLog "Failed to queue tech debt for plugin block-a"
          "broker not available"]
  /\ r.1 = Thrown (TypeError "Cannot read properties of null (reading 'name')")
  /\ OutdatedVersionAlert.blockId <$> created (history r.2)
     = [Some "block-a"; Some "block-b"]
  /\ TechDebt.resourceId <$> emitted (history r.2) = ["svc-a"]
  /\ length (history r.2) = 3.
Proof.
  intros r. split; [reflexivity|]. split.
  { do 2 eexists. repeat split; reflexivity. }
  repeat split; reflexivity.
Qed.

(** C7: the code departs from the claim when the owning resource of an
    installation does not resolve.  The lookup answers [null], which the
    service tests for at line 123 and does not test for here: the alert of
    the installation is inserted, [resource.name] at line 266 throws while
    the event is built, the fan-out stops with a [TypeError], and the
    installation after it gets neither alert nor event. *)
Lemma plugin_fan_out_stops_at_unresolved_resource :
  let r :=
    triggerAlertsForNewPluginVersion ex_resourceService_unresolved
      ex_projectService ex_pluginInstallationService ex_kafka ex_configService
      ex_encryptString ex_clock "tech-debt" "CLIENT_HOST" "proj-1"
      "plugin-aws-s3" "0.2.0" "user-1" emptyWorld in
  PluginInstallationService.findPluginInstallationByPluginId
    ex_pluginInstallationService "plugin-aws-s3" "proj-1"
  = [ex_installationA; ex_installationB]
  /\ r.1 = Thrown (TypeError "Cannot read properties of null (reading 'name')")
  /\ OutdatedVersionAlert.blockId <$> created (history r.2) = [Some "block-a"]
  /\ emitted (history r.2) = []
  /\ ~ exists added,
         history r.2 = (history emptyWorld ++ added)%list
         /\ one_alert_and_event_per_installation ex_resourceService_unresolved
              "0.2.0" "tech-debt" [ex_installationA; ex_installationB] added.
Proof.
  intros r. do 4 (split; [reflexivity|]).
  intros (added & Hhist & turns & -> & Hspec).
  apply Forall2_length in Hspec.
  apply (f_equal length) in Hhist. revert Hhist.
  destruct turns as [|t1 [|t2 [|t3 turns]]]; simpl in Hspec; try discriminate.
Qed.

(** When the owning resource of every installation of the plugin in the
    project resolves, the fan-out returns, and its effects are,
    for each installation in turn, one alert followed by one event: the
    alert has type PluginVersion, status New, the installation as block, the
    resource of the installation, the version of the installation as
    outdated version and [newVersion] as latest version; the event carries
    the identifier of that alert and the name of the owning resource. *)
Theorem triggerAlertsForNewPluginVersion_one_alert_per_installation
    resourceService projectService pluginInstallationService kafka
    configService encryptString clock TOPIC CLIENT_HOST projectId pluginId
    newVersion userId w :
  Forall
    (fun pi =>
       is_Some (ResourceService.resource resourceService
                  (PluginInstallation.resourceId pi)))
    (PluginInstallationService.findPluginInstallationByPluginId
       pluginInstallationService pluginId projectId) ->
  exists w' added,
    triggerAlertsForNewPluginVersion resourceService projectService
      pluginInstallationService kafka configService encryptString clock TOPIC
      CLIENT_HOST projectId pluginId newVersion userId w
    = (Returned tt, w')
    /\ history w' = (history w ++ added)%list
    /\ one_alert_and_event_per_installation resourceService newVersion TOPIC
         (PluginInstallationService.findPluginInstallationByPluginId
            pluginInstallationService pluginId projectId)
         added
    /\ length (alerts w')
       = length (alerts w)
         + length (PluginInstallationService.findPluginInstallationByPluginId
                     pluginInstallationService pluginId projectId).
Proof.
  intros Hres.
  destruct (triggerAlertsForNewPluginVersion_effects resourceService
              projectService pluginInstallationService kafka configService
              encryptString clock TOPIC CLIENT_HOST projectId pluginId
              newVersion userId w) as (added & Hhist & _ & _ & Hall).
  destruct (Hall Hres) as [Hret Hone].
  destruct (triggerAlertsForNewPluginVersion _ _ _ _ _ _ _ _ _ _ _ _ _ w)
    as [out w'] eqn:Hrun.
  simpl in Hret, Hhist. subst out.
  exists w', added. do 3 (split; [done|]).
  revert Hrun. unfold triggerAlertsForNewPluginVersion.
  generalize (PluginInstallationService.findPluginInstallationByPluginId
                pluginInstallationService pluginId projectId).
  clear. intros pis. revert w.
  induction pis as [|pi rest IH]; intros w.
  - intros [= <-]. simpl. lia.
  - simpl forOf. unfold bind. rewrite pluginVersionAlert_run. cbv zeta.
    destruct (ResourceService.resource _ _); [|discriminate].
    intros Hrun. apply IH in Hrun. rewrite Hrun. simpl.
    rewrite length_app, length_fmap. simpl. lia.
Qed.

Lemma triggerAlertsForNewPluginVersion_one_alert_per_installation_witness :
  exists w' added,
    triggerAlertsForNewPluginVersion ex_resourceService ex_projectService
      ex_pluginInstallationService ex_kafka ex_configService ex_encryptString
      ex_clock "tech-debt" "CLIENT_HOST" "proj-1" "plugin-aws-s3" "0.2.0"
      "user-1" emptyWorld
    = (Returned tt, w')
    /\ history w' = added
    /\ one_alert_and_event_per_installation ex_resourceService "0.2.0"
         "tech-debt" [ex_installationA; ex_installationB] added
    /\ length (alerts w') = 2.
Proof.
  apply (triggerAlertsForNewPluginVersion_one_alert_per_installation
           ex_resourceService ex_projectService ex_pluginInstallationService
           ex_kafka ex_configService ex_encryptString ex_clock "tech-debt"
           "CLIENT_HOST" "proj-1" "plugin-aws-s3" "0.2.0" "user-1" emptyWorld).
  repeat constructor; by eexists.
Defined.

(** ** [findMany] *)

Lemma is_not_true_not_true : is_not_true not_true = true.
Proof. unfold is_not_true, not_true. by rewrite map_to_list_singleton. Qed.

Lemma findMany_where_resource where_ :
  exists fields,
    findMany_where where_ !! "resource" = Some (JsObject fields)
    /\ fields !! "deletedAt" = Some JsNull
    /\ fields !! "archived" = Some not_true
    /\ forall k,
         k <> "deletedAt" -> k <> "archived" ->
         fields !! k = spread (default ∅ where_ !! "resource") !! k.
Proof.
  unfold findMany_where. eexists. split; [apply lookup_insert_eq|].
  split; [by rewrite lookup_insert_ne, lookup_insert_eq|].
  split; [apply lookup_insert_eq|].
  intros k Hd Ha. by rewrite !lookup_insert_ne.
Qed.

Lemma where_holds_resource resourceTable alertCondition resourceCondition
    where_ a :
  where_holds resourceTable alertCondition resourceCondition
    (findMany_where where_) a = true ->
  exists r,
    resourceTable (OutdatedVersionAlert.resourceId a) = Some r
    /\ Resource.deletedAt r = None
    /\ Resource.archived r = false.
Proof.
  intros Hholds.
  destruct (findMany_where_resource where_) as (fields & Hres & Hdel & Harch & _).
  unfold where_holds in Hholds. rewrite forallb_forall in Hholds.
  apply elem_of_map_to_list, list_elem_of_In, Hholds in Hres.
  unfold alert_entry_holds in Hres.
  rewrite bool_decide_eq_true_2 in Hres by done.
  destruct (resourceTable (OutdatedVersionAlert.resourceId a)) as [r|];
    [|discriminate].
  exists r. split; [done|]. rewrite forallb_forall in Hres.
  apply elem_of_map_to_list, list_elem_of_In, Hres in Hdel.
  apply elem_of_map_to_list, list_elem_of_In, Hres in Harch.
  unfold resource_entry_holds in Hdel, Harch.
  rewrite bool_decide_eq_true_2 in Hdel by done.
  rewrite bool_decide_eq_false_2 in Harch by done.
  rewrite bool_decide_eq_true_2, is_not_true_not_true in Harch by done.
  apply bool_decide_eq_true in Hdel. apply negb_true_iff in Harch. done.
Qed.

Lemma elem_of_paginate {A} skip take_ (rows : list A) x :
  x ∈ paginate skip take_ rows -> x ∈ rows.
Proof.
  unfold paginate. intros Hx. apply (subseteq_drop (default 0 skip)).
  destruct take_ as [n|]; [|done]. by apply (subseteq_take n).
Qed.

(** C9.  Whatever arguments the caller supplies, [findMany] returns, the
    world is unchanged, and every alert of the result is an alert of the
    table whose owning resource exists, has [deletedAt = null] and is not
    archived.  The filter handed to the store is the caller's with the
    [resource] entry rebuilt: [deletedAt] and [archived] in it are the ones
    the service writes, whatever the caller put under these keys, and every
    other entry of the caller is kept. *)
Theorem findMany_excludes_deleted_and_archived
    resourceTable alertCondition resourceCondition sortRows
    (sortRows_perm : forall o rows, sortRows o rows ≡ₚ rows) args w :
  exists rows,
    findMany resourceTable alertCondition resourceCondition sortRows args w
    = (Returned rows, w)
    /\ (forall a,
          a ∈ rows ->
          a ∈ alerts w
          /\ exists r,
               resourceTable (OutdatedVersionAlert.resourceId a) = Some r
               /\ Resource.deletedAt r = None
               /\ Resource.archived r = false)
    /\ (exists fields,
          findMany_where (FindManyOutdatedVersionAlertArgs.where_ args)
          !! "resource" = Some (JsObject fields)
          /\ fields !! "deletedAt" = Some JsNull
          /\ fields !! "archived" = Some not_true
          /\ forall k,
               k <> "deletedAt" -> k <> "archived" ->
               fields !! k
               = spread (default ∅ (FindManyOutdatedVersionAlertArgs.where_ args)
                         !! "resource") !! k)
    /\ (forall k,
          k <> "resource" ->
          findMany_where (FindManyOutdatedVersionAlertArgs.where_ args) !! k
          = default ∅ (FindManyOutdatedVersionAlertArgs.where_ args) !! k).
Proof.
  eexists. split; [reflexivity|]. split; [|split].
  - intros a Ha. apply elem_of_paginate in Ha. rewrite sortRows_perm in Ha.
    apply list_elem_of_filter in Ha as [Hholds Hin]. split; [done|].
    by eapply where_holds_resource.
  - apply findMany_where_resource.
  - intros k Hk. unfold findMany_where. by rewrite lookup_insert_ne.
Qed.

Example ex_overriding_findMany :
  findMany ex_resourceTable ex_alertCondition ex_resourceCondition ex_sortRows
    ex_overriding_args ex_three_alerts
  = (Returned [ex_alert 1%N "svc-live"], ex_three_alerts).
Proof. vm_compute. reflexivity. Qed.

(** The theorem at the running example: the caller asks for deleted and
    archived resources and gets the alert of the live one. *)
Lemma findMany_excludes_deleted_and_archived_witness :
  (forall o rows, ex_sortRows o rows ≡ₚ rows)
  /\ exists rows,
       findMany ex_resourceTable ex_alertCondition ex_resourceCondition
         ex_sortRows ex_overriding_args ex_three_alerts
       = (Returned rows, ex_three_alerts)
       /\ forall a,
            a ∈ rows ->
            exists r,
              ex_resourceTable (OutdatedVersionAlert.resourceId a) = Some r
              /\ Resource.deletedAt r = None
              /\ Resource.archived r = false.
Proof.
  assert (forall o rows, ex_sortRows o rows ≡ₚ rows) as Hperm by done.
  split; [exact Hperm|].
  destruct (findMany_excludes_deleted_and_archived ex_resourceTable
              ex_alertCondition ex_resourceCondition ex_sortRows Hperm
              ex_overriding_args ex_three_alerts)
    as (rows & Hrun & Hrows & _).
  exists rows. split; [exact Hrun|].
  intros a Ha. by destruct (Hrows a Ha).
Defined.

(** ** The hook *)

(** C10.  When the route matches neither pattern ([useRouteMatch] answers
    [null]), the hook returns the empty base URL and [false], whatever the
    override.  When it matches, the flag returned is the override if there is
    one and else whether the matched pattern contains [/platform/], and the
    base URL is [/], the workspace, [/platform] if the flag is set, [/], the
    project. *)
Theorem useProjectBaseUrl_base_url useRouteMatch props :
  (useRouteMatch [platform_pattern; plain_pattern] = None ->
   useProjectBaseUrl useRouteMatch props = ProjectBaseUrl.mk "" false)
  /\ (forall m,
        useRouteMatch [platform_pattern; plain_pattern] = Some m ->
        let r := useProjectBaseUrl useRouteMatch props in
        ProjectBaseUrl.isPlatformConsole r
        = match props ≫= Props.overrideIsPlatformConsole with
          | Some b => b
          | None => includes (RouteMatch.path m) "/platform/"
          end
        /\ ProjectBaseUrl.baseUrl r
           = "/" ++ RouteMatch.params_workspace m
             ++ (if ProjectBaseUrl.isPlatformConsole r then "/platform" else "")
             ++ "/" ++ RouteMatch.params_project m
        /\ (props ≫= Props.overrideIsPlatformConsole = None ->
            (RouteMatch.path m = platform_pattern ->
             ProjectBaseUrl.isPlatformConsole r = true)
            /\ (RouteMatch.path m = plain_pattern ->
                ProjectBaseUrl.isPlatformConsole r = false))).
Proof.
  unfold useProjectBaseUrl. split.
  - by intros ->.
  - intros m ->. cbv zeta.
    destruct (props ≫= Props.overrideIsPlatformConsole) as [b|]; simpl.
    + by repeat split.
    + repeat split; try done; by intros ->.
Qed.

Lemma useProjectBaseUrl_base_url_witness :
  useProjectBaseUrl ex_noMatch (Some (Props.mk (Some true)))
  = ProjectBaseUrl.mk "" false
  /\ useProjectBaseUrl ex_platformMatch None
     = ProjectBaseUrl.mk
         "/clv3gq0t50000356n1a2b3c4d/platform/clv3gq0t50001356n5e6f7g8h" true
  /\ useProjectBaseUrl ex_plainMatch None
     = ProjectBaseUrl.mk
         "/clv3gq0t50000356n1a2b3c4d/clv3gq0t50001356n5e6f7g8h" false
  /\ useProjectBaseUrl ex_plainMatch (Some (Props.mk (Some true)))
     = ProjectBaseUrl.mk
         "/clv3gq0t50000356n1a2b3c4d/platform/clv3gq0t50001356n5e6f7g8h" true.
Proof.
  split.
  - apply (proj1 (useProjectBaseUrl_base_url ex_noMatch
                    (Some (Props.mk (Some true))))).
    reflexivity.
  - pose proof (proj2 (useProjectBaseUrl_base_url ex_platformMatch None)
                  _ eq_refl) as (H1 & H2 & _).
    pose proof (proj2 (useProjectBaseUrl_base_url ex_plainMatch None)
                  _ eq_refl) as (H3 & H4 & _).
    pose proof (proj2 (useProjectBaseUrl_base_url ex_plainMatch
                         (Some (Props.mk (Some true)))) _ eq_refl)
      as (H5 & H6 & _).
    repeat split; reflexivity.
Defined.

(** * Further properties of the service *)

(** ** What [create] cancels *)

Lemma where_matches_create args x :
  where_matches (create_where args) x = true
  <-> OutdatedVersionAlert.resourceId x = args_resource args
      /\ OutdatedVersionAlert.type x
         = OutdatedVersionAlertCreateInput.type
             (CreateOutdatedVersionAlertArgs.data args)
      /\ OutdatedVersionAlert.status x = EnumOutdatedVersionAlertStatus.New
      /\ (forall b, args_block args = Some b ->
                    OutdatedVersionAlert.blockId x = Some b).
Proof.
  unfold where_matches, create_where, field_matches, args_resource, args_block.
  simpl. destruct (_ <$> _) as [b|]; simpl.
  - rewrite !andb_true_iff, !bool_decide_eq_true. split.
    + intros [[[? ?] ?] ?]. repeat split; try done. by intros ? [= <-].
    + intros (? & ? & ? & Hb). repeat split; try done. by apply Hb.
  - rewrite !andb_true_iff, !bool_decide_eq_true. split.
    + intros [[[? _] ?] ?]. by repeat split.
    + intros (? & ? & ? & _). by repeat split.
Qed.

(** The rows [create] sets to Canceled are exactly the open rows of the
    resource and type of the call that, when the call names a block, are on
    that block; a call without a block puts no condition on the block, so it
    also cancels open rows of that resource and type that carry one.  Every
    other row is left as it was, and a cancelled row changes in status
    only. *)
Theorem create_cancels_exactly args w i x :
  alerts w !! i = Some x ->
  (OutdatedVersionAlert.resourceId x = args_resource args
   /\ OutdatedVersionAlert.type x
      = OutdatedVersionAlertCreateInput.type
          (CreateOutdatedVersionAlertArgs.data args)
   /\ OutdatedVersionAlert.status x = EnumOutdatedVersionAlertStatus.New
   /\ (forall b, args_block args = Some b ->
                 OutdatedVersionAlert.blockId x = Some b) ->
   alerts (create args w).2 !! i
   = Some (OutdatedVersionAlert.with_status
             EnumOutdatedVersionAlertStatus.Canceled x))
  /\ (~ (OutdatedVersionAlert.resourceId x = args_resource args
         /\ OutdatedVersionAlert.type x
            = OutdatedVersionAlertCreateInput.type
                (CreateOutdatedVersionAlertArgs.data args)
         /\ OutdatedVersionAlert.status x = EnumOutdatedVersionAlertStatus.New
         /\ (forall b, args_block args = Some b ->
                       OutdatedVersionAlert.blockId x = Some b)) ->
      alerts (create args w).2 !! i = Some x).
Proof.
  intros Hi. rewrite create_run. simpl.
  rewrite lookup_app_l by (rewrite length_fmap; by eapply lookup_lt_Some).
  rewrite list_lookup_fmap, Hi. simpl. unfold set_status_where.
  destruct (where_matches (create_where args) x) eqn:E.
  - split; [done|]. intros Hn. by apply where_matches_create in E.
  - split; [|done]. intros Hm. apply where_matches_create in Hm. congruence.
Qed.

(** At the running example: a template alert for [svc-1], created without a
    block, leaves the plugin alert of [svc-1] alone (other type), and a
    plugin alert created for [block-1] cancels the one on that block. *)
Lemma create_cancels_exactly_witness :
  alerts (create (ex_args "1.2.0") ex_mixed).2 !! 0
  = Some (OutdatedVersionAlert.mk 0%N "svc-1" None
            EnumOutdatedVersionAlertType.TemplateVersion
            EnumOutdatedVersionAlertStatus.Canceled "1.0.0" "1.1.0")
  /\ alerts (create (ex_args "1.2.0") ex_mixed).2 !! 1
     = alerts ex_mixed !! 1
  /\ alerts (create ex_block_args ex_mixed).2 !! 1
     = Some (OutdatedVersionAlert.mk 1%N "svc-1" (Some "block-1")
               EnumOutdatedVersionAlertType.PluginVersion
               EnumOutdatedVersionAlertStatus.Canceled "0.1.0" "0.2.0").
Proof.
  split; [|split].
  - apply (create_cancels_exactly (ex_args "1.2.0") ex_mixed 0 _ eq_refl).
    repeat split. discriminate.
  - apply (create_cancels_exactly (ex_args "1.2.0") ex_mixed 1 _ eq_refl).
    intros (_ & ? & _). discriminate.
  - apply (create_cancels_exactly ex_block_args ex_mixed 1 _ eq_refl).
    repeat split. by intros ? [= <-].
Defined.

(** ** Rows are never removed, and only their status changes *)

Lemma same_but_status_refl x : same_but_status x x.
Proof. by repeat split. Qed.

Lemma same_but_status_trans x y z :
  same_but_status x y -> same_but_status y z -> same_but_status x z.
Proof.
  unfold same_but_status. intros (?&?&?&?&?&?) (?&?&?&?&?&?).
  repeat split; congruence.
Qed.

Lemma lifecycle_step_refl x : lifecycle_step x x.
Proof. split; [apply same_but_status_refl | by left]. Qed.

Lemma lifecycle_step_trans x y z :
  lifecycle_step x y -> lifecycle_step y z -> lifecycle_step x z.
Proof.
  intros [Hxy Sxy] [Hyz Syz]. split; [by eapply same_but_status_trans|].
  destruct Sxy as [Exy | [Hx Hy]], Syz as [Eyz | [Hy' Hz]].
  - left. congruence.
  - right. split; [congruence | done].
  - right. split; [done|]. rewrite Eyz. done.
  - destruct Hy as [Hy | Hy]; rewrite Hy in Hy'; discriminate.
Qed.

Lemma table_continues_refl step rows :
  (forall x, step x x) -> table_continues step rows rows.
Proof.
  intros Hrefl. exists rows, []. rewrite app_nil_r. split; [done|].
  by apply Forall2_same_length_lookup_2; [|intros i x y ? ?; simplify_eq].
Qed.

Lemma table_continues_trans step rows1 rows2 rows3 :
  (forall x y z, step x y -> step y z -> step x z) ->
  table_continues step rows1 rows2 ->
  table_continues step rows2 rows3 ->
  table_continues step rows1 rows3.
Proof.
  intros Htrans (kept1 & added1 & -> & H1) (kept2 & added2 & -> & H2).
  apply Forall2_app_inv_l in H2 as (k2a & k2b & Ha & Hb & ->).
  exists k2a, (k2b ++ added2)%list. split; [by rewrite app_assoc|].
  clear Hb. revert k2a Ha.
  induction H1 as [|x y rows kept Hxy _ IH]; intros k2a Ha.
  - apply Forall2_nil_inv_l in Ha as ->. constructor.
  - apply Forall2_cons_inv_l in Ha as (z & k2a' & Hyz & Ha & ->).
    constructor; [by eapply Htrans | by apply IH].
Qed.

Lemma where_matches_status wh x :
  UpdateManyWhere.status wh = Some EnumOutdatedVersionAlertStatus.New ->
  where_matches wh x = true ->
  OutdatedVersionAlert.status x = EnumOutdatedVersionAlertStatus.New.
Proof.
  intros Hst. unfold where_matches. rewrite Hst. simpl.
  rewrite !andb_true_iff, bool_decide_eq_true. by intros [_ ?].
Qed.

Lemma set_status_where_lifecycle wh s x :
  UpdateManyWhere.status wh = Some EnumOutdatedVersionAlertStatus.New ->
  s = EnumOutdatedVersionAlertStatus.Canceled
  \/ s = EnumOutdatedVersionAlertStatus.Resolved ->
  lifecycle_step x (set_status_where wh s x).
Proof.
  intros Hst Hs. unfold set_status_where.
  destruct (where_matches wh x) eqn:E; [|apply lifecycle_step_refl].
  split; [by repeat split|]. right. split; [|done].
  by eapply where_matches_status.
Qed.

Lemma updateMany_continues wh s rows :
  UpdateManyWhere.status wh = Some EnumOutdatedVersionAlertStatus.New ->
  s = EnumOutdatedVersionAlertStatus.Canceled
  \/ s = EnumOutdatedVersionAlertStatus.Resolved ->
  Forall2 lifecycle_step rows (set_status_where wh s <$> rows).
Proof.
  intros Hst Hs. induction rows as [|x rows IH]; [constructor|].
  rewrite fmap_cons. constructor; [by apply set_status_where_lifecycle | done].
Qed.

Lemma create_world_continues args w :
  table_continues lifecycle_step (alerts w) (alerts (create_world args w)).
Proof.
  eexists _, [_]. split; [reflexivity|].
  apply updateMany_continues; [done | by left].
Qed.

(** A loop continues the table when each of its turns does, also when a turn
    throws. *)
Lemma forOf_continues {A} step (body : A -> M unit) xs :
  (forall x, step x x) ->
  (forall x y z, step x y -> step y z -> step x z) ->
  (forall x w, table_continues step (alerts w) (alerts (body x w).2)) ->
  forall w, table_continues step (alerts w) (alerts (forOf xs body w).2).
Proof.
  intros Hrefl Htrans Hbody w.
  apply (forOf_preserves
           (fun w' => table_continues step (alerts w) (alerts w'))).
  - intros x w' Hw'. by eapply table_continues_trans.
  - by apply table_continues_refl.
Qed.

Lemma apply_update_same_but_status args x :
  same_but_status x (apply_update args x).
Proof.
  unfold apply_update. case_bool_decide; [|apply same_but_status_refl].
  destruct (UpdateOutdatedVersionAlertArgs.data_status args);
    [by repeat split | apply same_but_status_refl].
Qed.

(** No operation of the service removes a row or changes anything of a row
    but its status; new rows come after the old ones.  Under [create],
    [resolvesServiceTemplateUpdated] and both fan-outs (also when they
    throw) a status changes only from New, to Canceled or Resolved: a
    Canceled or Resolved alert is never reopened by them.  [update] may set
    any status but adds no row; the reading operations leave the world as it
    is. *)
Theorem rows_are_kept_and_only_status_changes :
  (forall args w,
     table_continues lifecycle_step (alerts w) (alerts (create args w).2))
  /\ (forall resourceId w,
        table_continues lifecycle_step (alerts w)
          (alerts (resolvesServiceTemplateUpdated resourceId w).2)
        /\ length (alerts (resolvesServiceTemplateUpdated resourceId w).2)
           = length (alerts w))
  /\ (forall resourceService projectService kafka configService encryptString
        clock TOPIC CLIENT_HOST templateResourceId outdatedVersion
        latestVersion userId w,
        table_continues lifecycle_step (alerts w)
          (alerts
             (triggerAlertsForTemplateVersion resourceService projectService
                kafka configService encryptString clock TOPIC CLIENT_HOST
                templateResourceId outdatedVersion latestVersion userId w).2))
  /\ (forall resourceService projectService pluginInstallationService kafka
        configService encryptString clock TOPIC CLIENT_HOST projectId
        pluginId newVersion userId w,
        table_continues lifecycle_step (alerts w)
          (alerts
             (triggerAlertsForNewPluginVersion resourceService projectService
                pluginInstallationService kafka configService encryptString
                clock TOPIC CLIENT_HOST projectId pluginId newVersion userId
                w).2))
  /\ (forall args user w,
        Forall2 same_but_status (alerts w) (alerts (update args user w).2))
  /\ (forall resourceTable alertCondition resourceCondition sortRows args id w,
        (findMany resourceTable alertCondition resourceCondition sortRows
           args w).2 = w
        /\ (count resourceTable alertCondition resourceCondition args w).2 = w
        /\ (findOne id w).2 = w).
Proof.
  split; [|split; [|split; [|split; [|split]]]].
  - intros args w. rewrite create_run. apply create_world_continues.
  - intros resourceId w. rewrite resolves_run. simpl.
    split; [|apply length_fmap].
    eexists _, []. rewrite app_nil_r. split; [reflexivity|].
    apply updateMany_continues; [done | by right].
  - intros. unfold triggerAlertsForTemplateVersion.
    destruct (ResourceService.resource _ _) as [template|];
      [|apply table_continues_refl, lifecycle_step_refl].
    case_bool_decide; [apply table_continues_refl, lifecycle_step_refl|].
    destruct outdatedVersion;
      [|apply table_continues_refl, lifecycle_step_refl].
    apply forOf_continues;
      [apply lifecycle_step_refl | apply lifecycle_step_trans |].
    intros x w0. rewrite templateVersionAlert_run. simpl.
    apply (create_world_continues _ w0).
  - intros. unfold triggerAlertsForNewPluginVersion.
    apply forOf_continues;
      [apply lifecycle_step_refl | apply lifecycle_step_trans |].
    intros x w0. rewrite pluginVersionAlert_run.
    destruct (ResourceService.resource _ _); simpl;
      apply (create_world_continues _ w0).
  - intros args user w. unfold update, prisma_update.
    destruct (list_find _ _) as [[? ?]|]; simpl.
    + induction (alerts w) as [|x rows IH]; [constructor|].
      rewrite fmap_cons. constructor;
        [apply apply_update_same_but_status | done].
    + apply Forall2_same_length_lookup_2; [done|].
      intros i x y ? ?. simplify_eq. apply same_but_status_refl.
  - done.
Qed.

(** ** Lookups by identifier *)

Lemma set_status_where_id wh s x :
  OutdatedVersionAlert.id (set_status_where wh s x) = OutdatedVersionAlert.id x.
Proof. unfold set_status_where. by destruct (where_matches wh x). Qed.

Lemma ids_set_status_where wh s (rows : list OutdatedVersionAlert.t) :
  OutdatedVersionAlert.id <$> (set_status_where wh s <$> rows)
  = OutdatedVersionAlert.id <$> rows.
Proof.
  rewrite <- list_fmap_compose. apply list_fmap_ext.
  intros i x _. apply set_status_where_id.
Qed.

Lemma apply_update_id args x :
  OutdatedVersionAlert.id (apply_update args x) = OutdatedVersionAlert.id x.
Proof. by destruct (apply_update_same_but_status args x) as [? _]. Qed.

Lemma ids_apply_update args (rows : list OutdatedVersionAlert.t) :
  OutdatedVersionAlert.id <$> (apply_update args <$> rows)
  = OutdatedVersionAlert.id <$> rows.
Proof.
  rewrite <- list_fmap_compose. apply list_fmap_ext.
  intros i x _. apply apply_update_id.
Qed.

Lemma store_ok_empty : store_ok emptyWorld.
Proof. split; constructor. Qed.

Lemma store_ok_updateMany wh s w :
  store_ok w ->
  store_ok (mkWorld (set_status_where wh s <$> alerts w) (nextId w)
              (history w) (logged w)).
Proof.
  intros [Hdup Hlt]. split; simpl.
  - by rewrite ids_set_status_where.
  - apply Forall_fmap. eapply Forall_impl; [exact Hlt|].
    intros x Hx. simpl. by rewrite set_status_where_id.
Qed.

Lemma store_ok_create_world args w :
  store_ok w -> store_ok (create_world args w).
Proof.
  intros [Hdup Hlt]. split; simpl.
  - rewrite fmap_app, ids_set_status_where. simpl.
    apply NoDup_app. split; [done|]. split; [|apply NoDup_singleton].
    intros i Hi Hi'. apply list_elem_of_singleton in Hi'. subst i.
    apply list_elem_of_fmap in Hi as (x & Hx & Hin).
    rewrite Forall_forall in Hlt. specialize (Hlt x Hin).
    change (OutdatedVersionAlert.id (create_row args w)) with (nextId w) in Hx.
    lia.
  - apply Forall_app. split.
    + apply Forall_fmap. eapply Forall_impl; [exact Hlt|].
      intros x Hx. simpl in *. rewrite set_status_where_id. lia.
    + constructor; [|constructor].
      change (OutdatedVersionAlert.id (create_row args w)) with (nextId w).
      lia.
Qed.

Lemma list_find_by_id (rows : list OutdatedVersionAlert.t) i a :
  NoDup (OutdatedVersionAlert.id <$> rows) ->
  rows !! i = Some a ->
  list_find (fun x => OutdatedVersionAlert.id x = OutdatedVersionAlert.id a)
    rows = Some (i, a).
Proof.
  intros Hdup Hi. apply list_find_Some. split; [done|]. split; [done|].
  intros j y Hj Hlt Heq.
  assert (i = j); [|lia].
  apply (NoDup_lookup (OutdatedVersionAlert.id <$> rows) i j
           (OutdatedVersionAlert.id a) Hdup).
  - by rewrite list_lookup_fmap, Hi.
  - rewrite list_lookup_fmap, Hj. simpl. by rewrite Heq.
Qed.

Lemma findOne_member w i a :
  store_ok w ->
  alerts w !! i = Some a ->
  findOne (OutdatedVersionAlert.id a) w = (Returned (Some a), w).
Proof.
  intros [Hdup _] Hi. unfold findOne.
  by rewrite (list_find_by_id _ i a).
Qed.

Lemma store_ok_ex_twice : store_ok ex_twice.
Proof.
  unfold ex_twice. rewrite !create_run. simpl.
  apply store_ok_create_world, store_ok_create_world, store_ok_empty.
Qed.

(** On a table with unique identifiers, [findOne] with the identifier of
    the alert [create] returned finds that alert, and [findOne] with the
    identifier of an older row finds that row as [create] left it. *)
Theorem findOne_after_create args w :
  store_ok w ->
  exists alert w',
    create args w = (Returned alert, w')
    /\ findOne (OutdatedVersionAlert.id alert) w' = (Returned (Some alert), w')
    /\ findOne (OutdatedVersionAlert.id alert) w = (Returned None, w)
    /\ forall i x,
         alerts w !! i = Some x ->
         findOne (OutdatedVersionAlert.id x) w' = (Returned (alerts w' !! i), w').
Proof.
  intros Hok. exists (create_row args w), (create_world args w).
  pose proof (store_ok_create_world args w Hok) as Hok'.
  split; [apply create_run|]. split; [|split].
  - apply (findOne_member _ (length (alerts w))); [done|]. simpl.
    rewrite lookup_app_r by (by rewrite length_fmap).
    by rewrite length_fmap, Nat.sub_diag.
  - unfold findOne.
    destruct (list_find _ _) as [[j y]|] eqn:E; [|done].
    apply list_find_Some in E as (Hj & Hid & _).
    destruct Hok as [_ Hlt]. rewrite Forall_forall in Hlt.
    apply list_elem_of_lookup_2, Hlt in Hj.
    change (OutdatedVersionAlert.id (create_row args w)) with (nextId w) in Hid.
    lia.
  - intros i x Hi.
    assert (alerts (create_world args w) !! i
            = Some (set_status_where (create_where args)
                      EnumOutdatedVersionAlertStatus.Canceled x)) as Hi'.
    { simpl. rewrite lookup_app_l
        by (rewrite length_fmap; by eapply lookup_lt_Some).
      by rewrite list_lookup_fmap, Hi. }
    rewrite Hi'. rewrite <- (set_status_where_id (create_where args)
                               EnumOutdatedVersionAlertStatus.Canceled x).
    by apply (findOne_member _ i).
Qed.

Lemma findOne_after_create_witness :
  exists alert w',
    create (ex_args "1.3.0") ex_twice = (Returned alert, w')
    /\ findOne (OutdatedVersionAlert.id alert) w' = (Returned (Some alert), w')
    /\ findOne (OutdatedVersionAlert.id alert) ex_twice
       = (Returned None, ex_twice).
Proof.
  destruct (findOne_after_create (ex_args "1.3.0") ex_twice store_ok_ex_twice)
    as (alert & w' & Hrun & Hnew & Hold & _).
  by exists alert, w'.
Defined.

(** [update] with an identifier that no row has rejects and leaves the world
    as it was.  On a table with unique identifiers, [update] with the
    identifier of a row replaces that row alone by its version with the new
    status (the row itself when the data carry no status), returns it, and
    a [findOne] with the identifier then finds it; nothing is inserted,
    emitted or logged, and no other alert is cancelled. *)
Theorem update_changes_one_row args user w :
  store_ok w ->
  ((forall x, x ∈ alerts w ->
              OutdatedVersionAlert.id x
              <> UpdateOutdatedVersionAlertArgs.where_id args) ->
   update args user w
   = (Thrown (RecordNotFound "Record to update not found."), w))
  /\ (forall i x,
        alerts w !! i = Some x ->
        OutdatedVersionAlert.id x = UpdateOutdatedVersionAlertArgs.where_id args ->
        let x' :=
          match UpdateOutdatedVersionAlertArgs.data_status args with
          | Some s => OutdatedVersionAlert.with_status s x
          | None => x
          end in
        exists w',
          update args user w = (Returned x', w')
          /\ alerts w' = <[i := x']> (alerts w)
          /\ nextId w' = nextId w /\ history w' = history w
          /\ logged w' = logged w
          /\ findOne (UpdateOutdatedVersionAlertArgs.where_id args) w'
             = (Returned (Some x'), w')).
Proof.
  intros Hok. split.
  - intros Hnone. unfold update, prisma_update.
    destruct (list_find _ _) as [[j y]|] eqn:E; [|done].
    apply list_find_Some in E as (Hj & Hid & _).
    by apply list_elem_of_lookup_2, Hnone in Hj.
  - intros i x Hi Hid x'. unfold update, prisma_update.
    destruct Hok as [Hdup Hlt].
    rewrite <- Hid, (list_find_by_id _ i x) by done. rewrite Hid.
    assert (apply_update args x = x') as Hx'.
    { unfold apply_update. by rewrite bool_decide_eq_true_2. }
    assert (apply_update args <$> alerts w = <[i := x']> (alerts w)) as Hrows.
    { apply list_eq. intros j. rewrite list_lookup_fmap.
      destruct (decide (j = i)) as [->|Hne].
      - rewrite Hi, list_lookup_insert_eq by (by eapply lookup_lt_Some).
        simpl. by rewrite Hx'.
      - rewrite list_lookup_insert_ne by done.
        destruct (alerts w !! j) as [y|] eqn:Hj; [|done]. simpl.
        unfold apply_update. rewrite bool_decide_eq_false_2; [done|].
        intros Hy. apply Hne.
        apply (NoDup_lookup (OutdatedVersionAlert.id <$> alerts w) j i
                 (OutdatedVersionAlert.id x) Hdup).
        + rewrite list_lookup_fmap, Hj. simpl. congruence.
        + by rewrite list_lookup_fmap, Hi. }
    eexists. split; [by rewrite Hx'|]. simpl.
    split; [done|]. do 3 (split; [done|]).
    assert (OutdatedVersionAlert.id x' = UpdateOutdatedVersionAlertArgs.where_id args)
      as <- by (by rewrite <- Hx', apply_update_id).
    apply (findOne_member _ i).
    + split; simpl.
      * by rewrite ids_apply_update.
      * apply Forall_fmap. eapply Forall_impl; [exact Hlt|].
        intros y Hy. simpl in *. by rewrite apply_update_id.
    + simpl. rewrite Hrows.
      apply list_lookup_insert_eq. by eapply lookup_lt_Some.
Qed.

(** At the running example: reopening the superseded alert of [svc-1]
    changes that row alone, and an identifier no row has is rejected. *)
Lemma update_changes_one_row_witness :
  update (UpdateOutdatedVersionAlertArgs.mk 7%N
            (Some EnumOutdatedVersionAlertStatus.Resolved)) ex_user ex_twice
  = (Thrown (RecordNotFound "Record to update not found."), ex_twice)
  /\ exists w',
       update ex_reopen ex_user ex_twice
       = (Returned (OutdatedVersionAlert.mk 0%N "svc-1" None
                      EnumOutdatedVersionAlertType.TemplateVersion
                      EnumOutdatedVersionAlertStatus.New "1.0.0" "1.1.0"), w')
       /\ OutdatedVersionAlert.status <$> alerts w'
          = [EnumOutdatedVersionAlertStatus.New;
             EnumOutdatedVersionAlertStatus.New].
Proof.
  split.
  - apply (update_changes_one_row _ ex_user ex_twice store_ok_ex_twice).
    intros x Hx. rewrite ex_twice_alerts in Hx.
    apply list_elem_of_In in Hx. simpl in Hx.
    destruct Hx as [<- | [<- | []]]; discriminate.
  - destruct (proj2 (update_changes_one_row ex_reopen ex_user ex_twice
                       store_ok_ex_twice) 0 _ eq_refl eq_refl)
      as (w' & Hrun & Hrows & _).
    exists w'. split; [exact Hrun|]. by rewrite Hrows.
Defined.

(** ** [resolvesServiceTemplateUpdated], once and again *)

Lemma set_status_where_idempotent wh s x :
  UpdateManyWhere.status wh = Some EnumOutdatedVersionAlertStatus.New ->
  s <> EnumOutdatedVersionAlertStatus.New ->
  set_status_where wh s (set_status_where wh s x) = set_status_where wh s x.
Proof.
  intros Hst Hs. unfold set_status_where.
  destruct (where_matches wh x) eqn:E; [|by rewrite E].
  destruct (where_matches wh (OutdatedVersionAlert.with_status s x)) eqn:E';
    [|done].
  by apply where_matches_status in E'.
Qed.

(** Resolving twice is resolving once.  After it no alert of the resource
    with type TemplateVersion is New, whatever its block; in particular a
    template alert that [create] has just inserted for the resource is
    Resolved by the next [resolvesServiceTemplateUpdated]. *)
Theorem resolvesServiceTemplateUpdated_idempotent resourceId w :
  (resolvesServiceTemplateUpdated resourceId ;;;
   resolvesServiceTemplateUpdated resourceId) w
  = resolvesServiceTemplateUpdated resourceId w
  /\ (forall b,
        new_in_scope
          (resourceId, b, EnumOutdatedVersionAlertType.TemplateVersion)
          (alerts (resolvesServiceTemplateUpdated resourceId w).2) = [])
  /\ (forall args,
        args_resource args = resourceId ->
        OutdatedVersionAlertCreateInput.type
          (CreateOutdatedVersionAlertArgs.data args)
        = EnumOutdatedVersionAlertType.TemplateVersion ->
        alerts
          ((alert <- create args ;;
            resolvesServiceTemplateUpdated resourceId) w).2
        !! length (alerts w)
        = Some (OutdatedVersionAlert.with_status
                  EnumOutdatedVersionAlertStatus.Resolved (create_row args w))).
Proof.
  split; [|split].
  - unfold bind. rewrite !resolves_run. simpl. f_equal. f_equal.
    rewrite <- list_fmap_compose. apply list_fmap_ext. intros i x _. simpl.
    by apply set_status_where_idempotent.
  - intros b. rewrite resolves_run. simpl. unfold new_in_scope.
    induction (alerts w) as [|x rows IH]; [done|].
    rewrite fmap_cons, filter_cons, IH. rewrite decide_False; [done|].
    intros [Hsc Hst]. rewrite scope_of_set_status_where in Hsc.
    unfold set_status_where in Hst.
    destruct (where_matches _ x) eqn:E; [done|].
    injection Hsc as Hr _ Ht.
    assert (where_matches
              (UpdateManyWhere.mk (Some resourceId) None
                 (Some EnumOutdatedVersionAlertType.TemplateVersion)
                 (Some EnumOutdatedVersionAlertStatus.New)) x = true)
      by (by apply where_matches_resolves).
    congruence.
  - intros args Hr Ht. unfold bind. rewrite create_run, resolves_run. simpl.
    rewrite list_lookup_fmap, lookup_app_r by (by rewrite length_fmap).
    rewrite length_fmap, Nat.sub_diag. simpl. f_equal.
    unfold set_status_where.
    assert (where_matches
              (UpdateManyWhere.mk (Some resourceId) None
                 (Some EnumOutdatedVersionAlertType.TemplateVersion)
                 (Some EnumOutdatedVersionAlertStatus.New))
              (create_row args w) = true) as ->; [|done].
    apply where_matches_resolves. by repeat split.
Qed.

(** ** Loops of [create]: what any fan-out does to the table *)

Lemma new_in_scope_set_status_frame wh s sc
    (rows : list OutdatedVersionAlert.t) :
  s <> EnumOutdatedVersionAlertStatus.New ->
  (forall a, is_New_in sc a -> where_matches wh a = false) ->
  new_in_scope sc (set_status_where wh s <$> rows) = new_in_scope sc rows.
Proof.
  intros Hs Hsep. unfold new_in_scope.
  induction rows as [|a rows IH]; [done|].
  rewrite fmap_cons, !filter_cons, IH.
  destruct (decide (is_New_in sc a)) as [Ha|Ha].
  - unfold set_status_where. rewrite (Hsep a Ha). by rewrite decide_True.
  - rewrite decide_False; [done|]. intros [Hsc Hst]. apply Ha.
    rewrite scope_of_set_status_where in Hsc. unfold set_status_where in Hst.
    by destruct (where_matches wh a).
Qed.

Section CreateLoop.

Context {A : Type}.
Variable body : A -> M unit.
Variable argsOf : A -> CreateOutdatedVersionAlertArgs.t.

(** Each turn leaves the table that [create] leaves. *)
Hypothesis body_alerts :
  forall x w, alerts (body x w).2 = alerts (create_world (argsOf x) w).

(** A turn for another scope does not catch the open rows of this one. *)
Hypothesis scopes_apart :
  forall y s a,
    args_scope (argsOf y) <> args_scope (argsOf s) ->
    is_New_in (args_scope (argsOf s)) a ->
    where_matches (create_where (argsOf y)) a = false.

Lemma create_loop_frame xs :
  forall w i x,
    alerts w !! i = Some x ->
    (forall y, y ∈ xs -> where_matches (create_where (argsOf y)) x = false) ->
    alerts (forOf xs body w).2 !! i = Some x.
Proof.
  induction xs as [|y rest IH]; intros w i x Hi Hfree; [done|].
  assert (alerts (body y w).2 !! i = Some x) as Hi1.
  { rewrite body_alerts. simpl.
    rewrite lookup_app_l by (rewrite length_fmap; by eapply lookup_lt_Some).
    rewrite list_lookup_fmap, Hi. simpl. unfold set_status_where.
    rewrite Hfree; [done|]. by left. }
  simpl. unfold bind.
  destruct (body y w) as [[[]|e] w1]; simpl in *; [|done].
  apply IH; [done|]. intros y' Hy'. apply Hfree. by right.
Qed.

Lemma create_loop_length xs :
  forall w,
    (forOf xs body w).1 = Returned tt ->
    length (alerts (forOf xs body w).2) = length (alerts w) + length xs.
Proof.
  induction xs as [|y rest IH]; intros w; [simpl; lia|].
  simpl. unfold bind. pose proof (body_alerts y w) as Hy.
  destruct (body y w) as [[[]|e] w1]; simpl in *; [|discriminate].
  intros Hret. rewrite (IH w1 Hret), Hy, length_app, length_fmap. simpl. lia.
Qed.

Lemma create_loop_scope_frame s xs :
  forall w,
    (forall y, y ∈ xs -> args_scope (argsOf y) <> args_scope (argsOf s)) ->
    new_in_scope (args_scope (argsOf s)) (alerts (forOf xs body w).2)
    = new_in_scope (args_scope (argsOf s)) (alerts w).
Proof.
  induction xs as [|y rest IH]; intros w Hfree; [done|].
  assert (new_in_scope (args_scope (argsOf s)) (alerts (body y w).2)
          = new_in_scope (args_scope (argsOf s)) (alerts w)) as Hy.
  { rewrite body_alerts. simpl. rewrite new_in_scope_app.
    rewrite new_in_scope_set_status_frame; [|done|].
    - unfold new_in_scope at 2. rewrite filter_cons, decide_False.
      + apply app_nil_r.
      + intros [Hsc _]. rewrite create_row_scope in Hsc.
        by apply (Hfree y); [left|].
    - intros a Ha. apply (scopes_apart y s a); [|done]. apply Hfree. by left. }
  simpl. unfold bind.
  destruct (body y w) as [[[]|e] w1]; simpl in *; [|done].
  rewrite IH; [done|]. intros y' Hy'. apply Hfree. by right.
Qed.

(** After a loop that ran to its end, every element has exactly one open
    alert in its scope: the row of the last turn for that scope. *)
Lemma create_loop_final xs :
  (forall x w, x ∈ xs -> (body x w).1 = Returned tt) ->
  forall w s,
    s ∈ xs ->
    exists s' n,
      s' ∈ xs
      /\ args_scope (argsOf s') = args_scope (argsOf s)
      /\ new_in_scope (args_scope (argsOf s)) (alerts (forOf xs body w).2)
         = [new_row n
              (OutdatedVersionAlertCreateInput.with_status
                 EnumOutdatedVersionAlertStatus.New
                 (CreateOutdatedVersionAlertArgs.data (argsOf s')))].
Proof.
  induction xs as [|y rest IH]; intros Hret w s Hs.
  { by apply elem_of_nil in Hs. }
  pose proof (Hret y w ltac:(by left)) as Hy.
  pose proof (body_alerts y w) as Hrows.
  simpl. unfold bind.
  destruct (body y w) as [[[]|e] w1] eqn:Ebody; simpl in *; [|discriminate].
  destruct (decide (Exists (fun y' => args_scope (argsOf y')
                                      = args_scope (argsOf s)) rest))
    as [Hex|Hnex].
  - apply Exists_exists in Hex as (s'' & Hin & Hsc).
    destruct (IH ltac:(intros x w' Hx; apply Hret; by right) w1 s'' Hin)
      as (s' & n & Hs' & Hsc' & Hnew).
    exists s', n. split; [by right|]. split; [congruence|].
    by rewrite <- Hsc.
  - rewrite <- Forall_Exists_neg, Forall_forall in Hnex.
    assert (s = y) as ->.
    { apply elem_of_cons in Hs as [->|Hs]; [done|]. by destruct (Hnex s Hs). }
    exists y, (nextId w). split; [by left|]. split; [done|].
    rewrite create_loop_scope_frame by done.
    rewrite Hrows. apply create_new_in_scope.
Qed.

End CreateLoop.

Section FanOutTables.

Variable resourceService : ResourceService.t.
Variable projectService : ProjectService.t.
Variable pluginInstallationService : PluginInstallationService.t.
Variable kafka : KafkaProducerService.t.
Variable configService : ConfigService.t.
Variable encryptString : string -> string.
Variable clock : nat -> Z.
Variable TOPIC : string.
Variable CLIENT_HOST : string.

Local Abbreviation template_turn :=
  (templateVersionAlert resourceService kafka configService encryptString
     clock TOPIC CLIENT_HOST).
Local Abbreviation plugin_turn :=
  (pluginVersionAlert resourceService kafka configService encryptString
     clock TOPIC CLIENT_HOST).

Lemma template_turn_alerts template workspace project latestVersion userId
    service w :
  alerts
    (template_turn template workspace project latestVersion userId service w).2
  = alerts
      (create_world (templateVersion_args resourceService latestVersion service)
         w).
Proof. by rewrite templateVersionAlert_run. Qed.

Lemma template_turn_returns template workspace project latestVersion userId
    service w :
  (template_turn template workspace project latestVersion userId service w).1
  = Returned tt.
Proof. by rewrite templateVersionAlert_run. Qed.

Lemma plugin_turn_alerts projectId project newVersion userId pi w :
  alerts (plugin_turn projectId project newVersion userId pi w).2
  = alerts (create_world (pluginVersion_args newVersion pi) w).
Proof.
  rewrite pluginVersionAlert_run. by destruct (ResourceService.resource _ _).
Qed.

Lemma plugin_turn_returns projectId project newVersion userId pi w :
  is_Some (ResourceService.resource resourceService
             (PluginInstallation.resourceId pi)) ->
  (plugin_turn projectId project newVersion userId pi w).1 = Returned tt.
Proof. intros [r Hr]. by rewrite pluginVersionAlert_run, Hr. Qed.

Lemma template_scopes_apart latestVersion y s a :
  args_scope (templateVersion_args resourceService latestVersion y)
  <> args_scope (templateVersion_args resourceService latestVersion s) ->
  is_New_in (args_scope (templateVersion_args resourceService latestVersion s))
    a ->
  where_matches
    (create_where (templateVersion_args resourceService latestVersion y)) a
  = false.
Proof.
  intros Hne [Hsc _]. apply not_true_is_false. intros Hm.
  apply where_matches_create in Hm as (Hr & _). apply Hne.
  unfold scope_of, args_scope in *. simpl in *.
  injection Hsc as Hs _ _. unfold args_resource in Hr. simpl in Hr.
  congruence.
Qed.

Lemma plugin_scopes_apart newVersion y s a :
  args_scope (pluginVersion_args newVersion y)
  <> args_scope (pluginVersion_args newVersion s) ->
  is_New_in (args_scope (pluginVersion_args newVersion s)) a ->
  where_matches (create_where (pluginVersion_args newVersion y)) a = false.
Proof.
  intros Hne [Hsc _]. apply not_true_is_false. intros Hm.
  apply where_matches_create in Hm as (Hr & _ & _ & Hb). apply Hne.
  specialize (Hb _ eq_refl).
  unfold scope_of, args_scope in *. simpl in *.
  injection Hsc as Hs Hbs _. unfold args_resource in Hr. simpl in Hr.
  congruence.
Qed.

Lemma template_loop_complete template workspace project latestVersion userId
    services :
  forall w,
    exists w' turns,
      forOf services
        (template_turn template workspace project latestVersion userId) w
      = (Returned tt, w')
      /\ history w' = (history w ++ flat_map (turn_effects TOPIC) turns)%list
      /\ Forall2
           (template_turn_spec resourceService configService encryptString
              CLIENT_HOST template workspace project latestVersion userId)
           services turns.
Proof.
  induction services as [|service rest IH]; intros w.
  - exists w, []. simpl. rewrite app_nil_r. by repeat split.
  - simpl forOf. unfold bind. rewrite templateVersionAlert_run. cbv zeta.
    match goal with |- context [forOf rest _ ?w1] =>
      destruct (IH w1) as (w' & turns & Hrun & Hhist & Hspec)
    end.
    rewrite Hrun. eexists w', ((_, _) :: turns).
    split; [reflexivity|]. split.
    + rewrite Hhist. simpl. by rewrite <- !app_assoc.
    + constructor; [|done]. by repeat split.
Qed.

End FanOutTables.

Lemma forOf_app {A} (body : A -> M unit) xs ys w :
  forOf (xs ++ ys) body w
  = match forOf xs body w with
    | (Returned _, w1) => forOf ys body w1
    | (Thrown e, w1) => (Thrown e, w1)
    end.
Proof.
  revert w. induction xs as [|x xs IH]; intros w; [done|].
  simpl. unfold bind. destruct (body x w) as [[[]|e] w1]; [apply IH | done].
Qed.

(** ** The template fan-out, for any number of services *)

(** For a template of kind ServiceTemplate and a non-null outdated version,
    whatever the services that reference the template (none, one, many) and
    whatever the producer answers, the fan-out returns; its effects are, for
    each service in turn, one alert and one event, with the fields the
    source gives them.  The outdated version recorded on an alert is the
    version the service's template settings give, not the argument
    [outdatedVersion], whose value is never read.  The table grows by one
    row for each service. *)
Theorem triggerAlertsForTemplateVersion_one_alert_per_service
    resourceService projectService kafka configService encryptString clock
    TOPIC CLIENT_HOST templateResourceId template outdatedVersion
    latestVersion userId w :
  ResourceService.resource resourceService templateResourceId = Some template ->
  Resource.resourceType template = EnumResourceType.ServiceTemplate ->
  exists w' turns,
    triggerAlertsForTemplateVersion resourceService projectService kafka
      configService encryptString clock TOPIC CLIENT_HOST templateResourceId
      (Some outdatedVersion) latestVersion userId w
    = (Returned tt, w')
    /\ history w' = (history w ++ flat_map (turn_effects TOPIC) turns)%list
    /\ Forall2
         (template_turn_spec resourceService configService encryptString
            CLIENT_HOST template
            (ResourceService.getResourceWorkspace resourceService
               templateResourceId)
            (ProjectService.findFirst projectService
               (Resource.projectId template))
            latestVersion userId)
         (ResourceService.resources resourceService templateResourceId
            (Resource.projectId template))
         turns
    /\ length (alerts w')
       = length (alerts w)
         + length (ResourceService.resources resourceService
                     templateResourceId (Resource.projectId template)).
Proof.
  intros Hfound Hkind. unfold triggerAlertsForTemplateVersion.
  rewrite Hfound, Hkind. rewrite bool_decide_eq_false_2 by (by intros []).
  match goal with |- context [forOf ?xs (?f ?t ?ws ?p ?lv ?u) w] =>
    destruct (template_loop_complete resourceService kafka configService
                encryptString clock TOPIC CLIENT_HOST t ws p lv u xs w)
      as (w' & turns & Hrun & Hhist & Hspec);
    pose proof (create_loop_length (f t ws p lv u)
                  (templateVersion_args resourceService lv)
                  (template_turn_alerts resourceService kafka configService
                     encryptString clock TOPIC CLIENT_HOST t ws p lv u)
                  xs w) as Hlen
  end.
  rewrite Hrun in Hlen |- *. exists w', turns. do 3 (split; [done|]).
  by apply Hlen.
Qed.

Lemma triggerAlertsForTemplateVersion_one_alert_per_service_witness :
  exists w' turns,
    triggerAlertsForTemplateVersion ex_resourceService ex_projectService
      ex_kafka ex_configService ex_encryptString ex_clock "tech-debt"
      "CLIENT_HOST" "tpl-1" (Some "0.0.1") "1.1.0" "user-1" ex_mixed
    = (Returned tt, w')
    /\ history w' = flat_map (turn_effects "tech-debt") turns
    /\ Forall2
         (template_turn_spec ex_resourceService ex_configService
            ex_encryptString "CLIENT_HOST" ex_template (Workspace.mk "ws-1")
            (Project.mk "proj-1" "Project" "ws-1") "1.1.0" "user-1")
         [ex_serviceA; ex_serviceB] turns
    /\ length (alerts w') = 6.
Proof.
  apply (triggerAlertsForTemplateVersion_one_alert_per_service
           ex_resourceService ex_projectService ex_kafka ex_configService
           ex_encryptString ex_clock "tech-debt" "CLIENT_HOST" "tpl-1"
           ex_template "0.0.1" "1.1.0" "user-1" ex_mixed);
    reflexivity.
Defined.

(** After the template fan-out (template of kind ServiceTemplate, non-null
    outdated version) every service of the fan-out has exactly one New
    alert of type TemplateVersion and no block in the table, whatever the
    table held before: it records the latest version of the call and the
    version of the service's template settings.  Triggering again supersedes
    the alerts of the run before. *)
Theorem triggerAlertsForTemplateVersion_leaves_one_open_alert_per_service
    resourceService projectService kafka configService encryptString clock
    TOPIC CLIENT_HOST templateResourceId template outdatedVersion
    latestVersion userId w service :
  ResourceService.resource resourceService templateResourceId = Some template ->
  Resource.resourceType template = EnumResourceType.ServiceTemplate ->
  service ∈ ResourceService.resources resourceService templateResourceId
              (Resource.projectId template) ->
  exists a,
    new_in_scope
      (Resource.id service, None, EnumOutdatedVersionAlertType.TemplateVersion)
      (alerts
         (triggerAlertsForTemplateVersion resourceService projectService kafka
            configService encryptString clock TOPIC CLIENT_HOST
            templateResourceId (Some outdatedVersion) latestVersion userId
            w).2)
    = [a]
    /\ OutdatedVersionAlert.latestVersion a = latestVersion
    /\ OutdatedVersionAlert.outdatedVersion a
       = ServiceTemplateVersion.version
           (ResourceService.getServiceTemplateSettings resourceService
              (Resource.id service) None).
Proof.
  intros Hfound Hkind Hin. unfold triggerAlertsForTemplateVersion.
  rewrite Hfound, Hkind. rewrite bool_decide_eq_false_2 by (by intros []).
  match goal with |- context [forOf ?xs (?f ?t ?ws ?p ?lv ?u) w] =>
    destruct (create_loop_final (f t ws p lv u)
                (templateVersion_args resourceService lv)
                (template_turn_alerts resourceService kafka configService
                   encryptString clock TOPIC CLIENT_HOST t ws p lv u)
                (template_scopes_apart resourceService lv)
                xs
                (fun x w' _ =>
                   template_turn_returns resourceService kafka configService
                     encryptString clock TOPIC CLIENT_HOST t ws p lv u x w')
                w service Hin)
      as (s' & n & Hs' & Hsc & Hnew)
  end.
  change (args_scope (templateVersion_args resourceService latestVersion service))
    with (Resource.id service, @None string,
          EnumOutdatedVersionAlertType.TemplateVersion) in Hsc, Hnew.
  eexists. split; [exact Hnew|]. split; [done|]. simpl.
  injection Hsc as Hid. by rewrite Hid.
Qed.

(** At the running example: a second run of the fan-out with a newer
    version leaves, for [svc-a], one open alert, and it is about the newer
    version. *)
Lemma triggerAlertsForTemplateVersion_leaves_one_open_alert_per_service_witness :
  let run latestVersion :=
    triggerAlertsForTemplateVersion ex_resourceService ex_projectService
      ex_kafka ex_configService ex_encryptString ex_clock "tech-debt"
      "CLIENT_HOST" "tpl-1" (Some "1.0.0") latestVersion "user-1" in
  exists a,
    new_in_scope ("svc-a", None, EnumOutdatedVersionAlertType.TemplateVersion)
      (alerts (run "1.2.0" (run "1.1.0" emptyWorld).2).2)
    = [a]
    /\ OutdatedVersionAlert.latestVersion a = "1.2.0"
    /\ OutdatedVersionAlert.outdatedVersion a = "1.0.0".
Proof.
  apply (triggerAlertsForTemplateVersion_leaves_one_open_alert_per_service
           ex_resourceService ex_projectService ex_kafka ex_configService
           ex_encryptString ex_clock "tech-debt" "CLIENT_HOST" "tpl-1"
           ex_template "1.0.0" "1.2.0" "user-1" _ ex_serviceA);
    [reflexivity | reflexivity |].
  apply list_elem_of_In. simpl. by left.
Defined.

(** ** What the fan-outs leave alone *)

(** The template fan-out never touches a row that is not New, that is not
    of type TemplateVersion, or whose resource is not one of the services it
    goes through; the plugin fan-out never touches a row that is not New,
    that is not of type PluginVersion, or that is not on the block and
    resource of one of the installations it goes through.  This holds
    whatever the outcome of the fan-out. *)
Theorem fan_outs_leave_other_rows_alone
    resourceService projectService pluginInstallationService kafka
    configService encryptString clock TOPIC CLIENT_HOST :
  (forall templateResourceId outdatedVersion latestVersion userId w i x,
     alerts w !! i = Some x ->
     OutdatedVersionAlert.status x <> EnumOutdatedVersionAlertStatus.New
     \/ OutdatedVersionAlert.type x
        <> EnumOutdatedVersionAlertType.TemplateVersion
     \/ (forall template,
           ResourceService.resource resourceService templateResourceId
           = Some template ->
           OutdatedVersionAlert.resourceId x
           ∉ Resource.id
             <$> ResourceService.resources resourceService templateResourceId
                   (Resource.projectId template)) ->
     alerts
       (triggerAlertsForTemplateVersion resourceService projectService kafka
          configService encryptString clock TOPIC CLIENT_HOST
          templateResourceId outdatedVersion latestVersion userId w).2 !! i
     = Some x)
  /\ (forall projectId pluginId newVersion userId w i x,
        alerts w !! i = Some x ->
        OutdatedVersionAlert.status x <> EnumOutdatedVersionAlertStatus.New
        \/ OutdatedVersionAlert.type x
           <> EnumOutdatedVersionAlertType.PluginVersion
        \/ (forall pi,
              pi ∈ PluginInstallationService.findPluginInstallationByPluginId
                     pluginInstallationService pluginId projectId ->
              ~ (OutdatedVersionAlert.resourceId x
                 = PluginInstallation.resourceId pi
                 /\ OutdatedVersionAlert.blockId x
                    = Some (PluginInstallation.id pi))) ->
        alerts
          (triggerAlertsForNewPluginVersion resourceService projectService
             pluginInstallationService kafka configService encryptString
             clock TOPIC CLIENT_HOST projectId pluginId newVersion userId w).2
        !! i
        = Some x).
Proof.
  split.
  - intros templateResourceId outdatedVersion latestVersion userId w i x Hi Hx.
    unfold triggerAlertsForTemplateVersion.
    destruct (ResourceService.resource _ _) as [template|]; [|done].
    case_bool_decide; [done|]. destruct outdatedVersion; [|done].
    eapply (create_loop_frame _ (templateVersion_args resourceService
                                   latestVersion));
      [apply template_turn_alerts | done |].
    intros y Hy. apply not_true_is_false. intros Hm.
    apply where_matches_create in Hm as (Hr & Ht & Hs & _).
    destruct Hx as [Hx | [Hx | Hx]]; [done | done |].
    apply (Hx template eq_refl). rewrite Hr.
    apply list_elem_of_fmap. by exists y.
  - intros projectId pluginId newVersion userId w i x Hi Hx.
    unfold triggerAlertsForNewPluginVersion.
    eapply (create_loop_frame _ (pluginVersion_args newVersion));
      [apply plugin_turn_alerts | done |].
    intros y Hy. apply not_true_is_false. intros Hm.
    apply where_matches_create in Hm as (Hr & Ht & Hs & Hb).
    destruct Hx as [Hx | [Hx | Hx]]; [done | done |].
    apply (Hx y Hy). split; [done|]. by apply Hb.
Qed.

(** At the running example: the template fan-out over [svc-a] and [svc-b]
    leaves the four alerts around [svc-1] as they were. *)
Lemma fan_outs_leave_other_rows_alone_witness :
  let w' :=
    (triggerAlertsForTemplateVersion ex_resourceService ex_projectService
       ex_kafka ex_configService ex_encryptString ex_clock "tech-debt"
       "CLIENT_HOST" "tpl-1" (Some "1.0.0") "1.1.0" "user-1" ex_mixed).2 in
  alerts w' !! 0 = alerts ex_mixed !! 0
  /\ alerts w' !! 1 = alerts ex_mixed !! 1.
Proof.
  intros w'. split.
  - apply (proj1 (fan_outs_leave_other_rows_alone ex_resourceService
                    ex_projectService ex_pluginInstallationService ex_kafka
                    ex_configService ex_encryptString ex_clock "tech-debt"
                    "CLIENT_HOST")
             "tpl-1" (Some "1.0.0") "1.1.0" "user-1" ex_mixed 0 _ eq_refl).
    right. right. intros template [= <-]. simpl.
    intros Hin. apply list_elem_of_In in Hin. simpl in Hin.
    destruct Hin as [? | [? | []]]; discriminate.
  - apply (proj1 (fan_outs_leave_other_rows_alone ex_resourceService
                    ex_projectService ex_pluginInstallationService ex_kafka
                    ex_configService ex_encryptString ex_clock "tech-debt"
                    "CLIENT_HOST")
             "tpl-1" (Some "1.0.0") "1.1.0" "user-1" ex_mixed 1 _ eq_refl).
    right. left. discriminate.
Defined.

(** ** The plugin fan-out: where it stops, what it leaves, what it sends *)

(** When the owning resources of the first installations resolve and that
    of the next one does not, the fan-out throws a [TypeError]; by then it
    has inserted and dispatched for each of the first installations, and it
    has inserted the alert of the unresolved one, which stays New in the
    table without any event; the installations after it get nothing. *)
Theorem triggerAlertsForNewPluginVersion_stops_at_first_unresolved
    resourceService projectService pluginInstallationService kafka
    configService encryptString clock TOPIC CLIENT_HOST projectId pluginId
    newVersion userId w resolved unresolved rest :
  PluginInstallationService.findPluginInstallationByPluginId
    pluginInstallationService pluginId projectId
  = (resolved ++ unresolved :: rest)%list ->
  Forall
    (fun pi =>
       is_Some (ResourceService.resource resourceService
                  (PluginInstallation.resourceId pi))) resolved ->
  ResourceService.resource resourceService
    (PluginInstallation.resourceId unresolved) = None ->
  exists w' turns a,
    triggerAlertsForNewPluginVersion resourceService projectService
      pluginInstallationService kafka configService encryptString clock TOPIC
      CLIENT_HOST projectId pluginId newVersion userId w
    = (Thrown (TypeError "Cannot read properties of null (reading 'name')"),
       w')
    /\ history w'
       = (history w ++ flat_map (turn_effects TOPIC) turns
          ++ [StoreCreate a])%list
    /\ Forall2 (plugin_turn_spec resourceService newVersion) resolved turns
    /\ (OutdatedVersionAlert.resourceId a
        = PluginInstallation.resourceId unresolved
        /\ OutdatedVersionAlert.blockId a
           = Some (PluginInstallation.id unresolved)
        /\ OutdatedVersionAlert.type a
           = EnumOutdatedVersionAlertType.PluginVersion
        /\ OutdatedVersionAlert.status a = EnumOutdatedVersionAlertStatus.New)
    /\ alerts w' !! (length (alerts w) + length resolved) = Some a
    /\ length (alerts w') = length (alerts w) + length resolved + 1.
Proof.
  intros Hpis Hres Hnone. unfold triggerAlertsForNewPluginVersion.
  rewrite Hpis, forOf_app.
  match goal with |- context [forOf resolved (?f ?pid ?p ?nv ?u) w] =>
    destruct (plugin_loop_complete resourceService kafka configService
                encryptString clock TOPIC CLIENT_HOST pid p nv u resolved
                Hres w) as (w1 & turns & Hrun & Hhist & Hspec);
    pose proof (create_loop_length (f pid p nv u) (pluginVersion_args nv)
                  (plugin_turn_alerts resourceService kafka configService
                     encryptString clock TOPIC CLIENT_HOST pid p nv u)
                  resolved w) as Hlen
  end.
  rewrite Hrun in Hlen |- *. simpl in Hlen. specialize (Hlen eq_refl).
  simpl forOf. unfold bind. rewrite pluginVersionAlert_run. cbv zeta.
  rewrite Hnone.
  eexists _, turns, _. split; [reflexivity|]. split; [|split; [done|]].
  { simpl. rewrite Hhist. by rewrite <- app_assoc. }
  split; [by repeat split|]. simpl. split.
  - rewrite lookup_app_r by (rewrite length_fmap; lia).
    rewrite length_fmap, Hlen, Nat.sub_diag. done.
  - rewrite length_app, length_fmap. simpl. lia.
Qed.

Lemma triggerAlertsForNewPluginVersion_stops_at_first_unresolved_witness :
  exists w' turns a,
    triggerAlertsForNewPluginVersion ex_resourceService_second_unresolved
      ex_projectService ex_pluginInstallationService ex_kafka ex_configService
      ex_encryptString ex_clock "tech-debt" "CLIENT_HOST" "proj-1"
      "plugin-aws-s3" "0.2.0" "user-1" emptyWorld
    = (Thrown (TypeError "Cannot read properties of null (reading 'name')"),
       w')
    /\ history w'
       = (flat_map (turn_effects "tech-debt") turns ++ [StoreCreate a])%list
    /\ length turns = 1
    /\ OutdatedVersionAlert.blockId a = Some "block-b"
    /\ length (alerts w') = 2.
Proof.
  destruct (triggerAlertsForNewPluginVersion_stops_at_first_unresolved
              ex_resourceService_second_unresolved ex_projectService
              ex_pluginInstallationService ex_kafka ex_configService
              ex_encryptString ex_clock "tech-debt" "CLIENT_HOST" "proj-1"
              "plugin-aws-s3" "0.2.0" "user-1" emptyWorld
              [ex_installationA] ex_installationB [] eq_refl
              ltac:(repeat constructor; by eexists) eq_refl)
    as (w' & turns & a & Hrun & Hhist & Hspec & (_ & Hb & _) & _ & Hlen).
  exists w', turns, a. split; [exact Hrun|]. split; [exact Hhist|].
  split; [by apply Forall2_length in Hspec|]. split; [exact Hb | exact Hlen].
Defined.

(** When the owning resource of every installation resolves, the plugin
    fan-out leaves, for each installation, exactly one New alert of type
    PluginVersion on that block and resource, about the new version: the
    alerts of two installations do not cancel each other, also on the same
    resource, and an open plugin alert that was there before for the block
    is superseded. *)
Theorem triggerAlertsForNewPluginVersion_leaves_one_open_alert_per_installation
    resourceService projectService pluginInstallationService kafka
    configService encryptString clock TOPIC CLIENT_HOST projectId pluginId
    newVersion userId w pi :
  Forall
    (fun pi =>
       is_Some (ResourceService.resource resourceService
                  (PluginInstallation.resourceId pi)))
    (PluginInstallationService.findPluginInstallationByPluginId
       pluginInstallationService pluginId projectId) ->
  pi ∈ PluginInstallationService.findPluginInstallationByPluginId
         pluginInstallationService pluginId projectId ->
  exists a pi',
    pi' ∈ PluginInstallationService.findPluginInstallationByPluginId
            pluginInstallationService pluginId projectId
    /\ PluginInstallation.id pi' = PluginInstallation.id pi
    /\ PluginInstallation.resourceId pi' = PluginInstallation.resourceId pi
    /\ new_in_scope
         (PluginInstallation.resourceId pi, Some (PluginInstallation.id pi),
          EnumOutdatedVersionAlertType.PluginVersion)
         (alerts
            (triggerAlertsForNewPluginVersion resourceService projectService
               pluginInstallationService kafka configService encryptString
               clock TOPIC CLIENT_HOST projectId pluginId newVersion userId
               w).2)
       = [a]
    /\ OutdatedVersionAlert.latestVersion a = newVersion
    /\ OutdatedVersionAlert.outdatedVersion a = PluginInstallation.version pi'.
Proof.
  intros Hres Hin. unfold triggerAlertsForNewPluginVersion.
  rewrite Forall_forall in Hres.
  match goal with |- context [forOf ?xs (?f ?pid ?p ?nv ?u) w] =>
    destruct (create_loop_final (f pid p nv u) (pluginVersion_args nv)
                (plugin_turn_alerts resourceService kafka configService
                   encryptString clock TOPIC CLIENT_HOST pid p nv u)
                (plugin_scopes_apart nv)
                xs
                (fun x w' Hx =>
                   plugin_turn_returns resourceService kafka configService
                     encryptString clock TOPIC CLIENT_HOST pid p nv u x w'
                     (Hres x Hx))
                w pi Hin)
      as (pi' & n & Hpi' & Hsc & Hnew)
  end.
  change (args_scope (pluginVersion_args newVersion pi))
    with (PluginInstallation.resourceId pi, Some (PluginInstallation.id pi),
          EnumOutdatedVersionAlertType.PluginVersion) in Hsc, Hnew.
  injection Hsc as Hr Hb.
  exists (new_row n
            (OutdatedVersionAlertCreateInput.with_status
               EnumOutdatedVersionAlertStatus.New
               (CreateOutdatedVersionAlertArgs.data
                  (pluginVersion_args newVersion pi')))), pi'.
  by repeat split.
Qed.

(** At the running example, on a table that already holds an open plugin
    alert: each of the two installations ends with one open alert. *)
Lemma triggerAlertsForNewPluginVersion_leaves_one_open_alert_per_installation_witness :
  let w' :=
    (triggerAlertsForNewPluginVersion ex_resourceService ex_projectService
       ex_pluginInstallationService ex_kafka ex_configService
       ex_encryptString ex_clock "tech-debt" "CLIENT_HOST" "proj-1"
       "plugin-aws-s3" "0.2.0" "user-1" ex_mixed).2 in
  (exists a,
     new_in_scope
       ("svc-a", Some "block-a", EnumOutdatedVersionAlertType.PluginVersion)
       (alerts w') = [a]
     /\ OutdatedVersionAlert.latestVersion a = "0.2.0")
  /\ (exists b,
        new_in_scope
          ("svc-b", Some "block-b", EnumOutdatedVersionAlertType.PluginVersion)
          (alerts w') = [b]
        /\ OutdatedVersionAlert.latestVersion b = "0.2.0").
Proof.
  intros w'.
  assert (Forall
            (fun pi =>
               is_Some (ResourceService.resource ex_resourceService
                          (PluginInstallation.resourceId pi)))
            (PluginInstallationService.findPluginInstallationByPluginId
               ex_pluginInstallationService "plugin-aws-s3" "proj-1")) as Hres
    by (repeat constructor; by eexists).
  split.
  - destruct (triggerAlertsForNewPluginVersion_leaves_one_open_alert_per_installation
                ex_resourceService ex_projectService
                ex_pluginInstallationService ex_kafka ex_configService
                ex_encryptString ex_clock "tech-debt" "CLIENT_HOST" "proj-1"
                "plugin-aws-s3" "0.2.0" "user-1" ex_mixed ex_installationA
                Hres ltac:(apply list_elem_of_In; simpl; by left))
      as (a & _ & _ & _ & _ & Hnew & Hlv & _).
    by exists a.
  - destruct (triggerAlertsForNewPluginVersion_leaves_one_open_alert_per_installation
                ex_resourceService ex_projectService
                ex_pluginInstallationService ex_kafka ex_configService
                ex_encryptString ex_clock "tech-debt" "CLIENT_HOST" "proj-1"
                "plugin-aws-s3" "0.2.0" "user-1" ex_mixed ex_installationB
                Hres ltac:(apply list_elem_of_In; simpl; by right; left))
      as (b & _ & _ & _ & _ & Hnew & Hlv & _).
    by exists b.
Defined.

(** Whatever the outcome of the plugin fan-out, every message it dispatches
    goes to the one topic and carries the project of the call, the
    workspace and name of that project, the configured client host, and the
    user identifier as [encryptString] gave it; every row it inserts is a
    New alert of type PluginVersion on a block, about the new version. *)
Theorem triggerAlertsForNewPluginVersion_payload
    resourceService projectService pluginInstallationService kafka
    configService encryptString clock TOPIC CLIENT_HOST projectId pluginId
    newVersion userId w :
  exists added,
    history
      (triggerAlertsForNewPluginVersion resourceService projectService
         pluginInstallationService kafka configService encryptString clock
         TOPIC CLIENT_HOST projectId pluginId newVersion userId w).2
    = (history w ++ added)%list
    /\ Forall
         (plugin_effect_spec configService encryptString CLIENT_HOST TOPIC
            projectId
            (ProjectService.findFirst projectService projectId)
            newVersion userId)
         added.
Proof.
  unfold triggerAlertsForNewPluginVersion.
  generalize (PluginInstallationService.findPluginInstallationByPluginId
                pluginInstallationService pluginId projectId).
  intros pis. revert w. induction pis as [|pi rest IH]; intros w.
  - exists []. simpl. by rewrite app_nil_r.
  - simpl forOf. unfold bind. rewrite pluginVersionAlert_run. cbv zeta.
    destruct (ResourceService.resource resourceService
                (PluginInstallation.resourceId pi)).
    + match goal with |- context [forOf rest _ ?w1] =>
        destruct (IH w1) as (added & Hhist & Hall)
      end.
      eexists (_ :: _ :: added). split.
      * rewrite Hhist. simpl. by rewrite <- !app_assoc.
      * constructor; [|constructor; [|done]]; by repeat split.
    + eexists [_]. split; [reflexivity|].
      constructor; [|constructor]. by repeat split.
Qed.

(** ** [findMany] and [count] *)

Section FindManyProperties.

Variable resourceTable : string -> option Resource.t.
Variable alertCondition : string -> JsValue -> OutdatedVersionAlert.t -> bool.
Variable resourceCondition : string -> JsValue -> Resource.t -> bool.

Local Abbreviation holds :=
  (where_holds resourceTable alertCondition resourceCondition).

Lemma where_holds_entry (where_ : gmap string JsValue) a k v :
  holds where_ a = true ->
  where_ !! k = Some v ->
  alert_entry_holds resourceTable alertCondition resourceCondition a (k, v)
  = true.
Proof.
  unfold where_holds. rewrite forallb_forall. intros Hall Hk.
  by apply Hall, list_elem_of_In, elem_of_map_to_list.
Qed.

Lemma findMany_where_keeps_conditions (where_ : option (gmap string JsValue))
    a :
  holds (findMany_where where_) a = true ->
  (forall k v,
     k <> "resource" -> default ∅ where_ !! k = Some v ->
     alertCondition k v a = true)
  /\ (forall fields k v r,
        default ∅ where_ !! "resource" = Some (JsObject fields) ->
        k <> "deletedAt" -> k <> "archived" ->
        fields !! k = Some v ->
        resourceTable (OutdatedVersionAlert.resourceId a) = Some r ->
        resourceCondition k v r = true).
Proof.
  intros Hholds. split.
  - intros k v Hk Hv.
    assert (findMany_where where_ !! k = Some v) as Hm
      by (unfold findMany_where; by rewrite lookup_insert_ne).
    apply (where_holds_entry _ a) in Hm; [|done].
    unfold alert_entry_holds in Hm. by rewrite bool_decide_eq_false_2 in Hm.
  - intros fields k v r Hres Hd Ha Hv Hr.
    destruct (findMany_where_resource where_) as (inner & Hin & _ & _ & Hrest).
    apply (where_holds_entry _ a) in Hin; [|done].
    unfold alert_entry_holds in Hin.
    rewrite bool_decide_eq_true_2, Hr, forallb_forall in Hin by done.
    assert (inner !! k = Some v) as Hk
      by (rewrite Hrest by done; by rewrite Hres).
    apply elem_of_map_to_list, list_elem_of_In, Hin in Hk.
    unfold resource_entry_holds in Hk.
    by rewrite !bool_decide_eq_false_2 in Hk.
Qed.

Lemma findMany_where_implies_callers (where_ : option (gmap string JsValue))
    a :
  default ∅ where_ !! "resource" = None
  \/ (exists fields,
        default ∅ where_ !! "resource" = Some (JsObject fields)
        /\ fields !! "deletedAt" = None /\ fields !! "archived" = None) ->
  holds (findMany_where where_) a = true ->
  holds (default ∅ where_) a = true.
Proof.
  intros Hcaller Hholds.
  destruct (findMany_where_keeps_conditions where_ a Hholds) as [Htop Hsub].
  unfold where_holds. apply forallb_forall. intros [k v] Hkv.
  apply list_elem_of_In, elem_of_map_to_list in Hkv.
  unfold alert_entry_holds. case_bool_decide as Hk; [|by apply Htop].
  subst k. destruct Hcaller as [Hnone | (fields & Hres & Hd & Ha)];
    [congruence|].
  rewrite Hres in Hkv. injection Hkv as <-.
  destruct (where_holds_resource _ _ _ _ _ Hholds) as (r & Hr & _).
  rewrite Hr. apply forallb_forall. intros [k' v'] Hk'.
  apply list_elem_of_In, elem_of_map_to_list in Hk'.
  unfold resource_entry_holds.
  assert (k' <> "deletedAt") by congruence.
  assert (k' <> "archived") by congruence.
  rewrite !bool_decide_eq_false_2 by done. by eapply Hsub.
Qed.

End FindManyProperties.

Lemma length_filter_impl {A} (P Q : A -> Prop) `{!forall x, Decision (P x)}
    `{!forall x, Decision (Q x)} (l : list A) :
  (forall x, P x -> Q x) -> length (filter P l) <= length (filter Q l).
Proof.
  intros Himpl. induction l as [|x l IH]; [done|].
  rewrite !filter_cons. destruct (decide (P x)) as [HP|HP].
  - rewrite decide_True by auto. simpl. lia.
  - destruct (decide (Q x)); simpl; lia.
Qed.

Lemma length_paginate {A} skip take_ (rows : list A) :
  length (paginate skip take_ rows)
  = match take_ with
    | Some n => n `min` (length rows - default 0 skip)
    | None => length rows - default 0 skip
    end.
Proof.
  unfold paginate. destruct take_; by rewrite ?length_take, length_drop.
Qed.

(** Every alert [findMany] returns meets the caller's own conditions: each
    entry of the caller's [where] under a key other than [resource], and
    each entry of the caller's [resource] filter other than [deletedAt] and
    [archived].  The service narrows the caller's filter and, these two
    keys apart, never drops a condition of it. *)
Theorem findMany_keeps_callers_conditions
    resourceTable alertCondition resourceCondition sortRows
    (sortRows_perm : forall o rows, sortRows o rows ≡ₚ rows) args w rows w'
    a :
  findMany resourceTable alertCondition resourceCondition sortRows args w
  = (Returned rows, w') ->
  a ∈ rows ->
  (forall k v,
     k <> "resource" ->
     default ∅ (FindManyOutdatedVersionAlertArgs.where_ args) !! k = Some v ->
     alertCondition k v a = true)
  /\ (forall fields k v r,
        default ∅ (FindManyOutdatedVersionAlertArgs.where_ args) !! "resource"
        = Some (JsObject fields) ->
        k <> "deletedAt" -> k <> "archived" ->
        fields !! k = Some v ->
        resourceTable (OutdatedVersionAlert.resourceId a) = Some r ->
        resourceCondition k v r = true).
Proof.
  intros [= <- <-] Ha. apply elem_of_paginate in Ha.
  rewrite sortRows_perm in Ha. apply list_elem_of_filter in Ha as [Hholds _].
  by apply findMany_where_keeps_conditions.
Qed.

(** At the running example, with a query language that knows the key
    [status]: the caller asks for New alerts and the one returned is New. *)
Lemma findMany_keeps_callers_conditions_witness :
  (forall o rows, ex_sortRows o rows ≡ₚ rows)
  /\ findMany ex_resourceTable ex_statusCondition ex_resourceCondition
       ex_sortRows ex_status_args ex_three_alerts_one_canceled
     = (Returned [ex_alert 3%N "svc-live"], ex_three_alerts_one_canceled)
  /\ ex_statusCondition "status" (JsString "New") (ex_alert 3%N "svc-live")
     = true.
Proof.
  assert (forall o rows, ex_sortRows o rows ≡ₚ rows) as Hperm by done.
  assert (findMany ex_resourceTable ex_statusCondition ex_resourceCondition
            ex_sortRows ex_status_args ex_three_alerts_one_canceled
          = (Returned [ex_alert 3%N "svc-live"], ex_three_alerts_one_canceled))
    as Hrun by (vm_compute; reflexivity).
  split; [exact Hperm|]. split; [exact Hrun|].
  apply (proj1 (findMany_keeps_callers_conditions ex_resourceTable
                  ex_statusCondition ex_resourceCondition ex_sortRows Hperm
                  ex_status_args ex_three_alerts_one_canceled _ _
                  (ex_alert 3%N "svc-live") Hrun
                  ltac:(apply list_elem_of_In; simpl; by left))
           "status" (JsString "New")); [discriminate | reflexivity].
Defined.

(** For the same arguments, [count] is never below the number of alerts
    [findMany] returns, provided the caller's filter says nothing itself on
    [deletedAt] and [archived] of the resource: [count] hands the caller's
    arguments to the store as they are and so also counts the alerts of
    deleted and archived resources, which [findMany] leaves out. *)
Theorem count_is_at_least_findMany
    resourceTable alertCondition resourceCondition sortRows
    (sortRows_perm : forall o rows, sortRows o rows ≡ₚ rows) args w :
  default ∅ (FindManyOutdatedVersionAlertArgs.where_ args) !! "resource" = None
  \/ (exists fields,
        default ∅ (FindManyOutdatedVersionAlertArgs.where_ args) !! "resource"
        = Some (JsObject fields)
        /\ fields !! "deletedAt" = None /\ fields !! "archived" = None) ->
  exists rows n,
    findMany resourceTable alertCondition resourceCondition sortRows args w
    = (Returned rows, w)
    /\ count resourceTable alertCondition resourceCondition args w
       = (Returned n, w)
    /\ length rows <= n.
Proof.
  intros Hcaller. eexists _, _. split; [reflexivity|]. split; [reflexivity|].
  rewrite !length_paginate, (Permutation_length (sortRows_perm _ _)).
  pose proof (length_filter_impl
                (fun a => where_holds resourceTable alertCondition
                            resourceCondition
                            (findMany_where
                               (FindManyOutdatedVersionAlertArgs.where_ args))
                            a = true)
                (fun a => where_holds resourceTable alertCondition
                            resourceCondition
                            (default ∅
                               (FindManyOutdatedVersionAlertArgs.where_ args))
                            a = true)
                (alerts w)
                (fun a => findMany_where_implies_callers resourceTable
                            alertCondition resourceCondition _ a Hcaller))
    as Hle.
  destruct (FindManyOutdatedVersionAlertArgs.take args); lia.
Qed.

(** At the running example: with no filter at all, [findMany] returns the
    alert of the live resource and [count] counts all three. *)
Lemma count_is_at_least_findMany_witness :
  (forall o rows, ex_sortRows o rows ≡ₚ rows)
  /\ exists rows n,
       findMany ex_resourceTable ex_alertCondition ex_resourceCondition
         ex_sortRows
         (FindManyOutdatedVersionAlertArgs.mk None None None None)
         ex_three_alerts
       = (Returned rows, ex_three_alerts)
       /\ count ex_resourceTable ex_alertCondition ex_resourceCondition
            (FindManyOutdatedVersionAlertArgs.mk None None None None)
            ex_three_alerts
          = (Returned n, ex_three_alerts)
       /\ length rows <= n.
Proof.
  assert (forall o rows, ex_sortRows o rows ≡ₚ rows) as Hperm by done.
  split; [exact Hperm|].
  apply (count_is_at_least_findMany ex_resourceTable ex_alertCondition
           ex_resourceCondition ex_sortRows Hperm).
  left. reflexivity.
Defined.

Example ex_count_over_findMany :
  (findMany ex_resourceTable ex_alertCondition ex_resourceCondition
     ex_sortRows (FindManyOutdatedVersionAlertArgs.mk None None None None)
     ex_three_alerts).1
  = Returned [ex_alert 1%N "svc-live"]
  /\ (count ex_resourceTable ex_alertCondition ex_resourceCondition
        (FindManyOutdatedVersionAlertArgs.mk None None None None)
        ex_three_alerts).1
     = Returned 3.
Proof. split; vm_compute; reflexivity. Qed.

(** * The team form *)

Lemma lookup_omit object paths k :
  omit object paths !! k
  = if decide (k ∈ paths) then None else default ∅ object !! k.
Proof.
  unfold omit. induction paths as [|p paths IH]; simpl.
  - done.
  - rewrite lookup_delete. destruct (decide (p = k)) as [->|Hne].
    + rewrite decide_True; [done|]. by left.
    + rewrite IH. destruct (decide (k ∈ paths)) as [Hin|Hnin].
      * rewrite decide_True; [done|]. by right.
      * rewrite decide_False; [done|].
        intros [->|?]%elem_of_cons; done.
Qed.

Lemma initial_keys_are_input k :
  k = "name" \/ k = "description" -> k ∉ NON_INPUT_GRAPHQL_PROPERTIES.
Proof.
  intros Hk Hin. apply list_elem_of_In in Hin. simpl in Hin.
  destruct Hk as [-> | ->]; intuition discriminate.
Qed.

Lemma lookup_TeamForm_initialValues defaultValues k :
  TeamForm_initialValues defaultValues !! k
  = if decide (k ∈ NON_INPUT_GRAPHQL_PROPERTIES) then None
    else match default ∅ defaultValues !! k with
         | Some v => Some v
         | None => INITIAL_VALUES !! k
         end.
Proof.
  unfold TeamForm_initialValues. cbv zeta.
  rewrite lookup_union, lookup_omit.
  destruct (decide (k ∈ NON_INPUT_GRAPHQL_PROPERTIES)) as [Hin|Hnin].
  - rewrite (left_id None _).
    unfold INITIAL_VALUES, NON_INPUT_GRAPHQL_PROPERTIES in *.
    apply list_elem_of_In in Hin. simpl in Hin.
    destruct Hin as [<-|[<-|[<-|[<-|[<-|[]]]]]]; reflexivity.
  - destruct (default ∅ defaultValues !! k) as [v|]; [|by rewrite (left_id None _)].
    by destruct (INITIAL_VALUES !! k).
Qed.

(** The initial values of the team form never hold one of the five
    properties the server owns ([id], [createdAt], [updatedAt],
    [__typename], [members]); every other entry of the default values is
    taken as it is; [name] and [description] are always there, as the empty
    string when the default values lack them; and no other key is added. *)
Theorem TeamForm_initialValues_entries defaultValues :
  (forall k, k ∈ NON_INPUT_GRAPHQL_PROPERTIES ->
             TeamForm_initialValues defaultValues !! k = None)
  /\ (forall k v,
        k ∉ NON_INPUT_GRAPHQL_PROPERTIES ->
        default ∅ defaultValues !! k = Some v ->
        TeamForm_initialValues defaultValues !! k = Some v)
  /\ is_Some (TeamForm_initialValues defaultValues !! "name")
  /\ is_Some (TeamForm_initialValues defaultValues !! "description")
  /\ (forall k,
        k = "name" \/ k = "description" ->
        default ∅ defaultValues !! k = None ->
        TeamForm_initialValues defaultValues !! k = Some (JsString ""))
  /\ (forall k,
        k <> "name" -> k <> "description" ->
        default ∅ defaultValues !! k = None ->
        TeamForm_initialValues defaultValues !! k = None).
Proof.
  split; [|split; [|split; [|split; [|split]]]].
  - intros k Hk. by rewrite lookup_TeamForm_initialValues, decide_True.
  - intros k v Hk Hv.
    by rewrite lookup_TeamForm_initialValues, decide_False, Hv.
  - rewrite lookup_TeamForm_initialValues.
    rewrite decide_False by (apply initial_keys_are_input; by left).
    by destruct (default ∅ defaultValues !! "name").
  - rewrite lookup_TeamForm_initialValues.
    rewrite decide_False by (apply initial_keys_are_input; by right).
    by destruct (default ∅ defaultValues !! "description").
  - intros k Hk Hnone. rewrite lookup_TeamForm_initialValues, Hnone.
    rewrite decide_False by (by apply initial_keys_are_input).
    by destruct Hk as [-> | ->].
  - intros k Hn Hd Hnone. rewrite lookup_TeamForm_initialValues, Hnone.
    destruct (decide _); [done|]. unfold INITIAL_VALUES.
    by rewrite lookup_insert_ne, lookup_singleton_ne.
Qed.

Example ex_team_initialValues :
  TeamForm_initialValues (Some ex_team)
  = {[ "name" := JsString "Platform"; "description" := JsString "";
       "color" := JsString "#20A4F3" ]}.
Proof. vm_compute. reflexivity. Qed.

(** Building the initial values from initial values changes nothing: what
    the form holds can be handed back to it as default values.  Without
    default values the form starts from [INITIAL_VALUES]. *)
Theorem TeamForm_initialValues_idempotent defaultValues :
  TeamForm_initialValues (Some (TeamForm_initialValues defaultValues))
  = TeamForm_initialValues defaultValues
  /\ TeamForm_initialValues None = INITIAL_VALUES.
Proof.
  split.
  - apply map_eq. intros k. rewrite !lookup_TeamForm_initialValues. simpl.
    rewrite lookup_TeamForm_initialValues.
    destruct (decide (k ∈ NON_INPUT_GRAPHQL_PROPERTIES)); [done|].
    destruct (default ∅ defaultValues !! k); [done|].
    by destruct (INITIAL_VALUES !! k).
  - apply map_eq. intros k. rewrite lookup_TeamForm_initialValues. simpl.
    rewrite lookup_empty. destruct (decide _) as [Hin|]; [|done].
    unfold INITIAL_VALUES, NON_INPUT_GRAPHQL_PROPERTIES in *.
    apply list_elem_of_In in Hin. simpl in Hin.
    destruct Hin as [<-|[<-|[<-|[<-|[<-|[]]]]]]; reflexivity.
Qed.

(** * The hook: what the flag tests *)

Lemma append_cons c (s t : string) : String c s ++ t = String c (s ++ t).
Proof. reflexivity. Qed.

Lemma append_nil_l (s : string) : "" ++ s = s.
Proof. reflexivity. Qed.

Lemma prefix_nil hay : String.prefix "" hay = true.
Proof. by destruct hay. Qed.

Lemma prefix_cons c needle d hay :
  String.prefix (String c needle) (String d hay)
  = if Ascii.ascii_dec c d then String.prefix needle hay else false.
Proof. reflexivity. Qed.

Lemma prefix_spec needle hay :
  String.prefix needle hay = true <-> exists post, hay = needle ++ post.
Proof.
  revert hay. induction needle as [|c needle IH]; intros hay.
  - rewrite prefix_nil. split; [by exists hay | done].
  - destruct hay as [|d hay].
    + split; [done | by intros [post ?]].
    + rewrite prefix_cons. destruct (Ascii.ascii_dec c d) as [->|Hne].
      * rewrite IH. split; intros [post Hpost]; exists post.
        -- by rewrite append_cons, Hpost.
        -- rewrite append_cons in Hpost. by injection Hpost.
      * split; [done|]. intros [post Hpost].
        rewrite append_cons in Hpost. by injection Hpost as <- _.
Qed.

Lemma includes_cons c hay needle :
  includes (String c hay) needle
  = String.prefix needle (String c hay) || includes hay needle.
Proof. reflexivity. Qed.

Lemma includes_spec hay needle :
  includes hay needle = true <-> exists pre post, hay = pre ++ needle ++ post.
Proof.
  induction hay as [|c hay IH].
  - change (includes "" needle) with (String.prefix needle "" || false).
    rewrite orb_false_r, prefix_spec. split.
    + intros [post Hpost]. by exists "", post.
    + intros (pre & post & Hpost). destruct pre; [by exists post | done].
  - rewrite includes_cons, orb_true_iff, prefix_spec, IH. split.
    + intros [[post Hpost] | (pre & post & Hpost)].
      * by exists "", post.
      * exists (String c pre), post. by rewrite append_cons, Hpost.
    + intros (pre & post & Hpost). destruct pre as [|d pre].
      * left. by exists post.
      * right. rewrite append_cons in Hpost. injection Hpost as _ Hpost.
        by exists pre, post.
Qed.

(** When the route matches and the caller gives no override, the hook
    reports the platform console exactly when the matched pattern contains
    [/platform/] somewhere, and then, and only then, the base URL has the
    [/platform] segment between workspace and project. *)
Theorem useProjectBaseUrl_flag_is_substring_test useRouteMatch m :
  useRouteMatch [platform_pattern; plain_pattern] = Some m ->
  let r := useProjectBaseUrl useRouteMatch None in
  (ProjectBaseUrl.isPlatformConsole r = true
   <-> exists pre post, RouteMatch.path m = pre ++ "/platform/" ++ post)
  /\ ((exists pre post, RouteMatch.path m = pre ++ "/platform/" ++ post) ->
      ProjectBaseUrl.baseUrl r
      = "/" ++ RouteMatch.params_workspace m ++ "/platform/"
        ++ RouteMatch.params_project m)
  /\ (~ (exists pre post, RouteMatch.path m = pre ++ "/platform/" ++ post) ->
      ProjectBaseUrl.baseUrl r
      = "/" ++ RouteMatch.params_workspace m ++ "/"
        ++ RouteMatch.params_project m).
Proof.
  intros Hm. unfold useProjectBaseUrl. rewrite Hm. simpl.
  split; [apply includes_spec|]. split.
  - intros Hsub. apply includes_spec in Hsub. by rewrite Hsub.
  - intros Hsub. rewrite <- includes_spec in Hsub.
    apply not_true_is_false in Hsub. by rewrite Hsub.
Qed.

Lemma useProjectBaseUrl_flag_is_substring_test_witness :
  ProjectBaseUrl.isPlatformConsole (useProjectBaseUrl ex_platformMatch None)
  = true
  /\ ProjectBaseUrl.baseUrl (useProjectBaseUrl ex_platformMatch None)
     = "/" ++ "clv3gq0t50000356n1a2b3c4d" ++ "/platform/"
       ++ "clv3gq0t50001356n5e6f7g8h".
Proof.
  destruct (useProjectBaseUrl_flag_is_substring_test ex_platformMatch _ eq_refl)
    as (Hflag & Hurl & _).
  assert (exists pre post,
            platform_pattern = pre ++ "/platform/" ++ post) as Hsub
    by (exists "/:workspace([A-Za-z0-9-]{20,})",
          ":project([A-Za-z0-9-]{20,})/"; reflexivity).
  split; [by apply Hflag | by apply Hurl].
Defined.
